(** * ToxicTide: the per-tick decision pipeline, embedded in Rocq

    The Python sources under [toxictide/] are translated function by
    function.  Conventions of the embedding:

    - a Python [float] is an exact rational ([Q]); equalities between
      computed numbers are stated with [==] ([Qeq]).  Rounding, NaN and
      infinities are outside the model;
    - a Python [int] is a [Z];
    - [dict[str, float]] is a [gmap string Q]; the order-book sides
      ([dict[float, float]]) are [gmap Qc Q], the key being the price in
      canonical form so that numerically equal prices are the same key;
    - [time.time()] is an explicit argument;
    - mutable objects ([OrderBook], [TradeTape], [SignalEngine],
      [RiskGuardian]) are records threaded through a state monad;
    - the pydantic models of [models.py] are records; their [Field]
      constraints are kept as [valid_*] predicates, and the functions
      below compute the arguments handed to the model constructors;
    - logging calls are dropped. *)

From Stdlib Require Import QArith Qminmax Qcanon Qround Lqa ZArith Lia Qabs.
From stdpp Require Import base gmap strings list sorting.

Local Open Scope Q_scope.

(** ** Numbers *)

(** [a < b] on floats, as a boolean. *)
Definition Qltb (a b : Q) : bool := negb (Qle_bool b a).

(** Python's [sum] over floats. *)
Definition Qsum (l : list Q) : Q := foldl Qplus 0 l.

(** ** models.py *)

Module Models.

(** [OrderBookLevel]: [price: float = Field(gt=0)], [size: float = Field(gt=0)]. *)
Record OrderBookLevel := mkLevel { level_price : Q; level_size : Q }.

Definition valid_level (l : OrderBookLevel) : Prop :=
  0 < level_price l /\ 0 < level_size l.

Inductive Level := OK | WARN | DANGER.

Inductive TradeSide := side_buy | side_sell | side_unknown.

(** [Trade]. *)
Record Trade := mkTrade {
  trade_ts : Q; trade_price : Q; trade_size : Q; trade_side : TradeSide }.

(** [FeatureVector]. *)
Record FeatureVector := mkFeatureVector {
  fv_ts : Q;
  fv_mid : Q;
  fv_spread : Q;
  fv_spread_bps : Q;
  fv_top_bid_sz : Q;
  fv_top_ask_sz : Q;
  fv_depth_bid_k : Q;
  fv_depth_ask_k : Q;
  fv_imb_k : Q;
  fv_micro_minus_mid : Q;
  fv_impact_buy_bps : Q;
  fv_impact_sell_bps : Q;
  fv_msg_rate : Q;
  fv_churn : Q;
  fv_vol : Q;
  fv_trades : Z;
  fv_avg_trade : Q;
  fv_max_trade : Q;
  fv_signed_imb : Q;
  fv_toxic : Q }.

(** The [Field(ge=0)] constraints of [FeatureVector] on the two impact
    fields; the only ones the risk cascade relies on. *)
Definition valid_fv_impacts (fv : FeatureVector) : Prop :=
  0 <= fv_impact_buy_bps fv /\ 0 <= fv_impact_sell_bps fv.

Inductive LiquidityState := THICK | THIN | LIQ_TOXIC.

(** [OrderbookAnomalyReport]. *)
Record OrderbookAnomalyReport := mkOAD {
  oad_ts : Q;
  oad_level : Level;
  oad_score : Q;
  oad_triggers : gmap string Q;
  oad_liquidity_state : LiquidityState }.

(** [VolumeAnomalyReport]. *)
Record VolumeAnomalyReport := mkVAD {
  vad_ts : Q;
  vad_level : Level;
  vad_score : Q;
  vad_triggers : gmap string Q;
  vad_events : gmap string bool }.

(** [MarketStressIndex]. *)
Record MarketStressIndex := mkStress {
  stress_ts : Q;
  stress_level : Level;
  stress_score : Q;
  stress_components : gmap string Q }.

Inductive PriceRegime := TREND_UP | TREND_DOWN | RANGE.
Inductive VolRegime := HIGHVOL | NORMALVOL | LOWVOL.
Inductive FlowRegime := TOXIC | ACTIVE | CALM.

(** [RegimeState]. *)
Record RegimeState := mkRegime {
  regime_ts : Q;
  price_regime : PriceRegime;
  vol_regime : VolRegime;
  flow_regime : FlowRegime;
  regime_confidence : Q }.

Inductive PositionSide := long | short.

(** [TradeCandidate]. *)
Record TradeCandidate := mkCandidate {
  cand_ts : Q;
  cand_side : PositionSide;
  entry_price : Q;
  stop_price : Q;
  tp_price : option Q;
  cand_confidence : Q;
  ttl_sec : Z;
  strategy : string }.

Inductive Action := ALLOW | ALLOW_WITH_REDUCTIONS | DENY.

(** [RiskDecision]. *)
Record RiskDecision := mkRiskDecision {
  risk_ts : Q;
  action : Action;
  size_usd : Q;
  max_slippage_bps : Q;
  cooldown_until_ts : option Q;
  reasons : list string;
  facts : gmap string Q }.

(** [size_usd: float = Field(ge=0)], [max_slippage_bps: float = Field(ge=0)]. *)
Definition valid_decision (d : RiskDecision) : Prop :=
  0 <= size_usd d /\ 0 <= max_slippage_bps d.

Inductive Mode := maker | taker | slicing | reduce_only.

Inductive OrderType := limit | market.

(** One entry of [ExecutionPlan.orders], a [dict[str, Any]] with the
    keys ["type"], ["side"], ["price"], ["size_usd"],
    ["time_delay_sec"], ["reduce_only"]; an absent key is [None]. *)
Record Order := mkOrder {
  order_type : OrderType;
  order_side : PositionSide;
  order_price : option Q;
  order_size_usd : Q;
  time_delay_sec : option Z;
  order_reduce_only : option bool }.

(** [ExecutionPlan]. *)
Record ExecutionPlan := mkPlan {
  plan_ts : Q;
  orders : list Order;
  mode : Mode;
  plan_reasons : list string }.

(** The [policy] dict; a key that is absent is [None], and every read
    is a [policy.get(key, default)]. *)
Record Policy := mkPolicy {
  max_daily_loss_pct : option Q;
  max_position_notional : option Q;
  max_trades_per_hour : option Z;
  impact_hard_cap_bps : option Q;
  impact_entry_cap_bps : option Q;
  allowed_strategies : option (list string) }.

(** The [account] dict, read with [account.get(key, default)]. *)
Record Account := mkAccount {
  balance : option Q;
  position_notional : option Q }.

(** The entries of the [config] dict that the pipeline indexes:
    [config["vad"]["toxic_warn"]], [config["vad"]["toxic_danger"]],
    [config["execution"]["slicing_threshold_bps"]]. *)
Record Config := mkConfig {
  vad_toxic_warn : Q;
  vad_toxic_danger : Q;
  execution_slicing_threshold_bps : Q }.

End Models.

Import Models.

(** ** features/impact.py *)

Module Impact.

Inductive Side := buy | sell.

(** The sentinel returned when the levels cannot absorb the order. *)
Definition sentinel : Q := 9999.9.

(** The [for level in levels] loop of [estimate_impact_bps], on the
    pair of locals [(remaining_usd, total_cost)]. *)
Fixpoint walk (levels : list OrderBookLevel) (remaining_usd total_cost : Q)
  : Q * Q :=
  match levels with
  | [] => (remaining_usd, total_cost)
  | level :: rest =>
      if Qle_bool remaining_usd 0 then (remaining_usd, total_cost)
      else
        let level_usd := level_price level * level_size level in
        let consumed_usd := Qmin remaining_usd level_usd in
        walk rest (remaining_usd - consumed_usd) (total_cost + consumed_usd)
  end.

(** [estimate_impact_bps(levels, side, qty_usd, mid)]; [None] is the
    [ZeroDivisionError] of a division by [mid = 0]. *)
Definition estimate_impact_bps
    (levels : list OrderBookLevel) (side : Side) (qty_usd mid : Q)
  : option Q :=
  if Qle_bool qty_usd 0 then Some 0
  else
    match levels with
    | [] => Some sentinel
    | _ =>
        let '(remaining_usd, total_cost) := walk levels qty_usd 0 in
        if Qltb 0 remaining_usd then Some sentinel
        else
          let avg_price :=
            if Qltb 0 qty_usd then total_cost / qty_usd else mid in
          if Qeq_bool mid 0 then None
          else
            let impact_bps :=
              match side with
              | buy => ((avg_price - mid) / mid) * 10000
              | sell => ((mid - avg_price) / mid) * 10000
              end in
            Some (Qmax 0 impact_bps)
    end.

(** Total quote depth of a list of levels. *)
Definition depth_usd (levels : list OrderBookLevel) : Q :=
  Qsum (map (fun l => level_price l * level_size l) levels).

(** What the specification asks for: the order is filled level by
    level, each level contributing [consumed_usd / price] base units,
    and the average fill price is quote spent over base bought (as
    [OrderBook.depth_to_price] computes it). *)
Fixpoint spec_fill (levels : list OrderBookLevel)
    (remaining_usd total_cost total_size : Q) : Q * Q * Q :=
  match levels with
  | [] => (remaining_usd, total_cost, total_size)
  | level :: rest =>
      if Qle_bool remaining_usd 0 then (remaining_usd, total_cost, total_size)
      else
        let level_usd := level_price level * level_size level in
        let consumed_usd := Qmin remaining_usd level_usd in
        spec_fill rest (remaining_usd - consumed_usd)
          (total_cost + consumed_usd)
          (total_size + consumed_usd / level_price level)
  end.

Definition spec_avg_fill_price (levels : list OrderBookLevel) (qty_usd : Q) : Q :=
  let '(_, total_cost, total_size) := spec_fill levels qty_usd 0 0 in
  total_cost / total_size.

Definition spec_impact_bps
    (levels : list OrderBookLevel) (side : Side) (qty_usd mid : Q) : Q :=
  let avg := spec_avg_fill_price levels qty_usd in
  match side with
  | buy => Qmax 0 (10000 * (avg - mid) / mid)
  | sell => Qmax 0 (10000 * (mid - avg) / mid)
  end.

(** The book of [test_sufficient_liquidity_buy]. *)
Definition test_asks : list OrderBookLevel :=
  [mkLevel 100 10; mkLevel 101 10].

(** The impact part of [FeatureEngine.compute] on a book state with
    both sides non-empty: the two calls of [estimate_impact_bps] on the
    top [K] levels, [K = min(20, len(bids), len(asks))], against
    [OrderBookState.mid]. *)
Definition compute_impacts (bids asks : list OrderBookLevel)
    (_impact_size_usd : Q) : option Q * option Q :=
  match bids, asks with
  | top_bid :: _, top_ask :: _ =>
      let mid := (level_price top_bid + level_price top_ask) / 2 in
      let levels_to_use := Nat.min 20 (Nat.min (length bids) (length asks)) in
      let bids_k := take levels_to_use bids in
      let asks_k := take levels_to_use asks in
      (estimate_impact_bps asks_k buy _impact_size_usd mid,
       estimate_impact_bps bids_k sell _impact_size_usd mid)
  | _, _ => (Some sentinel, Some sentinel)
  end.

End Impact.

(** ** Mutable objects: a state monad *)

Definition State (S A : Type) : Type := S -> A * S.

Definition ret {S A} (a : A) : State S A := fun s => (a, s).

Definition bind {S A B} (m : State S A) (k : A -> State S B) : State S B :=
  fun s => let '(a, s') := m s in k a s'.

(** Read an attribute of [self]. *)
Definition gets {S A} (f : S -> A) : State S A := fun s => (f s, s).

(** Assign to attributes of [self]. *)
Definition modify {S} (f : S -> S) : State S unit := fun s => (tt, f s).

Notation "x <- c ;; k" := (bind c (fun x => k))
  (at level 100, c at next level, right associativity).
Notation "c ;;; k" := (bind c (fun _ => k))
  (at level 100, right associativity).

(** [collections.deque(maxlen=n).append(x)]: when the deque is full the
    oldest entry is dropped. *)
Definition deque_append {A} (maxlen : nat) (d : list A) (x : A) : list A :=
  let d' := d ++ [x] in
  if (maxlen <? length d')%nat then drop 1 d' else d'.

(** [l[-n:]]. *)
Definition last_n {A} (n : nat) (l : list A) : list A :=
  drop (length l - n) l.

(** [np.max] and [np.min] of a non-empty array.  (On an empty array
    numpy raises; the callers below always pass a non-empty one.) *)
Definition np_max (l : list Q) : Q :=
  match l with
  | [] => 0
  | x :: r => foldl Qmax x r
  end.

Definition np_min (l : list Q) : Q :=
  match l with
  | [] => 0
  | x :: r => foldl Qmin x r
  end.

(** [np.mean]. *)
Definition np_mean (l : list Q) : Q := Qsum l / inject_Z (Z.of_nat (length l)).

(** ** strategy/signals.py *)

Module Signals.

(** [SignalEngine]: [_price_history] is a [deque(maxlen=100)] of
    [(ts, mid)] pairs. *)
Record SignalEngine := mkSignalEngine { _price_history : list (Q * Q) }.

Definition init : SignalEngine := mkSignalEngine [].

Section WithNumpyStd.

(** [np.std], the population standard deviation: it takes a square
    root and so has no rational model; the engine is parametric in
    it. *)
Variable np_std : list Q -> Q.

(** [SignalEngine._trend_breakout]. *)
Definition _trend_breakout (fv : FeatureVector) (regime : RegimeState)
  : State SignalEngine (option TradeCandidate) :=
  match price_regime regime with
  | RANGE => ret None
  | _ =>
      match flow_regime regime with
      | ACTIVE =>
          history <- gets _price_history ;;
          let prices := map snd history in
          let recent_high := np_max (last_n 20 prices) in
          let recent_low := np_min (last_n 20 prices) in
          let current_price := fv_mid fv in
          if Qltb (recent_high * 1.001) current_price then
            let stop_price := current_price * 0.995 in
            let tp_price := current_price * 1.01 in
            ret (Some (mkCandidate (fv_ts fv) long current_price
                         stop_price (Some tp_price) 0.7 300
                         "trend_breakout"))
          else if Qltb current_price (recent_low * 0.999) then
            let stop_price := current_price * 1.005 in
            let tp_price := current_price * 0.99 in
            ret (Some (mkCandidate (fv_ts fv) short current_price
                         stop_price (Some tp_price) 0.7 300
                         "trend_breakout"))
          else ret None
      | _ => ret None
      end
  end.

(** [SignalEngine._range_mean_revert]. *)
Definition _range_mean_revert (fv : FeatureVector) (regime : RegimeState)
  : State SignalEngine (option TradeCandidate) :=
  match price_regime regime with
  | RANGE =>
      match flow_regime regime with
      | CALM =>
          history <- gets _price_history ;;
          let prices := map snd history in
          let mean_price := np_mean (last_n 30 prices) in
          let std_price := np_std (last_n 30 prices) in
          let current_price := fv_mid fv in
          if Qltb current_price (mean_price - 1.5 * std_price) then
            let stop_price := current_price * 0.998 in
            let tp_price := mean_price in
            ret (Some (mkCandidate (fv_ts fv) long current_price
                         stop_price (Some tp_price) 0.6 600
                         "range_mean_revert"))
          else if Qltb (mean_price + 1.5 * std_price) current_price then
            let stop_price := current_price * 1.002 in
            let tp_price := mean_price in
            ret (Some (mkCandidate (fv_ts fv) short current_price
                         stop_price (Some tp_price) 0.6 600
                         "range_mean_revert"))
          else ret None
      | _ => ret None
      end
  | _ => ret None
  end.

(** [if "name" in allowed_strategies: candidate = strategy(...);
    if candidate: return candidate], followed by the rest. *)
Definition try_strategy (name : string) (allowed_strategies : list string)
    (strategy : State SignalEngine (option TradeCandidate))
    (otherwise : State SignalEngine (option TradeCandidate))
  : State SignalEngine (option TradeCandidate) :=
  if bool_decide (name ∈ allowed_strategies) then
    candidate <- strategy ;;
    match candidate with
    | Some c => ret (Some c)
    | None => otherwise
    end
  else otherwise.

(** [SignalEngine.generate]. *)
Definition generate (fv : FeatureVector) (regime : RegimeState)
    (policy : Policy) : State SignalEngine (option TradeCandidate) :=
  let ts := fv_ts fv in
  modify (fun self =>
    mkSignalEngine (deque_append 100 (_price_history self) (ts, fv_mid fv))) ;;;
  match flow_regime regime with
  | TOXIC => ret None
  | _ =>
      let allowed_strategies := default [] (allowed_strategies policy) in
      match allowed_strategies with
      | [] => ret None
      | _ =>
          history <- gets _price_history ;;
          if (length history <? 5)%nat then ret None
          else
            try_strategy "trend_breakout" allowed_strategies
              (_trend_breakout fv regime)
              (try_strategy "range_mean_revert" allowed_strategies
                 (_range_mean_revert fv regime)
                 (ret None))
      end
  end.

(** Feed a list of ticks to the engine, discarding the candidates
    (the warm-up loops of the unit tests). *)
Definition warm_up (fvs : list FeatureVector) (regime : RegimeState)
    (policy : Policy) (self : SignalEngine) : SignalEngine :=
  foldl (fun e fv => snd (generate fv regime policy e)) self fvs.

End WithNumpyStd.

(** [TestSignalEngine._create_feature(mid)], at time [ts]. *)
Definition _create_feature (ts mid : Q) : FeatureVector :=
  mkFeatureVector ts mid 1 5 10 10 50000 50000 0 0 5 5 10 1000 100 10 10 20 0 0.3.

(** [TestSignalEngine._create_regime]. *)
Definition _create_regime (p : PriceRegime) (f : FlowRegime) : RegimeState :=
  mkRegime 0 p NORMALVOL f 0.8.

Definition breakout_policy : Policy :=
  mkPolicy None None None None None (Some ["trend_breakout"]).

(** The 40 warm-up ticks of [test_trend_breakout_long]: mid
    [2000 + 0.5 i] at tick [i]. *)
Definition ascending_ticks : list FeatureVector :=
  map (fun i : nat =>
         _create_feature (inject_Z (Z.of_nat i))
           (2000 + inject_Z (Z.of_nat i) * 0.5))
      (seq 0 40).

End Signals.

(** ** market/orderbook.py *)

Module OrderBook.

(** The exceptions [apply_delta] can raise. *)
Inductive Exception := SequenceError | OrderbookInconsistentError.

(** [OrderBook]: two price-to-size dicts, the sequence number, the
    timestamp of the last update and the update counter. *)
Record OrderBook := mkOrderBook {
  _bids : gmap Qc Q;
  _asks : gmap Qc Q;
  _seq : Z;
  _last_update_ts : Q;
  _update_count : Z }.

(** [OrderBook.__init__]. *)
Definition init : OrderBook := mkOrderBook ∅ ∅ 0 0 0.

(** One element of [changes]: [{"side": ..., "price": ..., "size": ...}],
    the price and the size already converted by [float(...)]. *)
Record Change := mkChange {
  change_side : string; change_price : Q; change_size : Q }.

(** [list(d.keys())], as floats. *)
Definition keys (d : gmap Qc Q) : list Q :=
  map (fun kv => this (fst kv)) (map_to_list d).

(** [not d], for a dict. *)
Definition is_empty (d : gmap Qc Q) : bool :=
  match map_to_list d with [] => true | _ => false end.

(** [OrderBook.is_consistent]. *)
Definition is_consistent (self : OrderBook) : bool :=
  if is_empty (_bids self) || is_empty (_asks self) then true
  else
    let best_bid := np_max (keys (_bids self)) in
    let best_ask := np_min (keys (_asks self)) in
    if Qle_bool best_ask best_bid then false else true.

(** The body of the [for change in changes] loop. *)
Definition apply_change (self : OrderBook) (change : Change) : OrderBook :=
  let side := change_side change in
  let price := Q2Qc (change_price change) in
  let size := change_size change in
  if String.eqb side "bid" then
    if Qeq_bool size 0 then
      mkOrderBook (delete price (_bids self)) (_asks self) (_seq self)
        (_last_update_ts self) (_update_count self)
    else
      mkOrderBook (<[price := size]> (_bids self)) (_asks self) (_seq self)
        (_last_update_ts self) (_update_count self)
  else if String.eqb side "ask" then
    if Qeq_bool size 0 then
      mkOrderBook (_bids self) (delete price (_asks self)) (_seq self)
        (_last_update_ts self) (_update_count self)
    else
      mkOrderBook (_bids self) (<[price := size]> (_asks self)) (_seq self)
        (_last_update_ts self) (_update_count self)
  else self.

(** The three assignments after the loop. *)
Definition stamp (seq : Z) (now : Q) (self : OrderBook) : OrderBook :=
  mkOrderBook (_bids self) (_asks self) seq now (_update_count self + 1).

(** [OrderBook.apply_delta(changes, seq)], [now] being the value of
    [time.time()].  The result is the exception raised, if any. *)
Definition apply_delta (changes : list Change) (seq : Z) (now : Q)
  : State OrderBook (option Exception) :=
  stored <- gets _seq ;;
  if negb (seq =? stored + 1)%Z then ret (Some SequenceError)
  else
    modify (fun self => foldl apply_change self changes) ;;;
    modify (stamp seq now) ;;;
    consistent <- gets is_consistent ;;
    if negb consistent then ret (Some OrderbookInconsistentError)
    else ret None.

(** [OrderBook.apply_snapshot(bids, asks, seq)]. *)
Definition apply_snapshot (bids asks : list OrderBookLevel) (seq : Z) (now : Q)
  : State OrderBook (option Exception) :=
  let load := foldl (fun d l => <[Q2Qc (level_price l) := level_size l]> d) ∅ in
  modify (fun self =>
    mkOrderBook (load bids) (load asks) seq now (_update_count self + 1)) ;;;
  consistent <- gets is_consistent ;;
  if negb consistent then ret (Some OrderbookInconsistentError)
  else ret None.

(** A book with one bid at 100 and one ask at 101, at sequence 1. *)
Definition book1 : OrderBook :=
  snd (apply_snapshot [mkLevel 100 10] [mkLevel 101 15] 1 5 init).

(** A delta that posts a bid above the best ask. *)
Definition crossing_delta : list Change := [mkChange "bid" 102 1].

End OrderBook.

(** ** market/tape.py *)

Module Tape.

(** [TradeAggregation]. *)
Record TradeAggregation := mkAgg {
  vol : Q;
  trades : Z;
  buy_vol : Q;
  sell_vol : Q;
  avg_trade : Q;
  max_trade : Q;
  min_trade : Q;
  vwap : Q;
  signed_imbalance : Q }.

(** [TradeAggregation()], every field at its default. *)
Definition empty_aggregation : TradeAggregation := mkAgg 0 0 0 0 0 0 0 0 0.

(** [TradeTape]. *)
Record TradeTape := mkTape {
  _window_sec : Z;
  _trades : list Trade;
  _total_trades : Z }.

(** [while self._trades and self._trades[0].ts < cutoff_ts: popleft()]. *)
Fixpoint popleft_while (cutoff_ts : Q) (d : list Trade) : list Trade :=
  match d with
  | [] => []
  | t :: rest =>
      if Qltb (trade_ts t) cutoff_ts then popleft_while cutoff_ts rest
      else d
  end.

(** [TradeTape._cleanup(current_ts)]. *)
Definition _cleanup (current_ts : Q) : State TradeTape unit :=
  modify (fun self =>
    let cutoff_ts := current_ts - inject_Z (_window_sec self) in
    mkTape (_window_sec self) (popleft_while cutoff_ts (_trades self))
      (_total_trades self)).

(** [TradeTape.add(trade)], [now] being the clock read by [_cleanup]. *)
Definition add (trade : Trade) (now : Q) : State TradeTape unit :=
  modify (fun self =>
    mkTape (_window_sec self) (_trades self ++ [trade])
      (_total_trades self + 1)) ;;;
  _cleanup now.

(** [TradeTape.recent(sec)]; the clock is read twice, by [_cleanup]
    ([now1]) and for the cutoff ([now2]). *)
Definition recent (sec : option Z) (now1 now2 : Q)
  : State TradeTape (list Trade) :=
  _cleanup now1 ;;;
  trades <- gets _trades ;;
  match sec with
  | None => ret trades
  | Some sec =>
      let cutoff_ts := now2 - inject_Z sec in
      ret (filter (fun t => Qle_bool cutoff_ts (trade_ts t)) trades)
  end.

(** The locals [(buy_vol, sell_vol, total_notional, trade_sizes)] of
    [aggregate] after one iteration of [for t in trades]. *)
Definition aggregate_step (acc : Q * Q * Q * list Q) (t : Trade)
  : Q * Q * Q * list Q :=
  let '(buy_vol, sell_vol, total_notional, trade_sizes) := acc in
  let size := trade_size t in
  let notional := trade_price t * trade_size t in
  let trade_sizes := trade_sizes ++ [size] in
  let total_notional := total_notional + notional in
  match trade_side t with
  | side_buy => (buy_vol + size, sell_vol, total_notional, trade_sizes)
  | side_sell => (buy_vol, sell_vol + size, total_notional, trade_sizes)
  | side_unknown =>
      (buy_vol + size / 2, sell_vol + size / 2, total_notional, trade_sizes)
  end.

(** The body of [aggregate] after [trades = self.recent(sec)]. *)
Definition aggregate_trades (trades : list Trade) : TradeAggregation :=
  match trades with
  | [] => empty_aggregation
  | _ =>
      let '(buy_vol, sell_vol, total_notional, trade_sizes) :=
        foldl aggregate_step (0, 0, 0, []) trades in
      let total_vol := buy_vol + sell_vol in
      let trades_count := Z.of_nat (length trades) in
      let avg_trade :=
        if (0 <? trades_count)%Z then total_vol / inject_Z trades_count
        else 0 in
      let max_trade :=
        match trade_sizes with [] => 0 | _ => np_max trade_sizes end in
      let min_trade :=
        match trade_sizes with [] => 0 | _ => np_min trade_sizes end in
      let vwap :=
        if Qltb 0 total_vol then total_notional / total_vol else 0 in
      let signed_imb := (buy_vol - sell_vol) / (buy_vol + sell_vol + 1e-9) in
      mkAgg total_vol trades_count buy_vol sell_vol avg_trade max_trade
        min_trade vwap signed_imb
  end.

(** [TradeTape.aggregate(sec)]. *)
Definition aggregate (sec : option Z) (now1 now2 : Q)
  : State TradeTape TradeAggregation :=
  trades <- recent sec now1 now2 ;;
  ret (aggregate_trades trades).

(** What one trade adds to the buy and to the sell volume, in the
    words of the specification. *)
Definition buy_share (t : Trade) : Q :=
  match trade_side t with
  | side_buy => trade_size t
  | side_sell => 0
  | side_unknown => trade_size t / 2
  end.

Definition sell_share (t : Trade) : Q :=
  match trade_side t with
  | side_buy => 0
  | side_sell => trade_size t
  | side_unknown => trade_size t / 2
  end.

End Tape.

(** ** risk/reason_codes.py *)

Module ReasonCodes.
Definition DATA_INCONSISTENT : string := "DATA_INCONSISTENT".
Definition DATA_STALE : string := "DATA_STALE".
Definition DAILY_LOSS_EXCEEDED : string := "DAILY_LOSS_EXCEEDED".
Definition COOLDOWN_ACTIVE : string := "COOLDOWN_ACTIVE".
Definition POSITION_LIMIT_EXCEEDED : string := "POSITION_LIMIT_EXCEEDED".
Definition IMPACT_HARD_CAP_EXCEEDED : string := "IMPACT_HARD_CAP_EXCEEDED".
Definition IMPACT_ENTRY_CAP_EXCEEDED : string := "IMPACT_ENTRY_CAP_EXCEEDED".
Definition TOXIC_DANGER_LEVEL : string := "TOXIC_DANGER_LEVEL".
Definition TOXIC_WARN_LEVEL : string := "TOXIC_WARN_LEVEL".
Definition MARKET_STRESS_DANGER : string := "MARKET_STRESS_DANGER".
Definition TRADE_FREQUENCY_EXCEEDED : string := "TRADE_FREQUENCY_EXCEEDED".
Definition RISK_POSITION_SIZE_REDUCED : string := "RISK_POSITION_SIZE_REDUCED".
Definition NO_SIGNAL : string := "NO_SIGNAL".
End ReasonCodes.

Import ReasonCodes.

(** ** risk/tilt.py *)

Module Tilt.

(** [TiltTracker]: the deque of [(ts, pnl)] pairs, the running daily
    PnL and the date of the last reset. *)
Record TiltTracker := mkTilt {
  _trades : list (Q * Q);
  _daily_pnl : Q;
  _last_reset_date : option string }.

Definition init : TiltTracker := mkTilt [] 0 None.

(** [TiltTracker.record_trade(ts, pnl)]; [current_date] is
    [datetime.fromtimestamp(ts).strftime("%Y-%m-%d")]. *)
Definition record_trade (current_date : string) (ts pnl : Q)
  : State TiltTracker unit :=
  last <- gets _last_reset_date ;;
  (if bool_decide (last = Some current_date) then ret tt
   else modify (fun self => mkTilt (_trades self) 0 (Some current_date))) ;;;
  modify (fun self =>
    mkTilt (_trades self ++ [(ts, pnl)]) (_daily_pnl self + pnl)
      (_last_reset_date self)).

(** [TiltTracker.trades_last_hour(ts)]:
    [sum(1 for t, _ in self._trades if t >= cutoff)]. *)
Definition trades_last_hour (ts : Q) : State TiltTracker Z :=
  let cutoff := ts - 3600 in
  trades <- gets _trades ;;
  let count :=
    foldl (fun acc (e : Q * Q) =>
             if Qle_bool cutoff (fst e) then (acc + 1)%Z else acc)
          0%Z trades in
  ret count.

(** [TiltTracker.daily_pnl_pct(balance)]. *)
Definition daily_pnl_pct (balance : Q) : State TiltTracker Q :=
  if Qle_bool balance 0 then ret 0
  else
    daily_pnl <- gets _daily_pnl ;;
    ret ((daily_pnl / balance) * 100).

End Tilt.

(** ** risk/guardian.py *)

Module Guardian.

(** [RiskGuardian] (the event bus is never used by the methods below). *)
Record RiskGuardian := mkGuardian {
  _config : Config;
  _tilt : Tilt.TiltTracker;
  _cooldown_until : option Q;
  _last_book_update_ts : Q }.

(** [RiskGuardian.__init__(config, bus)], [now] being [time.time()]. *)
Definition init (config : Config) (now : Q) : RiskGuardian :=
  mkGuardian config Tilt.init None now.

(** Run a method of [self._tilt]. *)
Definition on_tilt {A} (m : State Tilt.TiltTracker A) : State RiskGuardian A :=
  fun self =>
    let '(a, tilt') := m (_tilt self) in
    (a, mkGuardian (_config self) tilt' (_cooldown_until self)
          (_last_book_update_ts self)).


(** [RiskGuardian.update_book_timestamp(ts)]. *)
Definition update_book_timestamp (ts : Q) : State RiskGuardian unit :=
  modify (fun self =>
    mkGuardian (_config self) (_tilt self) (_cooldown_until self) ts).

(** [RiskGuardian.record_trade(ts, pnl)]. *)
Definition record_trade (current_date : string) (ts pnl : Q)
  : State RiskGuardian unit :=
  on_tilt (Tilt.record_trade current_date ts pnl).

(** The [RiskDecision(ts=ts, action="DENY", size_usd=0.0,
    max_slippage_bps=0.0, reasons=..., facts=...)] of every early
    return. *)
Definition deny (ts : Q) (reasons : list string) (facts : gmap string Q)
  : RiskDecision :=
  mkRiskDecision ts DENY 0 0 None reasons facts.

(** [self._cooldown_until and ts < self._cooldown_until]: [None] and
    [0.0] are both falsy. *)
Definition cooldown_active (cooldown_until : option Q) (ts : Q) : bool :=
  match cooldown_until with
  | None => false
  | Some c => negb (Qeq_bool c 0) && Qltb ts c
  end.

(** [fv.impact_buy_bps if candidate.side == "long" else fv.impact_sell_bps]. *)
Definition impact_side (candidate : TradeCandidate) (fv : FeatureVector) : Q :=
  match cand_side candidate with
  | long => fv_impact_buy_bps fv
  | short => fv_impact_sell_bps fv
  end.

(** [vad.triggers.get("toxic", 0.0)]. *)
Definition toxic_of (vad : VolumeAnomalyReport) : Q :=
  default 0 (vad_triggers vad !! "toxic").

(** The tail of [assess] from "允许交易，但可能减仓" on: no rule denied. *)
Definition reductions (self_config : Config) (ts : Q)
    (stress : MarketStressIndex) (policy : Policy)
    (position_notional impact_bps impact_entry_cap toxic : Q)
    (reasons : list string) (facts : gmap string Q) : RiskDecision :=
  let max_position := default 3000 (max_position_notional policy) in
  let base_size := Qmin 1000 (max_position - position_notional) in
  let size_multiplier := 1 in
  let '(size_multiplier, reasons) :=
    if Qltb impact_entry_cap impact_bps
    then (size_multiplier * 0.5, reasons ++ [IMPACT_ENTRY_CAP_EXCEEDED])
    else (size_multiplier, reasons) in
  let toxic_warn := vad_toxic_warn self_config in
  let '(size_multiplier, reasons, facts) :=
    if Qle_bool toxic_warn toxic
    then (size_multiplier * 0.7, reasons ++ [TOXIC_WARN_LEVEL],
          <["toxic_warn" := toxic_warn]> facts)
    else (size_multiplier, reasons, facts) in
  let size_multiplier :=
    match stress_level stress with
    | WARN => size_multiplier * 0.5
    | _ => size_multiplier
    end in
  let final_size := base_size * size_multiplier in
  let '(action, reasons, facts) :=
    if Qltb size_multiplier 1
    then (ALLOW_WITH_REDUCTIONS,
          reasons ++ [RISK_POSITION_SIZE_REDUCED],
          <["reduced_size" := final_size]>
            (<["original_size" := base_size]> facts))
    else (ALLOW, reasons, facts) in
  let max_slippage_bps := Qmin (impact_bps * 1.5) 15 in
  mkRiskDecision ts action final_size max_slippage_bps None reasons facts.

(** [RiskGuardian.assess(candidate, fv, oad, vad, stress, account, policy)]. *)
Definition assess (candidate : option TradeCandidate) (fv : FeatureVector)
    (oad : OrderbookAnomalyReport) (vad : VolumeAnomalyReport)
    (stress : MarketStressIndex) (account : Account) (policy : Policy)
  : State RiskGuardian RiskDecision :=
  let ts := fv_ts fv in
  let reasons : list string := [] in
  let facts : gmap string Q := ∅ in
  match candidate with
  | None => ret (deny ts [NO_SIGNAL] ∅)
  | Some candidate =>
  (* priority 1: data quality *)
  let data_stale_threshold := 10 in
  last_book_update_ts <- gets _last_book_update_ts ;;
  if Qltb data_stale_threshold (ts - last_book_update_ts) then
    ret (deny ts (reasons ++ [DATA_STALE])
           (<["stale_sec" := ts - last_book_update_ts]> facts))
  else if Qle_bool (fv_spread fv) 0 then
    ret (deny ts (reasons ++ [DATA_INCONSISTENT])
           (<["spread" := fv_spread fv]> facts))
  else
  (* priority 2: daily loss circuit breaker *)
  let balance := default 10000 (balance account) in
  daily_pnl_pct <- on_tilt (Tilt.daily_pnl_pct balance) ;;
  let max_daily_loss_pct := default 1 (max_daily_loss_pct policy) in
  let facts := <["daily_pnl_pct" := daily_pnl_pct]> facts in
  let facts := <["max_daily_loss_pct" := max_daily_loss_pct]> facts in
  if Qltb daily_pnl_pct (- max_daily_loss_pct) then
    ret (deny ts (reasons ++ [DAILY_LOSS_EXCEEDED]) facts)
  else
  (* priority 3: cooldown *)
  cooldown_until <- gets _cooldown_until ;;
  if cooldown_active cooldown_until ts then
    ret (deny ts (reasons ++ [COOLDOWN_ACTIVE])
           (<["cooldown_remaining_sec" := default 0 cooldown_until - ts]> facts))
  else
  (* priority 4: position cap *)
  let position_notional := default 0 (position_notional account) in
  let max_position_notional := default 3000 (max_position_notional policy) in
  let facts := <["position_notional" := position_notional]> facts in
  let facts := <["max_position_notional" := max_position_notional]> facts in
  if Qle_bool max_position_notional position_notional then
    ret (deny ts (reasons ++ [POSITION_LIMIT_EXCEEDED]) facts)
  else
  (* priority 5: impact and toxicity *)
  let impact_bps := impact_side candidate fv in
  let toxic := toxic_of vad in
  let impact_hard_cap := default 20 (impact_hard_cap_bps policy) in
  let impact_entry_cap := default 10 (impact_entry_cap_bps policy) in
  toxic_danger <- gets (fun self => vad_toxic_danger (_config self)) ;;
  let facts := <["impact_bps" := impact_bps]> facts in
  let facts := <["toxic" := toxic]> facts in
  let facts := <["hard_cap_bps" := impact_hard_cap]> facts in
  let facts := <["entry_cap_bps" := impact_entry_cap]> facts in
  let facts := <["toxic_danger" := toxic_danger]> facts in
  if Qltb impact_hard_cap impact_bps then
    ret (deny ts (reasons ++ [IMPACT_HARD_CAP_EXCEEDED]) facts)
  else if Qle_bool toxic_danger toxic then
    ret (deny ts (reasons ++ [TOXIC_DANGER_LEVEL]) facts)
  else
  (* priority 6: market stress *)
  match stress_level stress with
  | DANGER => ret (deny ts (reasons ++ [MARKET_STRESS_DANGER]) facts)
  | _ =>
  (* priority 7: trade frequency *)
  trades_last_hour <- on_tilt (Tilt.trades_last_hour ts) ;;
  let max_trades_per_hour := default 6%Z (max_trades_per_hour policy) in
  let facts := <["trades_last_hour" := inject_Z trades_last_hour]> facts in
  let facts := <["max_trades_per_hour" := inject_Z max_trades_per_hour]> facts in
  if (max_trades_per_hour <=? trades_last_hour)%Z then
    ret (deny ts (reasons ++ [TRADE_FREQUENCY_EXCEEDED]) facts)
  else
  (* allowed, possibly with a reduced size *)
  self_config <- gets _config ;;
  ret (reductions self_config ts stress policy position_notional impact_bps
         impact_entry_cap toxic reasons facts)
  end
  end.

(** The eight DENY rules of the cascade, in the words of the
    specification (section 4.11), as one predicate on the inputs and
    on the guardian's state. *)
Definition spec_deny_rule_triggers (self : RiskGuardian)
    (candidate : option TradeCandidate) (fv : FeatureVector)
    (vad : VolumeAnomalyReport) (stress : MarketStressIndex)
    (account : Account) (policy : Policy) : Prop :=
  match candidate with
  | None => True
  | Some c =>
      let now := fv_ts fv in
      10 < now - _last_book_update_ts self
      \/ fv_spread fv <= 0
      \/ fst (Tilt.daily_pnl_pct (default 10000 (balance account)) (_tilt self))
           < - default 1 (max_daily_loss_pct policy)
      \/ (exists c_until, _cooldown_until self = Some c_until
                          /\ ~ c_until == 0 /\ now < c_until)
      \/ default 3000 (max_position_notional policy)
           <= default 0 (position_notional account)
      \/ default 20 (impact_hard_cap_bps policy) < impact_side c fv
      \/ vad_toxic_danger (_config self) <= toxic_of vad
      \/ stress_level stress = DANGER
      \/ (default 6 (max_trades_per_hour policy)
           <= fst (Tilt.trades_last_hour now (_tilt self)))%Z
  end.

(** The size multiplier of the specification: 1.0, times 0.5 when the
    side-matched impact exceeds the entry cap, times 0.7 when toxic is
    at least [toxic_warn], times 0.5 when the stress level is WARN. *)
Definition spec_multiplier (impact_bps entry_cap toxic toxic_warn : Q)
    (level : Level) : Q :=
  1 * (if Qltb entry_cap impact_bps then 0.5 else 1)
    * (if Qle_bool toxic_warn toxic then 0.7 else 1)
    * (match level with WARN => 0.5 | _ => 1 end).

(** A guardian and inputs for which no rule denies: the "toxic taker"
    scenario of the specification (impact 6 bps, toxic 0.65). *)
Definition config0 : Config := mkConfig 0.6 0.75 10.
Definition guardian0 : RiskGuardian := init config0 100.
Definition fv0 : FeatureVector :=
  mkFeatureVector 101 2021 1 5 10 10 50000 50000 0 0 6 6 10 1000 100 10 10 20 0 0.65.
Definition cand0 : TradeCandidate :=
  mkCandidate 101 long 2021 2010.895 (Some 2041.21) 0.7 300 "trend_breakout".
Definition oad0 : OrderbookAnomalyReport := mkOAD 101 OK 0 ∅ THICK.
Definition vad0 : VolumeAnomalyReport :=
  mkVAD 101 WARN 7 (<["toxic" := 0.65]> ∅) ∅.
Definition stress0 : MarketStressIndex := mkStress 101 OK 0 ∅.
Definition account0 : Account := mkAccount (Some 10000) (Some 0).
Definition policy0 : Policy := mkPolicy None None None None None None.

End Guardian.

(** ** execution/planner.py *)

Module Planner.

(** [ExecutionPlanner]. *)
Record ExecutionPlanner := mkPlanner {
  _config : Config;
  _slicing_threshold : Q }.

(** [ExecutionPlanner.__init__(config)]. *)
Definition init (config : Config) : ExecutionPlanner :=
  mkPlanner config (execution_slicing_threshold_bps config).

(** [range(n)]. *)
Definition range (n : nat) : list Z := seqZ 0 (Z.of_nat n).

(** [ExecutionPlanner.plan(risk, candidate, fv, vad)]. *)
Definition plan (self : ExecutionPlanner) (risk : RiskDecision)
    (candidate : option TradeCandidate) (fv : FeatureVector)
    (vad : VolumeAnomalyReport) : ExecutionPlan :=
  let ts := fv_ts fv in
  match action risk with
  | DENY => mkPlan ts [] reduce_only (reasons risk)
  | _ =>
      match candidate with
      | None => mkPlan ts [] reduce_only ["NO_SIGNAL"]
      | Some candidate =>
          let impact_bps :=
            match cand_side candidate with
            | long => fv_impact_buy_bps fv
            | short => fv_impact_sell_bps fv
            end in
          let toxic := default 0 (vad_triggers vad !! "toxic") in
          if Qle_bool (_slicing_threshold self) impact_bps then
            let num_slices := 5%nat in
            let slice_size :=
              size_usd risk / inject_Z (Z.of_nat num_slices) in
            let orders :=
              map (fun i : Z =>
                     mkOrder limit (cand_side candidate)
                       (Some (entry_price candidate)) slice_size
                       (Some (i * 10)%Z) None)
                  (range num_slices) in
            mkPlan ts orders slicing ["HIGH_IMPACT_SLICING"]
          else if Qle_bool 0.6 toxic then
            let orders :=
              [mkOrder market (cand_side candidate) None (size_usd risk)
                 None (Some false)] in
            mkPlan ts orders taker ["TOXIC_TAKER_ONLY"]
          else
            let orders :=
              [mkOrder limit (cand_side candidate)
                 (Some (entry_price candidate)) (size_usd risk) None None] in
            mkPlan ts orders maker ["NORMAL_MAKER"]
      end
  end.

(** The "slicing path" scenario: impact 12 bps on the buy side. *)
Definition fv_slicing : FeatureVector :=
  mkFeatureVector 101 2021 1 5 10 10 50000 50000 0 0 12 12 10 1000 100 10 10 20 0 0.2.
Definition risk_slicing : RiskDecision :=
  mkRiskDecision 101 ALLOW_WITH_REDUCTIONS 1000 15 None
    [IMPACT_ENTRY_CAP_EXCEEDED; RISK_POSITION_SIZE_REDUCED] ∅.

End Planner.

(** ** detectors/stress.py *)

Module Stress.

(** [levels_priority = {"OK": 0, "WARN": 1, "DANGER": 2}]. *)
Definition levels_priority (l : Level) : Z :=
  match l with OK => 0 | WARN => 1 | DANGER => 2 end.

(** [max(a, b, key=key)]: the first of the two unless the second has a
    strictly larger key. *)
Definition max_by {A} (key : A -> Z) (a b : A) : A :=
  if (key a <? key b)%Z then b else a.

(** [compute_stress(oad, vad, config)]. *)
Definition compute_stress (oad : OrderbookAnomalyReport)
    (vad : VolumeAnomalyReport) (config : Config) : MarketStressIndex :=
  let oad_score := oad_score oad in
  let vad_score := vad_score vad in
  let spread_z := default 0 (oad_triggers oad !! "spread_z") in
  let impact_buy_z := default 0 (oad_triggers oad !! "impact_buy_z") in
  let impact_sell_z := default 0 (oad_triggers oad !! "impact_sell_z") in
  let impact_z := Qmax impact_buy_z impact_sell_z in
  let toxic := default 0 (vad_triggers vad !! "toxic") in
  let vol_z := default 0 (vad_triggers vad !! "vol_z") in
  let components : gmap string Q :=
    <["vol_z" := vol_z]> (<["toxic" := toxic]> (<["impact_z" := impact_z]>
    (<["spread_z" := spread_z]> (<["vad_score" := vad_score]>
    (<["oad_score" := oad_score]> ∅))))) in
  let score := oad_score * 0.5 + vad_score * 0.3 + toxic * 5 in
  let max_level := max_by levels_priority (oad_level oad) (vad_level vad) in
  mkStress (oad_ts oad) max_level score components.

End Stress.

(** ** Sorting floats *)

(** [sorted(xs)] on floats.  The values are put in canonical form first,
    so that numerically equal floats are one value. *)
Definition py_sorted (l : list Q) : list Q :=
  map this (merge_sort Qcle (map Q2Qc l)).

(** [np.median] of a non-empty array: the middle element of the sorted
    values, or the mean of the two middle ones. *)
Definition np_median (l : list Q) : Q :=
  let s := py_sorted l in
  let n := length s in
  if Nat.even n
  then (nth (n / 2 - 1) s 0 + nth (n / 2) s 0) / 2
  else nth (n / 2) s 0.

(** ** models.py: the order-book snapshot *)

Module BookState.

(** [OrderBookState]. *)
Record OrderBookState := mkBookState {
  state_ts : Q;
  state_bids : list OrderBookLevel;
  state_asks : list OrderBookLevel;
  state_seq : Z }.

(** [a == b] on lists of floats. *)
Fixpoint list_Qeqb (a b : list Q) : bool :=
  match a, b with
  | [], [] => true
  | x :: a', y :: b' => Qeq_bool x y && list_Qeqb a' b'
  | _, _ => false
  end.

(** The [Field(gt=0)] checks of [OrderBookLevel(price=p, size=s)]. *)
Definition level_ok (l : OrderBookLevel) : bool :=
  Qltb 0 (level_price l) && Qltb 0 (level_size l).

(** The validator [bids_must_be_descending]: passes when there are fewer
    than two levels or the prices equal [sorted(prices, reverse=True)]. *)
Definition bids_must_be_descending (v : list OrderBookLevel) : bool :=
  if (length v <? 2)%nat then true
  else
    let prices := map level_price v in
    list_Qeqb prices (reverse (py_sorted prices)).

(** The validator [asks_must_be_ascending]. *)
Definition asks_must_be_ascending (v : list OrderBookLevel) : bool :=
  if (length v <? 2)%nat then true
  else
    let prices := map level_price v in
    list_Qeqb prices (py_sorted prices).

(** The validator [spread_must_be_positive]. *)
Definition spread_must_be_positive (bids asks : list OrderBookLevel) : bool :=
  match bids, asks with
  | best_bid :: _, best_ask :: _ =>
      negb (Qle_bool (level_price best_ask) (level_price best_bid))
  | _, _ => true
  end.

(** [OrderBookState(ts=..., bids=..., asks=..., seq=...)]: [None] is the
    pydantic [ValidationError]. *)
Definition make_state (ts : Q) (bids asks : list OrderBookLevel) (seq : Z)
  : option OrderBookState :=
  if (0 <=? seq)%Z && bids_must_be_descending bids
     && asks_must_be_ascending asks && spread_must_be_positive bids asks
  then Some (mkBookState ts bids asks seq)
  else None.

(** [OrderBookState.mid]. *)
Definition state_mid (s : OrderBookState) : Q :=
  match state_bids s, state_asks s with
  | b :: _, a :: _ => (level_price b + level_price a) / 2
  | _, _ => 0
  end.

(** [OrderBookState.spread]. *)
Definition state_spread (s : OrderBookState) : Q :=
  match state_bids s, state_asks s with
  | b :: _, a :: _ => level_price a - level_price b
  | _, _ => 0
  end.

(** [OrderBookState.spread_bps]. *)
Definition state_spread_bps (s : OrderBookState) : Q :=
  let mid := state_mid s in
  if Qeq_bool mid 0 then 0 else (state_spread s / mid) * 10000.

End BookState.

(** ** market/orderbook.py: the accessors *)

Module BookQueries.
Import OrderBook BookState.

(** The order of [(price, size)] tuples; prices are unique in a dict, so
    the price alone decides. *)
Definition price_le : relation (Qc * Q) := fun a b => (fst a <= fst b)%Qc.

#[global] Instance price_le_dec : RelDecision price_le :=
  fun a b => decide (fst a <= fst b)%Qc.

#[global] Instance price_ge_dec : RelDecision (flip price_le) :=
  fun a b => decide (fst b <= fst a)%Qc.

(** [sorted(d.items())]: the entries by ascending price. *)
Definition sorted_items (d : gmap Qc Q) : list (Qc * Q) :=
  merge_sort price_le (map_to_list d).

(** [sorted(d.items(), reverse=True)]: the entries by descending price. *)
Definition sorted_items_desc (d : gmap Qc Q) : list (Qc * Q) :=
  merge_sort (flip price_le) (map_to_list d).

(** [OrderBookLevel(price=p, size=s)] for an entry [(p, s)] of a dict. *)
Definition level_of (kv : Qc * Q) : OrderBookLevel :=
  mkLevel (this (fst kv)) (snd kv).

(** [[OrderBookLevel(price=p, size=s) for p, s in items]]; [None] when a
    level fails its [Field(gt=0)] checks. *)
Fixpoint make_levels (items : list (Qc * Q)) : option (list OrderBookLevel) :=
  match items with
  | [] => Some []
  | (p, s) :: rest =>
      let l := level_of (p, s) in
      if level_ok l then
        match make_levels rest with
        | Some ls => Some (l :: ls)
        | None => None
        end
      else None
  end.

(** [OrderBook.get_state()]; [None] is a pydantic [ValidationError]. *)
Definition get_state (self : OrderBook) : option OrderBookState :=
  match make_levels (sorted_items_desc (_bids self)) with
  | None => None
  | Some bids =>
      match make_levels (sorted_items (_asks self)) with
      | None => None
      | Some asks => make_state (_last_update_ts self) bids asks (_seq self)
      end
  end.

(** [OrderBook.top_n(n)]. *)
Definition top_n (n : nat) (self : OrderBook)
  : option (list OrderBookLevel * list OrderBookLevel) :=
  match get_state self with
  | None => None
  | Some state => Some (take n (state_bids state), take n (state_asks state))
  end.

Inductive BookSide := bid | ask.

(** [OrderBook.depth_usd(side, levels)]. *)
Definition depth_usd (side : BookSide) (levels : nat) (self : OrderBook) : Q :=
  match side with
  | bid =>
      Qsum (map (fun kv : Qc * Q => this (fst kv) * snd kv)
              (take levels (sorted_items_desc (_bids self))))
  | ask =>
      Qsum (map (fun kv : Qc * Q => this (fst kv) * snd kv)
              (take levels (sorted_items (_asks self))))
  end.

(** The loop of [depth_to_price] over the levels in walking order, on
    the locals [(remaining_usd, total_cost, total_size)]. *)
Fixpoint fill_walk (levels : list (Qc * Q)) (remaining_usd total_cost total_size : Q)
  : Q * Q * Q :=
  match levels with
  | [] => (remaining_usd, total_cost, total_size)
  | (p, size) :: rest =>
      if Qle_bool remaining_usd 0 then (remaining_usd, total_cost, total_size)
      else
        let price := this p in
        let level_usd := price * size in
        if Qle_bool remaining_usd level_usd then
          let consumed_size := remaining_usd / price in
          fill_walk rest 0 (total_cost + remaining_usd)
            (total_size + consumed_size)
        else
          fill_walk rest (remaining_usd - level_usd) (total_cost + level_usd)
            (total_size + size)
  end.

(** [OrderBook.depth_to_price(side, target_usd)], returning
    [(avg_price, remaining_usd)]. *)
Definition depth_to_price (side : BookSide) (target_usd : Q) (self : OrderBook)
  : Q * Q :=
  let levels :=
    match side with
    | ask => sorted_items (_asks self)
    | bid => sorted_items_desc (_bids self)
    end in
  let '(remaining_usd, total_cost, total_size) :=
    fill_walk levels target_usd 0 0 in
  let avg_price := if Qltb 0 total_size then total_cost / total_size else 0 in
  (avg_price, remaining_usd).

(** [OrderBook.best_bid_price] and [OrderBook.best_ask_price]. *)
Definition best_bid_price (self : OrderBook) : option Q :=
  if is_empty (_bids self) then None else Some (np_max (keys (_bids self))).

Definition best_ask_price (self : OrderBook) : option Q :=
  if is_empty (_asks self) then None else Some (np_min (keys (_asks self))).

(** [OrderBook.mid]. *)
Definition mid (self : OrderBook) : Q :=
  match best_bid_price self, best_ask_price self with
  | Some b, Some a => (b + a) / 2
  | _, _ => 0
  end.

(** [OrderBook.spread]. *)
Definition spread (self : OrderBook) : Q :=
  match best_bid_price self, best_ask_price self with
  | Some b, Some a => a - b
  | _, _ => 0
  end.

(** [OrderBook.spread_bps]. *)
Definition spread_bps (self : OrderBook) : Q :=
  let m := mid self in
  if Qeq_bool m 0 then 0 else (spread self / m) * 10000.

(** [OrderBook.clear()]: the update counter is kept. *)
Definition clear : State OrderBook unit :=
  modify (fun self => mkOrderBook ∅ ∅ 0 0 (_update_count self)).

End BookQueries.

(** ** market/tape.py: the remaining methods *)

Module TapeQueries.
Import Tape.

(** The [Field(gt=0)] constraints of [Trade]. *)
Definition valid_trade (t : Trade) : Prop :=
  0 < trade_price t /\ 0 < trade_size t.

(** [TradeTape.__init__(window_sec)]. *)
Definition init (window_sec : Z) : TradeTape := mkTape window_sec [] 0.

(** [TradeTape.add_batch(trades)]: every trade is appended and counted,
    then the tape is cleaned once. *)
Definition add_batch (trades : list Trade) (now : Q) : State TradeTape unit :=
  modify (fun self =>
    foldl (fun self trade =>
             mkTape (_window_sec self) (_trades self ++ [trade])
               (_total_trades self + 1))
          self trades) ;;;
  _cleanup now.

(** [TradeTape.get_toxic_score(sec)]. *)
Definition get_toxic_score (sec : option Z) (now1 now2 : Q)
  : State TradeTape Q :=
  agg <- aggregate sec now1 now2 ;;
  ret (Qabs (signed_imbalance agg)).

(** [TradeTape.get_trade_rate(sec)]; [None] is the [ZeroDivisionError]
    of [sec = 0] on a non-empty window. *)
Definition get_trade_rate (sec : Z) (now1 now2 : Q)
  : State TradeTape (option Q) :=
  trades <- recent (Some sec) now1 now2 ;;
  match trades with
  | [] => ret (Some 0)
  | _ =>
      if (sec =? 0)%Z then ret None
      else ret (Some (inject_Z (Z.of_nat (length trades)) / inject_Z sec))
  end.

(** [TradeTape.get_volume_rate(sec)]. *)
Definition get_volume_rate (sec : Z) (now1 now2 : Q) : State TradeTape Q :=
  agg <- aggregate (Some sec) now1 now2 ;;
  ret (if (0 <? sec)%Z then vol agg / inject_Z sec else 0).

(** [TradeTape.__len__()]. *)
Definition len (now : Q) : State TradeTape Z :=
  _cleanup now ;;;
  trades <- gets _trades ;;
  ret (Z.of_nat (length trades)).

(** [TradeTape.clear()]: the lifetime counter is kept. *)
Definition clear : State TradeTape unit :=
  modify (fun self => mkTape (_window_sec self) [] (_total_trades self)).

End TapeQueries.

(** ** features/impact.py: depth search and slippage *)

Module ImpactDepth.
Import Impact.

(** How a call of a function with a [while] loop can end: with a value,
    with the [ZeroDivisionError] of [estimate_impact_bps], or with the
    loop still running when the fuel of the model is spent. *)
Inductive Outcome := Returned (q : Q) | Raised | OutOfFuel.

(** [tolerance = 1.0  # USD]. *)
Definition tolerance : Q := 1.

(** The [while high - low > tolerance] loop of
    [estimate_market_depth_usd], on the locals [(low, high)]. *)
Fixpoint bisect (fuel : nat) (levels : list OrderBookLevel) (side : Side)
    (max_impact_bps mid low high : Q) : Outcome :=
  match fuel with
  | O => OutOfFuel
  | S fuel =>
      if Qltb tolerance (high - low) then
        let mid_qty := (low + high) / 2 in
        match estimate_impact_bps levels side mid_qty mid with
        | None => Raised
        | Some impact =>
            if Qle_bool impact max_impact_bps
            then bisect fuel levels side max_impact_bps mid mid_qty high
            else bisect fuel levels side max_impact_bps mid low mid_qty
        end
      else Returned low
  end.

(** [estimate_market_depth_usd(levels, max_impact_bps, mid, side)]. *)
Definition estimate_market_depth_usd (fuel : nat)
    (levels : list OrderBookLevel) (max_impact_bps mid : Q) (side : Side)
  : Outcome :=
  if Qle_bool max_impact_bps 0 then Returned 0
  else
    match levels with
    | [] => Returned 0
    | _ =>
        bisect fuel levels side max_impact_bps mid 0
          (Qsum (map (fun l => level_price l * level_size l) levels))
    end.

(** [2 ** n] as a float. *)
Fixpoint pow2 (n : nat) : Q :=
  match n with
  | O => 1
  | S n => 2 * pow2 n
  end.

(** [estimate_slippage_bps(fill_price, reference_price, side)]; [None]
    is the [ZeroDivisionError] of a zero reference price. *)
Definition estimate_slippage_bps (fill_price reference_price : Q)
    (side : Side) : option Q :=
  if Qeq_bool reference_price 0 then None
  else
    Some (match side with
          | buy => ((fill_price - reference_price) / reference_price) * 10000
          | sell => ((reference_price - fill_price) / reference_price) * 10000
          end).

End ImpactDepth.

(** ** risk/tilt.py: the read-only properties and [reset] *)

Module TiltQueries.
Import Tilt.

(** [TiltTracker.daily_pnl]. *)
Definition daily_pnl : State TiltTracker Q := gets _daily_pnl.

(** [TiltTracker.total_trades]. *)
Definition total_trades : State TiltTracker Z :=
  trades <- gets _trades ;;
  ret (Z.of_nat (length trades)).

(** [TiltTracker.reset()]. *)
Definition reset : State TiltTracker unit :=
  modify (fun _ => mkTilt [] 0 None).

End TiltQueries.

(** ** strategy/signals.py: [reset] and the candidate's field checks *)

Module SignalQueries.
Import Signals.

(** [SignalEngine.reset()]. *)
Definition reset : State SignalEngine unit :=
  modify (fun _ => mkSignalEngine []).

(** The [Field] constraints of [TradeCandidate]: [entry_price] and
    [stop_price] [gt=0], [tp_price] [gt=0] when given, [confidence] in
    [[0, 1]], [ttl_sec] [gt=0]. *)
Definition valid_candidate (c : TradeCandidate) : Prop :=
  0 < entry_price c /\ 0 < stop_price c
  /\ match tp_price c with Some tp => 0 < tp | None => True end
  /\ 0 <= cand_confidence c <= 1
  /\ (0 < ttl_sec c)%Z.

End SignalQueries.

(** ** Calling a method of an attribute *)

(** [self.attr.method(...)]: run [m] on the attribute read by [get] and
    store the attribute's new state with [set]. *)
Definition zoom {S T A} (get : S -> T) (set : T -> S -> S) (m : State T A)
  : State S A :=
  fun s => let '(a, t') := m (get s) in (a, set t' s).

(** ** utils/rolling.py *)

Module Rolling.

(** [RollingMAD]: [_data] maps a metric name to its deque of
    [(ts, value)] pairs. *)
Record RollingMAD := mkRolling {
  _window_sec : Z;
  _data : gmap string (list (Q * Q)) }.

(** [RollingMAD.__init__(window_sec)]. *)
Definition init (window_sec : Z) : RollingMAD := mkRolling window_sec ∅.

(** [while d and d[0][0] < cutoff_ts: d.popleft()]. *)
Fixpoint popleft_while (cutoff_ts : Q) (d : list (Q * Q)) : list (Q * Q) :=
  match d with
  | [] => []
  | x :: rest =>
      if Qltb (fst x) cutoff_ts then popleft_while cutoff_ts rest else d
  end.

(** [RollingMAD._cleanup(name, current_ts)]. *)
Definition _cleanup (name : string) (current_ts : Q) : State RollingMAD unit :=
  modify (fun self =>
    match _data self !! name with
    | None => self
    | Some d =>
        let cutoff_ts := current_ts - inject_Z (_window_sec self) in
        mkRolling (_window_sec self)
          (<[name := popleft_while cutoff_ts d]> (_data self))
    end).

(** [RollingMAD.update(name, value, ts)]. *)
Definition update (name : string) (value ts : Q) : State RollingMAD unit :=
  modify (fun self =>
    let d := default [] (_data self !! name) in
    mkRolling (_window_sec self) (<[name := d ++ [(ts, value)]]> (_data self))) ;;;
  _cleanup name ts.

(** [RollingMAD.median(name)]. *)
Definition median (name : string) : State RollingMAD Q :=
  data <- gets _data ;;
  match data !! name with
  | None | Some [] => ret 0
  | Some d =>
      let values := map snd d in
      ret (np_median values)
  end.

(** [RollingMAD.mad(name)]. *)
Definition mad (name : string) : State RollingMAD Q :=
  data <- gets _data ;;
  match data !! name with
  | None => ret 0
  | Some d =>
      if (length d <? 2)%nat then ret 0
      else
        let values := map snd d in
        let median_val := np_median values in
        let mad_val := np_median (map (fun v => Qabs (v - median_val)) values) in
        ret mad_val
  end.

(** [RollingMAD.zscore(name)]. *)
Definition zscore (name : string) : State RollingMAD Q :=
  data <- gets _data ;;
  match data !! name with
  | None | Some [] => ret 0
  | Some d =>
      let values := map snd d in
      let current_value := default 0 (last values) in
      median_val <- median name ;;
      mad_val <- mad name ;;
      if Qeq_bool mad_val 0 then ret 0
      else
        let z := Qabs (current_value - median_val) / (1.4826 * mad_val + 1e-9) in
        ret z
  end.

(** [RollingMAD.count(name)]. *)
Definition count (name : string) : State RollingMAD Z :=
  data <- gets _data ;;
  match data !! name with
  | None => ret 0%Z
  | Some d => ret (Z.of_nat (length d))
  end.

(** [RollingMAD.clear(name)]. *)
Definition clear (name : option string) : State RollingMAD unit :=
  modify (fun self =>
    match name with
    | None => mkRolling (_window_sec self) ∅
    | Some name =>
        match _data self !! name with
        | Some _ => mkRolling (_window_sec self) (<[name := []]> (_data self))
        | None => self
        end
    end).

End Rolling.

(** ** detectors/vad.py *)

Module VAD.

(** [VolumeAnomalyDetector]; the thresholds are read once from the
    [config["vad"]] section. *)
Record VolumeAnomalyDetector := mkDetector {
  _z_warn : Q;
  _z_danger : Q;
  _toxic_warn : Q;
  _toxic_danger : Q;
  _rolling : Rolling.RollingMAD }.

(** [VolumeAnomalyDetector.__init__(config)], with
    [config["vad"]["z_warn"]] and [config["vad"]["z_danger"]] given
    beside the entries of [Config]. *)
Definition init (config : Config) (z_warn z_danger : Q) : VolumeAnomalyDetector :=
  mkDetector z_warn z_danger (vad_toxic_warn config) (vad_toxic_danger config)
    (Rolling.init 300).

(** [self._rolling.method(...)]. *)
Definition on_rolling {A} (m : State Rolling.RollingMAD A)
  : State VolumeAnomalyDetector A :=
  zoom _rolling
    (fun r self =>
       mkDetector (_z_warn self) (_z_danger self) (_toxic_warn self)
         (_toxic_danger self) r)
    m.

Section WithLog1p.

(** [np.log1p]: a logarithm, with no rational model; the detector is
    parametric in it. *)
Variable np_log1p : Q -> Q.

(** [VolumeAnomalyDetector.detect(fv)]. *)
Definition detect (fv : FeatureVector)
  : State VolumeAnomalyDetector VolumeAnomalyReport :=
  let ts := fv_ts fv in
  let log_vol := np_log1p (fv_vol fv) in
  on_rolling (Rolling.update "log_vol" log_vol ts) ;;;
  on_rolling (Rolling.update "trades" (inject_Z (fv_trades fv)) ts) ;;;
  on_rolling (Rolling.update "max_trade" (fv_max_trade fv) ts) ;;;
  on_rolling (Rolling.update "toxic" (fv_toxic fv) ts) ;;;
  vol_z <- on_rolling (Rolling.zscore "log_vol") ;;
  trades_z <- on_rolling (Rolling.zscore "trades") ;;
  max_trade_z <- on_rolling (Rolling.zscore "max_trade") ;;
  z_warn <- gets _z_warn ;;
  z_danger <- gets _z_danger ;;
  toxic_warn <- gets _toxic_warn ;;
  toxic_danger <- gets _toxic_danger ;;
  let burst := Qle_bool z_warn vol_z in
  let drought := Qltb (fv_vol fv) 0.01 || Qltb vol_z (-2) in
  let whale := Qle_bool z_warn max_trade_z in
  let triggers : gmap string Q :=
    <["toxic" := fv_toxic fv]> (<["signed_imb" := fv_signed_imb fv]>
    (<["max_trade_z" := max_trade_z]> (<["trades_z" := trades_z]>
    (<["vol_z" := vol_z]> ∅)))) in
  let events : gmap string bool :=
    <["whale" := whale]> (<["drought" := drought]> (<["burst" := burst]> ∅)) in
  let score := vol_z * 0.5 + max_trade_z * 0.3 + fv_toxic fv * 10 in
  let level :=
    if Qle_bool z_danger score || Qle_bool toxic_danger (fv_toxic fv)
    then DANGER
    else if Qle_bool z_warn score || Qle_bool toxic_warn (fv_toxic fv)
    then WARN
    else OK in
  ret (mkVAD ts level score triggers events).

End WithLog1p.

(** [VolumeAnomalyDetector.reset()]. *)
Definition reset : State VolumeAnomalyDetector unit :=
  on_rolling (Rolling.clear None).

End VAD.

(** ** detectors/oad.py *)

Module OAD.

(** [OrderbookAnomalyDetector]: the two thresholds of [config["oad"]],
    a 5-minute and a 1-hour window. *)
Record OrderbookAnomalyDetector := mkDetector {
  _z_warn : Q;
  _z_danger : Q;
  _rolling_short : Rolling.RollingMAD;
  _rolling_long : Rolling.RollingMAD }.

(** [OrderbookAnomalyDetector.__init__(config)], with
    [config["oad"]["z_warn"]] and [config["oad"]["z_danger"]]. *)
Definition init (z_warn z_danger : Q) : OrderbookAnomalyDetector :=
  mkDetector z_warn z_danger (Rolling.init 300) (Rolling.init 3600).

Definition on_short {A} (m : State Rolling.RollingMAD A)
  : State OrderbookAnomalyDetector A :=
  zoom _rolling_short
    (fun r self => mkDetector (_z_warn self) (_z_danger self) r
                     (_rolling_long self))
    m.

Definition on_long {A} (m : State Rolling.RollingMAD A)
  : State OrderbookAnomalyDetector A :=
  zoom _rolling_long
    (fun r self => mkDetector (_z_warn self) (_z_danger self)
                     (_rolling_short self) r)
    m.

(** [OrderbookAnomalyDetector.detect(fv)]. *)
Definition detect (fv : FeatureVector)
  : State OrderbookAnomalyDetector OrderbookAnomalyReport :=
  let ts := fv_ts fv in
  on_short (Rolling.update "spread_bps" (fv_spread_bps fv) ts) ;;;
  on_short (Rolling.update "impact_buy" (fv_impact_buy_bps fv) ts) ;;;
  on_short (Rolling.update "impact_sell" (fv_impact_sell_bps fv) ts) ;;;
  on_short (Rolling.update "msg_rate" (fv_msg_rate fv) ts) ;;;
  on_long (Rolling.update "depth_bid" (fv_depth_bid_k fv) ts) ;;;
  on_long (Rolling.update "depth_ask" (fv_depth_ask_k fv) ts) ;;;
  spread_z <- on_short (Rolling.zscore "spread_bps") ;;
  impact_buy_z <- on_short (Rolling.zscore "impact_buy") ;;
  impact_sell_z <- on_short (Rolling.zscore "impact_sell") ;;
  msg_rate_z <- on_short (Rolling.zscore "msg_rate") ;;
  depth_bid_median <- on_long (Rolling.median "depth_bid") ;;
  depth_ask_median <- on_long (Rolling.median "depth_ask") ;;
  let gap_flag := false in
  let gap_flag :=
    if Qltb 0 depth_bid_median
       && Qltb (fv_depth_bid_k fv) (0.5 * depth_bid_median)
    then true else gap_flag in
  let gap_flag :=
    if Qltb 0 depth_ask_median
       && Qltb (fv_depth_ask_k fv) (0.5 * depth_ask_median)
    then true else gap_flag in
  let triggers : gmap string Q :=
    <["gap_flag" := if gap_flag then 1 else 0]>
    (<["msg_rate_z" := msg_rate_z]> (<["impact_sell_z" := impact_sell_z]>
    (<["impact_buy_z" := impact_buy_z]> (<["spread_z" := spread_z]> ∅)))) in
  let score :=
    spread_z * 0.3 + Qmax impact_buy_z impact_sell_z * 0.4
    + msg_rate_z * 0.2 + (if gap_flag then 10 else 0) in
  z_warn <- gets _z_warn ;;
  z_danger <- gets _z_danger ;;
  let level :=
    if Qle_bool z_danger score || gap_flag then DANGER
    else if Qle_bool z_warn score then WARN
    else OK in
  let max_impact := Qmax (fv_impact_buy_bps fv) (fv_impact_sell_bps fv) in
  let liquidity_state :=
    if Qltb 20 max_impact || Qltb 0.75 (fv_toxic fv) then LIQ_TOXIC
    else if Qltb 10 max_impact then THIN
    else THICK in
  ret (mkOAD ts level score triggers liquidity_state).

(** [OrderbookAnomalyDetector.reset()]. *)
Definition reset : State OrderbookAnomalyDetector unit :=
  on_short (Rolling.clear None) ;;; on_long (Rolling.clear None).

End OAD.

(** ** regime/regime.py *)

Module Regime.

(** [RegimeClassifier]: [_price_history] is a [deque(maxlen=100)] of
    [(ts, price)] pairs. *)
Record RegimeClassifier := mkClassifier { _price_history : list (Q * Q) }.

Definition init : RegimeClassifier := mkClassifier [].

(** [RegimeClassifier._classify_price_regime()]. *)
Definition _classify_price_regime : State RegimeClassifier PriceRegime :=
  history <- gets _price_history ;;
  if (length history <? 20)%nat then ret RANGE
  else
    let prices := map snd history in
    let ma_short := np_mean (last_n 10 prices) in
    let ma_long :=
      if (30 <=? length prices)%nat then np_mean (last_n 30 prices)
      else np_mean prices in
    if Qltb (ma_long * 1.002) ma_short then ret TREND_UP
    else if Qltb ma_short (ma_long * 0.998) then ret TREND_DOWN
    else ret RANGE.

(** [RegimeClassifier._classify_flow_regime(fv, oad, vad)]. *)
Definition _classify_flow_regime (fv : FeatureVector)
    (oad : OrderbookAnomalyReport) (vad : VolumeAnomalyReport) : FlowRegime :=
  let max_impact := Qmax (fv_impact_buy_bps fv) (fv_impact_sell_bps fv) in
  let toxic := default 0 (vad_triggers vad !! "toxic") in
  let vol_z := default 0 (vad_triggers vad !! "vol_z") in
  if Qle_bool 0.6 toxic
     || match oad_level oad with DANGER => true | _ => false end
     || Qltb 20 max_impact
  then TOXIC
  else if Qle_bool 4 vol_z
          || match oad_level oad with WARN => true | _ => false end
  then ACTIVE
  else CALM.

Section WithRealizedVol.

(** [np.std(np.diff(prices) / prices[:-1]) * np.sqrt(252 * 24 * 3600)]:
    a standard deviation times a square root, with no rational model
    (and [nan] when a price is 0, which compares false both ways like
    any value between the two thresholds); the classifier is parametric
    in it. *)
Variable realized_vol : list Q -> Q.

(** [RegimeClassifier._classify_vol_regime()]. *)
Definition _classify_vol_regime : State RegimeClassifier VolRegime :=
  history <- gets _price_history ;;
  if (length history <? 20)%nat then ret NORMALVOL
  else
    let prices := map snd history in
    let vol := realized_vol prices in
    if Qltb 0.5 vol then ret HIGHVOL
    else if Qltb vol 0.2 then ret LOWVOL
    else ret NORMALVOL.

(** [RegimeClassifier.classify(fv, oad, vad)]. *)
Definition classify (fv : FeatureVector) (oad : OrderbookAnomalyReport)
    (vad : VolumeAnomalyReport) : State RegimeClassifier RegimeState :=
  let ts := fv_ts fv in
  modify (fun self =>
    mkClassifier (deque_append 100 (_price_history self) (ts, fv_mid fv))) ;;;
  price_regime <- _classify_price_regime ;;
  vol_regime <- _classify_vol_regime ;;
  let flow_regime := _classify_flow_regime fv oad vad in
  history <- gets _price_history ;;
  let confidence :=
    if (50 <=? length history)%nat then 0.8
    else if (20 <=? length history)%nat then 0.6
    else 0.4 in
  ret (mkRegime ts price_regime vol_regime flow_regime confidence).

End WithRealizedVol.

(** [RegimeClassifier.reset()]. *)
Definition reset : State RegimeClassifier unit :=
  modify (fun _ => mkClassifier []).

End Regime.

(** ** features/feature_engine.py *)

Module FeatureEngine.
Import OrderBook BookState BookQueries.

(** [FeatureEngine]: the impact size of
    [config["features"]["impact_size_quote_usd"]] and the running
    state. *)
Record FeatureEngine := mkEngine {
  _impact_size_usd : Q;
  _last_depth_bid : Q;
  _last_depth_ask : Q;
  _msg_count : Z;
  _last_msg_ts : Q }.

(** [FeatureEngine.__init__(config)], [now] being [time.time()]. *)
Definition init (impact_size_quote_usd now : Q) : FeatureEngine :=
  mkEngine impact_size_quote_usd 0 0 0 now.

(** The [Field] constraints of [FeatureVector]. *)
Definition fv_ok (fv : FeatureVector) : bool :=
  Qle_bool 0 (fv_top_bid_sz fv) && Qle_bool 0 (fv_top_ask_sz fv)
  && Qle_bool 0 (fv_depth_bid_k fv) && Qle_bool 0 (fv_depth_ask_k fv)
  && Qle_bool (-1) (fv_imb_k fv) && Qle_bool (fv_imb_k fv) 1
  && Qle_bool 0 (fv_impact_buy_bps fv) && Qle_bool 0 (fv_impact_sell_bps fv)
  && Qle_bool 0 (fv_msg_rate fv) && Qle_bool 0 (fv_churn fv)
  && Qle_bool 0 (fv_vol fv) && (0 <=? fv_trades fv)%Z
  && Qle_bool 0 (fv_avg_trade fv) && Qle_bool 0 (fv_max_trade fv)
  && Qle_bool (-1) (fv_signed_imb fv) && Qle_bool (fv_signed_imb fv) 1
  && Qle_bool 0 (fv_toxic fv) && Qle_bool (fv_toxic fv) 1.

(** [FeatureVector(...)]: [None] is the pydantic [ValidationError]. *)
Definition make_fv (fv : FeatureVector) : option FeatureVector :=
  if fv_ok fv then Some fv else None.

(** [FeatureEngine._empty_features(ts)]. *)
Definition _empty_features (ts : Q) : option FeatureVector :=
  make_fv (mkFeatureVector ts 0 0 0 0 0 0 0 0 0 9999.9 9999.9 0 0 0 0 0 0 0 0).

(** [FeatureEngine.compute(book, tape, ts)] on the pair of the engine
    and the tape, the two objects it changes; [None] is an exception
    (a [ValidationError] of [get_state] or of [FeatureVector], the
    [ZeroDivisionError] of [estimate_impact_bps]) and leaves what was
    changed before it was raised.  [now1] and [now2] are the two clock
    readings of [tape.aggregate]. *)
Definition compute (book : OrderBook) (ts now1 now2 : Q)
  : State (FeatureEngine * Tape.TradeTape) (option FeatureVector) :=
  match get_state book with
  | None => ret None
  | Some book_state =>
      match state_bids book_state, state_asks book_state with
      | top_bid :: _, top_ask :: _ =>
          let mid := state_mid book_state in
          let spread := state_spread book_state in
          let spread_bps := if Qltb 0 mid then (spread / mid) * 10000 else 0 in
          let levels_to_use :=
            Nat.min 20 (Nat.min (length (state_bids book_state))
                          (length (state_asks book_state))) in
          let bids_k := take levels_to_use (state_bids book_state) in
          let asks_k := take levels_to_use (state_asks book_state) in
          let depth_bid_k :=
            Qsum (map (fun b => level_price b * level_size b) bids_k) in
          let depth_ask_k :=
            Qsum (map (fun a => level_price a * level_size a) asks_k) in
          let imb_k :=
            (depth_bid_k - depth_ask_k) / (depth_bid_k + depth_ask_k + 1e-9) in
          let bid_sz := level_size top_bid in
          let ask_sz := level_size top_ask in
          let micro :=
            (level_price top_ask * bid_sz + level_price top_bid * ask_sz)
            / (bid_sz + ask_sz + 1e-9) in
          let micro_minus_mid := micro - mid in
          impact_size_usd <- gets (fun s => _impact_size_usd (fst s)) ;;
          match Impact.estimate_impact_bps asks_k Impact.buy impact_size_usd mid,
                Impact.estimate_impact_bps bids_k Impact.sell impact_size_usd mid
          with
          | Some impact_buy_bps, Some impact_sell_bps =>
              modify (fun s =>
                (mkEngine (_impact_size_usd (fst s)) (_last_depth_bid (fst s))
                   (_last_depth_ask (fst s)) (_msg_count (fst s) + 1)
                   (_last_msg_ts (fst s)), snd s)) ;;;
              msg_count <- gets (fun s => _msg_count (fst s)) ;;
              last_msg_ts <- gets (fun s => _last_msg_ts (fst s)) ;;
              let time_elapsed := ts - last_msg_ts in
              let msg_rate :=
                if Qltb 0 time_elapsed then inject_Z msg_count / time_elapsed
                else 0 in
              last_depth_bid <- gets (fun s => _last_depth_bid (fst s)) ;;
              last_depth_ask <- gets (fun s => _last_depth_ask (fst s)) ;;
              let churn :=
                Qabs (depth_bid_k - last_depth_bid)
                + Qabs (depth_ask_k - last_depth_ask) in
              modify (fun s =>
                (mkEngine (_impact_size_usd (fst s)) depth_bid_k depth_ask_k
                   (_msg_count (fst s)) (_last_msg_ts (fst s)), snd s)) ;;;
              agg <- zoom snd (fun t s => (fst s, t))
                       (Tape.aggregate (Some 60%Z) now1 now2) ;;
              let signed_imb := Tape.signed_imbalance agg in
              let toxic := Qabs signed_imb in
              ret (make_fv
                     (mkFeatureVector ts mid spread spread_bps
                        (level_size top_bid) (level_size top_ask)
                        depth_bid_k depth_ask_k imb_k micro_minus_mid
                        impact_buy_bps impact_sell_bps msg_rate churn
                        (Tape.vol agg) (Tape.trades agg) (Tape.avg_trade agg)
                        (Tape.max_trade agg) signed_imb toxic))
          | _, _ => ret None
          end
      | _, _ => ret (_empty_features ts)
      end
  end.

(** [FeatureEngine.reset()], [now] being [time.time()]. *)
Definition reset (now : Q) : State FeatureEngine unit :=
  modify (fun self => mkEngine (_impact_size_usd self) 0 0 0 now).

End FeatureEngine.

(** ** app.py: detection to plan *)

Module Orchestrator.

(** The modules of [Orchestrator] that steps 3 to 7 of [_tick] call. *)
Record Orchestrator := mkOrchestrator {
  _config : Config;
  _oad : OAD.OrderbookAnomalyDetector;
  _vad : VAD.VolumeAnomalyDetector;
  _regime : Regime.RegimeClassifier;
  _signal_engine : Signals.SignalEngine;
  _risk_guardian : Guardian.RiskGuardian;
  _planner : Planner.ExecutionPlanner }.

(** What steps 3 to 7 compute, as [_tick] hands it to the ledger. *)
Record TickRecord := mkTickRecord {
  rec_oad : OrderbookAnomalyReport;
  rec_vad : VolumeAnomalyReport;
  rec_stress : MarketStressIndex;
  rec_regime : RegimeState;
  rec_signal : option TradeCandidate;
  rec_risk : RiskDecision;
  rec_plan : ExecutionPlan }.

Section WithNumpy.

Variable np_log1p : Q -> Q.
Variable realized_vol : list Q -> Q.
Variable np_std : list Q -> Q.

(** Steps 3 to 7 of [Orchestrator._tick], from the feature vector to
    the plan: anomaly detection, stress, regime, signal, risk and plan.
    [account] is what [self._adapter.get_account_state] answers and
    [policy] is [self._state.policy]. *)
Definition _tick_detect_to_plan (fv : FeatureVector) (account : Account)
    (policy : Policy) : State Orchestrator TickRecord :=
  oad <- zoom _oad
           (fun x self =>
              mkOrchestrator (_config self) x (_vad self) (_regime self)
                (_signal_engine self) (_risk_guardian self) (_planner self))
           (OAD.detect fv) ;;
  vad <- zoom _vad
           (fun x self =>
              mkOrchestrator (_config self) (_oad self) x (_regime self)
                (_signal_engine self) (_risk_guardian self) (_planner self))
           (VAD.detect np_log1p fv) ;;
  config <- gets _config ;;
  let stress := Stress.compute_stress oad vad config in
  regime <- zoom _regime
              (fun x self =>
                 mkOrchestrator (_config self) (_oad self) (_vad self) x
                   (_signal_engine self) (_risk_guardian self) (_planner self))
              (Regime.classify realized_vol fv oad vad) ;;
  candidate <- zoom _signal_engine
                 (fun x self =>
                    mkOrchestrator (_config self) (_oad self) (_vad self)
                      (_regime self) x (_risk_guardian self) (_planner self))
                 (Signals.generate np_std fv regime policy) ;;
  risk <- zoom _risk_guardian
            (fun x self =>
               mkOrchestrator (_config self) (_oad self) (_vad self)
                 (_regime self) (_signal_engine self) x (_planner self))
            (Guardian.assess candidate fv oad vad stress account policy) ;;
  planner <- gets _planner ;;
  let plan := Planner.plan planner risk candidate fv vad in
  ret (mkTickRecord oad vad stress regime candidate risk plan).

End WithNumpy.

End Orchestrator.

(** * Properties *)

(** ** Float comparisons and sums *)

Lemma Qltb_true (a b : Q) : Qltb a b = true <-> a < b.
Proof.
  unfold Qltb. rewrite negb_true_iff. split.
  - intros H. apply Qnot_le_lt. intros Hle.
    apply Qle_bool_iff in Hle. congruence.
  - intros H. destruct (Qle_bool b a) eqn:E; [|reflexivity].
    apply Qle_bool_iff in E. lra.
Qed.

Lemma Qltb_false (a b : Q) : Qltb a b = false <-> b <= a.
Proof.
  unfold Qltb. rewrite negb_false_iff. apply Qle_bool_iff.
Qed.

Lemma Qle_bool_false (a b : Q) : Qle_bool a b = false <-> b < a.
Proof.
  split.
  - intros H. apply Qnot_le_lt. intros Hle.
    apply Qle_bool_iff in Hle. congruence.
  - intros H. destruct (Qle_bool a b) eqn:E; [|reflexivity].
    apply Qle_bool_iff in E. lra.
Qed.

(** Case analysis on every float comparison of a goal, leaving the
    comparisons as hypotheses for [lra]. *)
Ltac cmp_cases :=
  repeat match goal with
  | |- context [Qle_bool ?a ?b] =>
      let E := fresh "E" in
      destruct (Qle_bool a b) eqn:E;
      [apply Qle_bool_iff in E | apply Qle_bool_false in E]
  | |- context [Qltb ?a ?b] =>
      let E := fresh "E" in
      destruct (Qltb a b) eqn:E;
      [apply Qltb_true in E | apply Qltb_false in E]
  end.

Lemma foldl_Qplus_shift (l : list Q) (a : Q) :
  foldl Qplus a l == a + foldl Qplus 0 l.
Proof.
  revert a. induction l as [|x l IH]; intros a; simpl.
  - lra.
  - rewrite (IH (a + x)), (IH (0 + x)). lra.
Qed.

Lemma Qsum_cons (x : Q) (l : list Q) : Qsum (x :: l) == x + Qsum l.
Proof. unfold Qsum. simpl. rewrite foldl_Qplus_shift. lra. Qed.

(** Name every [Qmin] and [Qmax] of the goal and split on which argument
    it equals, leaving linear facts for [lra]. *)
Ltac q_minmax :=
  repeat match goal with
  | |- context [Qmin ?a ?b] =>
      let m := fresh "m" in
      let H := fresh "Hm" in
      pose proof (Q.min_spec a b) as H;
      set (m := Qmin a b) in *; clearbody m;
      destruct H as [[? ?]|[? ?]]
  | |- context [Qmax ?a ?b] =>
      let m := fresh "m" in
      let H := fresh "Hm" in
      pose proof (Q.max_spec a b) as H;
      set (m := Qmax a b) in *; clearbody m;
      destruct H as [[? ?]|[? ?]]
  end.

(** ** Price impact (features/impact.py) *)

Section ImpactFacts.
Import Impact.

Lemma depth_usd_cons (l : OrderBookLevel) (ls : list OrderBookLevel) :
  depth_usd (l :: ls) == level_price l * level_size l + depth_usd ls.
Proof. unfold depth_usd. simpl map. apply Qsum_cons. Qed.

Lemma depth_usd_nonneg (ls : list OrderBookLevel) :
  Forall valid_level ls -> 0 <= depth_usd ls.
Proof.
  induction 1 as [|l ls [Hp Hs] _ IH].
  - unfold depth_usd, Qsum. simpl. lra.
  - rewrite depth_usd_cons. nra.
Qed.

(** The loop only moves quote units from [remaining_usd] to
    [total_cost]. *)
Lemma walk_conserves (ls : list OrderBookLevel) (r c : Q) :
  fst (walk ls r c) + snd (walk ls r c) == r + c.
Proof.
  revert r c. induction ls as [|l ls IH]; intros r c; simpl.
  - lra.
  - destruct (Qle_bool r 0); simpl; [lra|].
    rewrite IH. lra.
Qed.

(** What is left after the loop is the part of the order the levels
    could not absorb. *)
Lemma walk_remaining (ls : list OrderBookLevel) (r c : Q) :
  Forall valid_level ls -> 0 <= r ->
  fst (walk ls r c) == Qmax 0 (r - depth_usd ls).
Proof.
  intros Hv. revert r c. induction Hv as [|l ls [Hp Hs] Hv IH]; intros r c Hr.
  - simpl. unfold depth_usd, Qsum. simpl. q_minmax; lra.
  - simpl. pose proof (depth_usd_nonneg ls Hv) as Hd.
    pose proof (depth_usd_cons l ls) as Hc.
    assert (0 < level_price l * level_size l) as Hlu by nra.
    destruct (Qle_bool r 0) eqn:E.
    + apply Qle_bool_iff in E. simpl. q_minmax; lra.
    + apply Qle_bool_false in E.
      rewrite IH.
      * q_minmax; lra.
      * q_minmax; lra.
Qed.

(** With enough depth the order is fully filled and the accumulated
    [total_cost] is the order size itself: prices never enter it. *)
Lemma walk_filled (ls : list OrderBookLevel) (qty : Q) :
  Forall valid_level ls -> 0 < qty -> qty <= depth_usd ls ->
  fst (walk ls qty 0) == 0 /\ snd (walk ls qty 0) == qty.
Proof.
  intros Hv Hq Hd.
  pose proof (walk_remaining ls qty 0 Hv ltac:(lra)) as Hr.
  pose proof (walk_conserves ls qty 0) as Hc.
  assert (fst (walk ls qty 0) == 0) as H0.
  { rewrite Hr. q_minmax; lra. }
  split; [exact H0|]. lra.
Qed.

(** On a fillable order the function returns the deviation of the
    constant 1 from [mid], whatever the prices of the levels. *)
Lemma estimate_impact_bps_filled
    (ls : list OrderBookLevel) (side : Side) (qty mid : Q) :
  Forall valid_level ls -> 0 < qty -> qty <= depth_usd ls -> 0 < mid ->
  exists r, estimate_impact_bps ls side qty mid = Some r
    /\ r == Qmax 0 (match side with
                    | buy => ((1 - mid) / mid) * 10000
                    | sell => ((mid - 1) / mid) * 10000
                    end).
Proof.
  intros Hv Hq Hd Hm.
  destruct (walk_filled ls qty Hv Hq Hd) as [H0 H1].
  unfold estimate_impact_bps.
  destruct (Qle_bool qty 0) eqn:E1.
  { apply Qle_bool_iff in E1. lra. }
  destruct ls as [|l ls].
  { unfold depth_usd, Qsum in Hd. simpl in Hd. lra. }
  destruct (walk (l :: ls) qty 0) as [rem cost] eqn:Ew. simpl in H0, H1.
  destruct (Qltb 0 rem) eqn:E2.
  { apply Qltb_true in E2. lra. }
  destruct (Qltb 0 qty) eqn:E3.
  2:{ apply Qltb_false in E3. lra. }
  destruct (Qeq_bool mid 0) eqn:E4.
  { apply Qeq_bool_eq in E4. lra. }
  eexists. split; [reflexivity|].
  assert (cost / qty == 1) as Ha by (rewrite H1; field; lra).
  destruct side; rewrite Ha; reflexivity.
Qed.

(** The sentinel is returned when the depth is insufficient. *)
Lemma estimate_impact_bps_insufficient
    (ls : list OrderBookLevel) (side : Side) (qty mid : Q) :
  Forall valid_level ls -> 0 < qty -> depth_usd ls < qty ->
  estimate_impact_bps ls side qty mid = Some sentinel.
Proof.
  intros Hv Hq Hd.
  pose proof (walk_remaining ls qty 0 Hv ltac:(lra)) as Hr.
  unfold estimate_impact_bps.
  destruct (Qle_bool qty 0) eqn:E1.
  { apply Qle_bool_iff in E1. lra. }
  destruct ls as [|l ls]; [reflexivity|].
  destruct (walk (l :: ls) qty 0) as [rem cost] eqn:Ew. simpl in Hr.
  destruct (Qltb 0 rem) eqn:E2; [reflexivity|].
  apply Qltb_false in E2. revert Hr. q_minmax; lra.
Qed.

(** The same through [FeatureEngine.compute]: with bids 99 x 20, 98 x 20
    under the asks of the test (mid 99.5) and the default impact size of
    1000, the buy impact of the feature vector is 0. *)
Lemma compute_impacts_test_book :
  fst (compute_impacts [mkLevel 99 20; mkLevel 98 20] test_asks 1000) = Some 0.
Proof. vm_compute. reflexivity. Qed.

(** C1: on the book of [test_sufficient_liquidity_buy] (asks 100 x 10 and
    101 x 10, a buy of 1000 quote units, mid 99.5) the order fills at
    the first level, so the average fill price is 100 and the impact
    the specification and the test ask for is about 50.25 bps; the
    function returns 0. *)
Theorem estimate_impact_bps_test_buy :
  estimate_impact_bps test_asks buy 1000 99.5 = Some 0
  /\ spec_avg_fill_price test_asks 1000 == 100
  /\ 45 < spec_impact_bps test_asks buy 1000 99.5 < 55.
Proof.
  split; [vm_compute; reflexivity|].
  split; vm_compute; done.
Qed.

End ImpactFacts.

(** ** Signal engine (strategy/signals.py) *)

Section SignalFacts.
Import Signals.

Lemma deque_append_snoc {A} (d : list A) (x : A) :
  exists d', deque_append 100 d x = d' ++ [x].
Proof.
  unfold deque_append.
  destruct (100 <? length (d ++ [x]))%nat eqn:E; [|by exists d].
  destruct d as [|a d]; [discriminate|].
  exists d. reflexivity.
Qed.

Lemma last_n_snoc {A} (n : nat) (l : list A) (x : A) :
  exists l', last_n (S n) (l ++ [x]) = l' ++ [x].
Proof.
  unfold last_n. rewrite length_app. simpl.
  exists (drop (length l + 1 - S n) l).
  apply drop_app_le. lia.
Qed.

Lemma np_max_snoc_ge (l : list Q) (x : Q) : x <= np_max (l ++ [x]).
Proof.
  destruct l as [|a l]; simpl.
  - lra.
  - rewrite foldl_app. simpl. apply Q.le_max_r.
Qed.

Lemma np_min_snoc_le (l : list Q) (x : Q) : np_min (l ++ [x]) <= x.
Proof.
  destruct l as [|a l]; simpl.
  - lra.
  - rewrite foldl_app. simpl. apply Q.le_min_r.
Qed.

(** When the history ends with the current mid, the 20-point high is
    at least the mid and the 20-point low at most the mid, so neither
    breakout test can succeed on a non-negative price. *)
Lemma _trend_breakout_after_append
    (fv : FeatureVector) (regime : RegimeState) (h : list (Q * Q)) (ts : Q) :
  0 <= fv_mid fv ->
  fst (_trend_breakout fv regime (mkSignalEngine (h ++ [(ts, fv_mid fv)])))
  = None.
Proof.
  intros Hmid. unfold _trend_breakout, bind, gets, ret.
  destruct (price_regime regime), (flow_regime regime); simpl; try reflexivity.
  all: rewrite map_app;
    change (map snd [(ts, fv_mid fv)]) with [fv_mid fv];
    destruct (last_n_snoc 19 (map snd h) (fv_mid fv)) as [l' ->];
    pose proof (np_max_snoc_ge l' (fv_mid fv));
    pose proof (np_min_snoc_le l' (fv_mid fv));
    cmp_cases; simpl; try reflexivity; lra.
Qed.

(** [_trend_breakout] only reads the engine. *)
Lemma _trend_breakout_frame
    (fv : FeatureVector) (regime : RegimeState) (self : SignalEngine) :
  snd (_trend_breakout fv regime self) = self.
Proof.
  unfold _trend_breakout, bind, gets, ret.
  destruct (price_regime regime), (flow_regime regime); simpl;
    try reflexivity.
  all: cmp_cases; reflexivity.
Qed.

Lemma _range_mean_revert_strategy
    (np_std : list Q -> Q) (fv : FeatureVector) (regime : RegimeState)
    (self : SignalEngine) (c : TradeCandidate) :
  fst (_range_mean_revert np_std fv regime self) = Some c ->
  strategy c = "range_mean_revert".
Proof.
  unfold _range_mean_revert, bind, gets, ret.
  destruct (price_regime regime), (flow_regime regime); simpl;
    try discriminate.
  cmp_cases; simpl; try discriminate; intros [= <-]; reflexivity.
Qed.

(** [generate] records the current mid before it looks for a breakout;
    on a non-negative mid, whatever the history, the regime and the
    policy, it never returns a trend-breakout candidate. *)
Lemma generate_never_breakout
    (np_std : list Q -> Q) (fv : FeatureVector) (regime : RegimeState)
    (policy : Policy) (self : SignalEngine) (c : TradeCandidate) :
  0 <= fv_mid fv ->
  fst (generate np_std fv regime policy self) = Some c ->
  strategy c = "range_mean_revert".
Proof.
  intros Hmid. unfold generate, bind, modify, gets, ret.
  destruct (deque_append_snoc (_price_history self) (fv_ts fv, fv_mid fv))
    as [h ->].
  set (e := mkSignalEngine (h ++ [(fv_ts fv, fv_mid fv)])).
  assert (_trend_breakout fv regime e = (None, e)) as Hb.
  { rewrite (surjective_pairing (_trend_breakout fv regime e)).
    rewrite _trend_breakout_frame. unfold e.
    rewrite _trend_breakout_after_append by exact Hmid. reflexivity. }
  assert (forall allowed,
    fst (try_strategy "range_mean_revert" allowed
           (_range_mean_revert np_std fv regime) (ret None) e) = Some c ->
    strategy c = "range_mean_revert") as Hr.
  { intros allowed. unfold try_strategy, bind, ret.
    destruct (bool_decide _); [|discriminate].
    destruct (_range_mean_revert np_std fv regime e) as [[c'|] e'] eqn:Er;
      cbn [fst]; [|discriminate].
    intros [= ->].
    apply (_range_mean_revert_strategy np_std fv regime e).
    rewrite Er. reflexivity. }
  assert (forall allowed,
    fst (try_strategy "trend_breakout" allowed (_trend_breakout fv regime)
           (try_strategy "range_mean_revert" allowed
              (_range_mean_revert np_std fv regime) (ret None)) e) = Some c ->
    strategy c = "range_mean_revert") as Ht.
  { intros allowed. unfold try_strategy at 1. unfold bind.
    destruct (bool_decide _); [rewrite Hb|]; apply Hr. }
  destruct (flow_regime regime); cbn [fst]; try discriminate.
  all: destruct (default [] (allowed_strategies policy)) as [|s ss] eqn:Ea;
    cbn [fst]; try discriminate.
  all: fold e; destruct (length (_price_history e) <? 5)%nat; cbn [fst];
    try discriminate; apply Ht.
Qed.

(** C2: the scenario of [test_trend_breakout_long].  After the 40
    warm-up ticks (mids 2000, 2000.5, ..., 2019.5) in TREND_UP/ACTIVE
    with trend_breakout allowed, the tick with mid 2021 yields no
    candidate, and neither does a tick with mid 2025, which is more
    than 0.1% above the 20-point high 2019.5 of the ticks before it:
    the high is taken after the current mid has been appended to the
    history, so it is the current mid itself. *)
Theorem generate_breakout_tick_no_candidate (np_std : list Q -> Q) :
  let regime := _create_regime TREND_UP ACTIVE in
  let engine := warm_up np_std ascending_ticks regime breakout_policy init in
  np_max (last_n 20 (map snd (_price_history engine))) == 2019.5
  /\ fst (generate np_std (_create_feature 40 2021) regime breakout_policy
            engine) = None
  /\ 2019.5 * 1.001 < 2025
  /\ fst (generate np_std (_create_feature 40 2025) regime breakout_policy
            engine) = None.
Proof.
  split; [vm_compute; reflexivity|].
  split; [vm_compute; reflexivity|].
  split; vm_compute; reflexivity.
Qed.

End SignalFacts.

(** ** Order book (market/orderbook.py) *)

Section OrderBookFacts.
Import OrderBook.

(** What one change does to the bid side: a zero size removes the
    price, any other size overwrites it, other prices are untouched. *)
Lemma apply_change_bid (self : OrderBook) (p s : Q) (k : Qc) :
  _bids (apply_change self (mkChange "bid" p s)) !! k
  = if decide (Q2Qc p = k)
    then (if Qeq_bool s 0 then None else Some s)
    else _bids self !! k.
Proof.
  unfold apply_change. simpl.
  destruct (Qeq_bool s 0); simpl.
  - rewrite lookup_delete. repeat case_decide; congruence.
  - rewrite lookup_insert. repeat case_decide; congruence.
Qed.

Lemma apply_change_ask (self : OrderBook) (p s : Q) (k : Qc) :
  _asks (apply_change self (mkChange "ask" p s)) !! k
  = if decide (Q2Qc p = k)
    then (if Qeq_bool s 0 then None else Some s)
    else _asks self !! k.
Proof.
  unfold apply_change. simpl.
  destruct (Qeq_bool s 0); simpl.
  - rewrite lookup_delete. repeat case_decide; congruence.
  - rewrite lookup_insert. repeat case_decide; congruence.
Qed.

(** The loop over the changes touches neither the sequence number nor
    the timestamp nor the update counter. *)
Lemma apply_changes_meta (changes : list Change) (self : OrderBook) :
  let self' := foldl apply_change self changes in
  _seq self' = _seq self
  /\ _last_update_ts self' = _last_update_ts self
  /\ _update_count self' = _update_count self.
Proof.
  revert self. induction changes as [|c cs IH]; intros self; simpl.
  - done.
  - destruct (IH (apply_change self c)) as (-> & -> & ->).
    unfold apply_change.
    repeat match goal with
           | |- context [if ?b then _ else _] => destruct b
           end; done.
Qed.

(** A sequence gap leaves the book as it was. *)
Lemma apply_delta_gap (changes : list Change) (seq : Z) (now : Q)
    (self : OrderBook) :
  seq <> (_seq self + 1)%Z ->
  apply_delta changes seq now self = (Some SequenceError, self).
Proof.
  intros Hgap. unfold apply_delta, bind, gets, ret.
  destruct (Z.eqb_spec seq (_seq self + 1)); [contradiction|reflexivity].
Qed.

(** Without a gap the changes are applied and stamped first, and the
    consistency of the result only decides whether the call raises. *)
Lemma apply_delta_in_sequence (changes : list Change) (seq : Z) (now : Q)
    (self : OrderBook) :
  seq = (_seq self + 1)%Z ->
  let self' := stamp seq now (foldl apply_change self changes) in
  apply_delta changes seq now self
  = (if is_consistent self' then None else Some OrderbookInconsistentError,
     self').
Proof.
  intros Hseq. unfold apply_delta, bind, gets, modify, ret.
  destruct (Z.eqb_spec seq (_seq self + 1)); [|contradiction].
  simpl. destruct (is_consistent _); reflexivity.
Qed.

(** C3, as the claim states it, fails: the crossing delta raises
    [OrderbookInconsistentError] and leaves the bid at 102 in the
    book, with the sequence number advanced to 2. *)
Lemma apply_delta_error_not_always_unchanged :
  ~ (forall changes seq now self e,
       fst (apply_delta changes seq now self) = Some e ->
       snd (apply_delta changes seq now self) = self).
Proof.
  intros H.
  specialize (H crossing_delta 2%Z 6 book1 OrderbookInconsistentError).
  assert (fst (apply_delta crossing_delta 2 6 book1)
          = Some OrderbookInconsistentError) as Hraise
    by (vm_compute; reflexivity).
  specialize (H Hraise).
  assert (_seq (snd (apply_delta crossing_delta 2 6 book1)) = 2%Z) as Hnew
    by (vm_compute; reflexivity).
  assert (_seq book1 = 1%Z) as Hold by (vm_compute; reflexivity).
  rewrite H, Hold in Hnew. lia.
Qed.

(** C3, amended: [apply_delta] raises [SequenceError] exactly when
    [seq] is not the stored sequence plus one, and then the book is
    unchanged; in every other case, whether the call returns or raises
    [OrderbookInconsistentError], the changes have been applied in
    order, the stored sequence is [seq], the timestamp is the current
    time and the update counter is incremented;
    [OrderbookInconsistentError] is raised exactly when that new book
    is inconsistent. *)
Theorem apply_delta_all_or_nothing (changes : list Change) (seq : Z)
    (now : Q) (self : OrderBook) :
  let result := fst (apply_delta changes seq now self) in
  let self' := snd (apply_delta changes seq now self) in
  (result = Some SequenceError <-> seq <> (_seq self + 1)%Z)
  /\ (result = Some SequenceError -> self' = self)
  /\ (result <> Some SequenceError ->
        _bids self' = _bids (foldl apply_change self changes)
        /\ _asks self' = _asks (foldl apply_change self changes)
        /\ _seq self' = seq
        /\ _last_update_ts self' = now
        /\ _update_count self' = (_update_count self + 1)%Z)
  /\ (result = Some OrderbookInconsistentError <->
        seq = (_seq self + 1)%Z /\ is_consistent self' = false).
Proof.
  destruct (Z.eq_dec seq (_seq self + 1)%Z) as [Heq|Hne].
  - rewrite (apply_delta_in_sequence changes seq now self Heq).
    destruct (apply_changes_meta changes self) as (_ & _ & Hcount).
    cbn [fst snd]. repeat split; try done.
    + destruct (is_consistent _); discriminate.
    + intros Hs. destruct (is_consistent _); discriminate.
    + cbn. rewrite Hcount. reflexivity.
    + destruct (is_consistent _); [discriminate|reflexivity].
    + intros [_ ->]. reflexivity.
  - rewrite (apply_delta_gap changes seq now self Hne).
    cbn [fst snd]. repeat split; try done.
    intros [? _]. contradiction.
Qed.

End OrderBookFacts.

(** ** Risk guardian (risk/guardian.py, risk/tilt.py) *)

Section GuardianFacts.
Import Guardian.

(** The two queries of the tilt tracker leave it as it is. *)
Lemma daily_pnl_pct_frame (balance : Q) (t : Tilt.TiltTracker) :
  snd (Tilt.daily_pnl_pct balance t) = t.
Proof.
  unfold Tilt.daily_pnl_pct, bind, gets, ret.
  destruct (Qle_bool balance 0); reflexivity.
Qed.

Lemma trades_last_hour_frame (ts : Q) (t : Tilt.TiltTracker) :
  snd (Tilt.trades_last_hour ts t) = t.
Proof. reflexivity. Qed.

Lemma on_tilt_reader {A} (m : State Tilt.TiltTracker A) (self : RiskGuardian) :
  snd (m (_tilt self)) = _tilt self ->
  on_tilt m self = (fst (m (_tilt self)), self).
Proof.
  intros H. unfold on_tilt.
  destruct (m (_tilt self)) as [a t] eqn:E. simpl in *. subst t.
  destruct self; reflexivity.
Qed.

Lemma cooldown_active_true (cooldown_until : option Q) (ts : Q) :
  cooldown_active cooldown_until ts = true <->
  exists c, cooldown_until = Some c /\ ~ c == 0 /\ ts < c.
Proof.
  unfold cooldown_active. destruct cooldown_until as [c|].
  - rewrite andb_true_iff, negb_true_iff, Qltb_true. split.
    + intros [Hc Ht]. exists c. repeat split; [|exact Ht].
      intros Hz. apply Qeq_bool_iff in Hz. congruence.
    + intros (c' & [= <-] & Hc & Ht). split; [|exact Ht].
      destruct (Qeq_bool c 0) eqn:E; [|reflexivity].
      apply Qeq_bool_iff in E. contradiction.
  - split; [discriminate|]. intros (c & [=] & _).
Qed.

Lemma cooldown_active_false (cooldown_until : option Q) (ts : Q) :
  cooldown_active cooldown_until ts = false <->
  ~ exists c, cooldown_until = Some c /\ ~ c == 0 /\ ts < c.
Proof.
  rewrite <- cooldown_active_true.
  destruct (cooldown_active cooldown_until ts); split; congruence.
Qed.

(** Turn the recorded outcomes of the boolean tests into propositions. *)
Ltac to_props :=
  repeat match goal with
  | H : Qltb _ _ = true |- _ => apply Qltb_true in H
  | H : Qltb _ _ = false |- _ => apply Qltb_false in H
  | H : Qle_bool _ _ = true |- _ => apply Qle_bool_iff in H
  | H : Qle_bool _ _ = false |- _ => apply Qle_bool_false in H
  | H : (_ <=? _)%Z = true |- _ => apply Z.leb_le in H
  | H : (_ <=? _)%Z = false |- _ => apply Z.leb_gt in H
  | H : cooldown_active _ _ = true |- _ => apply cooldown_active_true in H
  | H : cooldown_active _ _ = false |- _ => apply cooldown_active_false in H
  end.

(** Settle [x ∈ l <-> b = true] for a concrete list of reason codes
    and a concrete boolean, by evaluating the membership test. *)
Ltac mem_iff :=
  split; intros H;
  first [ reflexivity
        | discriminate H
        | apply (bool_decide_unpack _); vm_compute; exact I
        | exfalso; apply (bool_decide_pack _) in H; vm_compute in H;
          exact H ].

(** Walk down the cascade of [assess], one test at a time. *)
Ltac cascade :=
  unfold assess, bind, gets, ret;
  repeat first
    [ rewrite on_tilt_reader
        by (apply daily_pnl_pct_frame || apply trades_last_hour_frame)
    | match goal with
      | |- context [if ?b then _ else _] => destruct b eqn:?
      | |- context [match stress_level ?s with _ => _ end] =>
          destruct (stress_level s) eqn:?
      end ];
  cbn [fst snd].

(** Either a rule of the cascade denies, and the decision is a DENY of
    size 0 with that rule's reason alone, or none does and the
    decision is the one computed by the reductions. *)
Lemma assess_cascade (self : RiskGuardian) (c : TradeCandidate)
    (fv : FeatureVector) (oad : OrderbookAnomalyReport)
    (vad : VolumeAnomalyReport) (stress : MarketStressIndex)
    (account : Account) (policy : Policy) :
  let d := fst (assess (Some c) fv oad vad stress account policy self) in
  (spec_deny_rule_triggers self (Some c) fv vad stress account policy
   /\ exists reason, d = deny (fv_ts fv) [reason] (facts d))
  \/ (~ spec_deny_rule_triggers self (Some c) fv vad stress account policy
      /\ exists facts0,
           d = reductions (_config self) (fv_ts fv) stress policy
                 (default 0 (position_notional account)) (impact_side c fv)
                 (default 10 (impact_entry_cap_bps policy)) (toxic_of vad)
                 [] facts0).
Proof.
  intros d. subst d. cascade; to_props.
  all: try (left; split;
            [ unfold spec_deny_rule_triggers; cbn [fst snd];
              repeat first [ solve [left; first [assumption | lra | lia]]
                           | right ];
              first [assumption | lra | lia]
            | eexists; reflexivity ]).
  all: right; (split; [|eexists; reflexivity]).
  all: unfold spec_deny_rule_triggers; intros H;
    repeat destruct H as [H|H];
    first [contradiction | lra | lia | congruence].
Qed.

(** The reductions, read off the code: size, slippage, action and
    reasons. *)
Lemma reductions_spec (config : Config) (ts : Q) (stress : MarketStressIndex)
    (policy : Policy) (pos impact cap toxic : Q) (reasons0 : list string)
    (facts0 : gmap string Q) :
  let d := reductions config ts stress policy pos impact cap toxic
             reasons0 facts0 in
  let m := spec_multiplier impact cap toxic (vad_toxic_warn config)
             (stress_level stress) in
  size_usd d
    == Qmin 1000 (default 3000 (max_position_notional policy) - pos) * m
  /\ max_slippage_bps d = Qmin (impact * 1.5) 15
  /\ 0 < m
  /\ ((action d = ALLOW /\ m == 1)
      \/ (action d = ALLOW_WITH_REDUCTIONS /\ m < 1))
  /\ reasons d
     = reasons0
       ++ (if Qltb cap impact then [IMPACT_ENTRY_CAP_EXCEEDED] else [])
       ++ (if Qle_bool (vad_toxic_warn config) toxic
           then [TOXIC_WARN_LEVEL] else [])
       ++ (match action d with
           | ALLOW_WITH_REDUCTIONS => [RISK_POSITION_SIZE_REDUCED]
           | _ => []
           end).
Proof.
  unfold reductions, spec_multiplier.
  set (base := Qmin 1000 _). clearbody base.
  destruct (Qltb cap impact), (Qle_bool (vad_toxic_warn config) toxic),
    (stress_level stress).
  all: match goal with
       | |- context [Qltb ?a 1] =>
           let v := eval vm_compute in (Qltb a 1) in
           change (Qltb a 1) with v
       end; cbn [size_usd max_slippage_bps action reasons].
  all: rewrite <- ?app_assoc, ?app_nil_r.
  all: repeat split; try reflexivity; try ring.
  all: first [ left; split; [reflexivity | reflexivity]
             | right; split; [reflexivity | reflexivity] ].
Qed.


(** The decision is a DENY exactly when one of the eight rules of the
    specification triggers. *)
Lemma assess_deny_iff (self : RiskGuardian)
    (candidate : option TradeCandidate) (fv : FeatureVector)
    (oad : OrderbookAnomalyReport) (vad : VolumeAnomalyReport)
    (stress : MarketStressIndex) (account : Account) (policy : Policy) :
  action (fst (assess candidate fv oad vad stress account policy self)) = DENY
  <-> spec_deny_rule_triggers self candidate fv vad stress account policy.
Proof.
  destruct candidate as [c|]; [|cbn; tauto].
  destruct (assess_cascade self c fv oad vad stress account policy)
    as [(Hyes & reason & Hd)|(Hno & facts0 & Hd)].
  - rewrite Hd. cbn. tauto.
  - split; [|contradiction].
    intros Hdeny. exfalso.
    pose proof (reductions_spec (_config self) (fv_ts fv) stress policy
      (default 0 (position_notional account)) (impact_side c fv)
      (default 10 (impact_entry_cap_bps policy)) (toxic_of vad) [] facts0)
      as Hspec.
    rewrite <- Hd in Hspec. cbv zeta in Hspec.
    destruct Hspec as (_ & _ & _ & [[Ha _]|[Ha _]] & _); congruence.
Qed.

(** C4: [assess] returns one of the three actions; the decision has
    size 0 exactly when the action is DENY or there is no candidate;
    and an ALLOW_WITH_REDUCTIONS decision lists
    RISK_POSITION_SIZE_REDUCED among its reasons. *)
Theorem assess_action_and_size (self : RiskGuardian)
    (candidate : option TradeCandidate) (fv : FeatureVector)
    (oad : OrderbookAnomalyReport) (vad : VolumeAnomalyReport)
    (stress : MarketStressIndex) (account : Account) (policy : Policy) :
  let d := fst (assess candidate fv oad vad stress account policy self) in
  (action d = ALLOW \/ action d = ALLOW_WITH_REDUCTIONS \/ action d = DENY)
  /\ ((action d = DENY \/ candidate = None) <-> size_usd d == 0)
  /\ (action d = ALLOW_WITH_REDUCTIONS ->
      RISK_POSITION_SIZE_REDUCED ∈ reasons d).
Proof.
  intros d. split; [destruct (action d); tauto|].
  destruct candidate as [c|].
  2:{ subst d. cbn. split; [split; [reflexivity|tauto]|discriminate]. }
  destruct (assess_cascade self c fv oad vad stress account policy)
    as [(_ & reason & Hd)|(Hno & facts0 & Hd)]; fold d in Hd.
  - rewrite Hd. cbn. split; [split; [reflexivity|tauto]|discriminate].
  - pose proof (reductions_spec (_config self) (fv_ts fv) stress policy
      (default 0 (position_notional account)) (impact_side c fv)
      (default 10 (impact_entry_cap_bps policy)) (toxic_of vad) [] facts0)
      as Hspec.
    rewrite <- Hd in Hspec. cbv zeta in Hspec.
    destruct Hspec as (Hsize & _ & Hm & Hact & Hreasons).
    assert (default 0 (position_notional account)
            < default 3000 (max_position_notional policy)) as Hpos.
    { apply Qnot_le_lt. intros Hle. apply Hno.
      unfold spec_deny_rule_triggers. tauto. }
    split.
    + split.
      * intros [Hdeny|[=]]. destruct Hact as [[Ha _]|[Ha _]]; congruence.
      * intros Hz. exfalso. rewrite Hsize in Hz.
        revert Hz Hm. generalize (spec_multiplier (impact_side c fv)
          (default 10 (impact_entry_cap_bps policy)) (toxic_of vad)
          (vad_toxic_warn (_config self)) (stress_level stress)).
        intros m. q_minmax; nra.
    + intros Ha. rewrite Hreasons, Ha.
      rewrite !elem_of_app. right. right. right. apply list_elem_of_here.
Qed.

(** C5: when no DENY rule triggers, the size is the base size times the
    multiplier of the specification, the reasons record the impact and
    toxic reductions exactly when they apply, and the slippage cap is
    [min(1.5 * impact_side, 15)]; the impact throughout is the one of
    the candidate's own side, the buy impact for a long and the sell
    impact for a short. *)
Theorem assess_reductions (self : RiskGuardian) (c : TradeCandidate)
    (fv : FeatureVector) (oad : OrderbookAnomalyReport)
    (vad : VolumeAnomalyReport) (stress : MarketStressIndex)
    (account : Account) (policy : Policy) :
  ~ spec_deny_rule_triggers self (Some c) fv vad stress account policy ->
  let d := fst (assess (Some c) fv oad vad stress account policy self) in
  let base_size :=
    Qmin 1000 (default 3000 (max_position_notional policy)
               - default 0 (position_notional account)) in
  let impact :=
    match cand_side c with
    | long => fv_impact_buy_bps fv
    | short => fv_impact_sell_bps fv
    end in
  let entry_cap := default 10 (impact_entry_cap_bps policy) in
  let toxic_warn := vad_toxic_warn (_config self) in
  let toxic := default 0 (vad_triggers vad !! "toxic") in
  size_usd d
    == base_size
       * (1 * (if Qltb entry_cap impact then 0.5 else 1)
            * (if Qle_bool toxic_warn toxic then 0.7 else 1)
            * (match stress_level stress with WARN => 0.5 | _ => 1 end))
  /\ size_usd d
     == base_size * spec_multiplier impact entry_cap toxic toxic_warn
                      (stress_level stress)
  /\ (IMPACT_ENTRY_CAP_EXCEEDED ∈ reasons d <-> entry_cap < impact)
  /\ (TOXIC_WARN_LEVEL ∈ reasons d <-> toxic_warn <= toxic)
  /\ max_slippage_bps d == Qmin (1.5 * impact) 15.
Proof.
  intros Hno d base_size impact entry_cap toxic_warn toxic.
  change impact with (impact_side c fv) in *. clear impact.
  change toxic with (toxic_of vad) in *. clear toxic.
  set (impact := impact_side c fv).
  destruct (assess_cascade self c fv oad vad stress account policy)
    as [(Hyes & _)|(_ & facts0 & Hd)]; [contradiction|]. fold d in Hd.
  pose proof (reductions_spec (_config self) (fv_ts fv) stress policy
    (default 0 (position_notional account)) impact entry_cap (toxic_of vad)
    [] facts0) as Hspec.
  unfold impact, entry_cap in Hspec. rewrite <- Hd in Hspec.
  cbv zeta in Hspec. fold impact entry_cap toxic_warn in Hspec.
  destruct Hspec as (Hsize & Hslip & _ & _ & Hreasons).
  split; [exact Hsize|]. split; [exact Hsize|].
  rewrite Hreasons, Hslip. cbn [app].
  rewrite <- Qltb_true, <- Qle_bool_iff.
  destruct (Qltb entry_cap impact), (Qle_bool toxic_warn (toxic_of vad)),
    (action d).
  all: split; [mem_iff|split; [mem_iff|q_minmax; lra]].
Qed.


(** C5 applied to a short candidate whose two sides differ: buy impact
    6 bps, sell impact 12 bps, entry cap 10, toxic 0.65, stress OK, no
    position.  The sell impact is the one that counts: the size is
    1000 x 0.5 x 0.7, the entry-cap reason is given and the slippage
    cap is min(18, 15). *)
Lemma assess_reductions_witness :
  let fv :=
    mkFeatureVector 101 2021 1 5 10 10 50000 50000 0 0 6 12 10 1000 100 10
      10 20 0 0.65 in
  let c :=
    mkCandidate 101 short 2021 2031.105 (Some 2000.79) 0.7 300
      "range_mean_revert" in
  let d := fst (assess (Some c) fv oad0 vad0 stress0 account0 policy0
                  guardian0) in
  ~ spec_deny_rule_triggers guardian0 (Some c) fv vad0 stress0 account0
      policy0
  /\ size_usd d == 350
  /\ IMPACT_ENTRY_CAP_EXCEEDED ∈ reasons d
  /\ max_slippage_bps d == 15.
Proof.
  intros fv c d.
  assert (~ spec_deny_rule_triggers guardian0 (Some c) fv vad0 stress0
            account0 policy0) as Hno.
  { unfold spec_deny_rule_triggers. intros H.
    repeat destruct H as [H|H];
      first [ destruct H as (cu & Heq & _); discriminate Heq
            | vm_compute in H; first [discriminate H | apply H; reflexivity] ]. }
  split; [exact Hno|].
  destruct (assess_reductions guardian0 c fv oad0 vad0 stress0 account0
              policy0 Hno) as (Hsize & _ & Himp & _ & Hslip).
  split; [|split].
  - apply (Qeq_trans _ _ _ Hsize). vm_compute. reflexivity.
  - apply Himp. vm_compute. reflexivity.
  - apply (Qeq_trans _ _ _ Hslip). vm_compute. reflexivity.
Defined.

(** Recording a trade, by contrast, does change the guardian. *)
Lemma record_trade_appends (current_date : string) (ts pnl : Q)
    (self : RiskGuardian) :
  Tilt._trades (_tilt (snd (record_trade current_date ts pnl self)))
  = Tilt._trades (_tilt self) ++ [(ts, pnl)].
Proof.
  unfold record_trade, on_tilt, Tilt.record_trade, bind, gets, modify, ret.
  cbn. destruct (bool_decide _); reflexivity.
Qed.

(** C10: [assess] leaves the guardian as it found it (trade history,
    daily PnL, cooldown, book timestamp), so calling it again with the
    same arguments gives the same decision. *)
Theorem assess_frame (self : RiskGuardian)
    (candidate : option TradeCandidate) (fv : FeatureVector)
    (oad : OrderbookAnomalyReport) (vad : VolumeAnomalyReport)
    (stress : MarketStressIndex) (account : Account) (policy : Policy) :
  let d := fst (assess candidate fv oad vad stress account policy self) in
  let self' := snd (assess candidate fv oad vad stress account policy self) in
  Tilt._trades (_tilt self') = Tilt._trades (_tilt self)
  /\ Tilt._daily_pnl (_tilt self') = Tilt._daily_pnl (_tilt self)
  /\ Tilt._last_reset_date (_tilt self') = Tilt._last_reset_date (_tilt self)
  /\ _cooldown_until self' = _cooldown_until self
  /\ _last_book_update_ts self' = _last_book_update_ts self
  /\ self' = self
  /\ fst (assess candidate fv oad vad stress account policy self') = d.
Proof.
  intros d self'.
  assert (self' = self) as ->.
  { subst self'. destruct candidate as [c|]; [|reflexivity].
    cascade; reflexivity. }
  repeat split; reflexivity.
Qed.

(** The first rule that triggers decides: each DENY carries the reason
    of the highest-priority rule whose condition holds, and no other. *)
Theorem assess_first_rule_wins (self : RiskGuardian) (c : TradeCandidate)
    (fv : FeatureVector) (oad : OrderbookAnomalyReport)
    (vad : VolumeAnomalyReport) (stress : MarketStressIndex)
    (account : Account) (policy : Policy) :
  let d := fst (assess (Some c) fv oad vad stress account policy self) in
  let ts := fv_ts fv in
  let stale := 10 < ts - _last_book_update_ts self in
  let bad_spread := fv_spread fv <= 0 in
  let loss :=
    fst (Tilt.daily_pnl_pct (default 10000 (balance account)) (_tilt self))
    < - default 1 (max_daily_loss_pct policy) in
  let cooling :=
    exists c_until, _cooldown_until self = Some c_until
                    /\ ~ c_until == 0 /\ ts < c_until in
  let capped :=
    default 3000 (max_position_notional policy)
    <= default 0 (position_notional account) in
  let hard := default 20 (impact_hard_cap_bps policy) < impact_side c fv in
  let toxic := vad_toxic_danger (_config self) <= toxic_of vad in
  let danger := stress_level stress = DANGER in
  let busy :=
    (default 6 (max_trades_per_hour policy)
     <= fst (Tilt.trades_last_hour ts (_tilt self)))%Z in
  (stale -> reasons d = [DATA_STALE])
  /\ (~ stale -> bad_spread -> reasons d = [DATA_INCONSISTENT])
  /\ (~ stale -> ~ bad_spread -> loss -> reasons d = [DAILY_LOSS_EXCEEDED])
  /\ (~ stale -> ~ bad_spread -> ~ loss -> cooling ->
        reasons d = [COOLDOWN_ACTIVE])
  /\ (~ stale -> ~ bad_spread -> ~ loss -> ~ cooling -> capped ->
        reasons d = [POSITION_LIMIT_EXCEEDED])
  /\ (~ stale -> ~ bad_spread -> ~ loss -> ~ cooling -> ~ capped -> hard ->
        reasons d = [IMPACT_HARD_CAP_EXCEEDED])
  /\ (~ stale -> ~ bad_spread -> ~ loss -> ~ cooling -> ~ capped -> ~ hard ->
        toxic -> reasons d = [TOXIC_DANGER_LEVEL])
  /\ (~ stale -> ~ bad_spread -> ~ loss -> ~ cooling -> ~ capped -> ~ hard ->
        ~ toxic -> danger -> reasons d = [MARKET_STRESS_DANGER])
  /\ (~ stale -> ~ bad_spread -> ~ loss -> ~ cooling -> ~ capped -> ~ hard ->
        ~ toxic -> ~ danger -> busy -> reasons d = [TRADE_FREQUENCY_EXCEEDED]).
Proof.
  intros d ts stale bad_spread loss cooling capped hard toxic danger busy.
  subst d ts stale bad_spread loss cooling capped hard toxic danger busy.
  cascade; to_props.
  all: repeat split; intros;
    first [ reflexivity | contradiction | congruence | lra | lia ].
Qed.

Lemma assess_first_rule_wins_witness :
  reasons (fst (assess (Some cand0) fv0 oad0 vad0 stress0 account0 policy0
                  (snd (update_book_timestamp 50 guardian0))))
  = [DATA_STALE].
Proof.
  apply (assess_first_rule_wins (snd (update_book_timestamp 50 guardian0))
           cand0 fv0 oad0 vad0 stress0 account0 policy0).
  vm_compute. reflexivity.
Defined.


(** Bounds on the size and the slippage cap of any decision. *)
Lemma assess_decision_bounds (self : RiskGuardian)
    (candidate : option TradeCandidate) (fv : FeatureVector)
    (oad : OrderbookAnomalyReport) (vad : VolumeAnomalyReport)
    (stress : MarketStressIndex) (account : Account) (policy : Policy) :
  valid_fv_impacts fv ->
  let d := fst (assess candidate fv oad vad stress account policy self) in
  valid_decision d
  /\ size_usd d <= 1000 /\ max_slippage_bps d <= 15
  /\ (action d <> DENY ->
        0 < size_usd d
        /\ default 0 (position_notional account) + size_usd d
           <= default 3000 (max_position_notional policy)).
Proof.
  intros [Hbuy Hsell] d. unfold valid_decision.
  destruct candidate as [c|].
  2:{ subst d. cbn. repeat split; try lra; try done. }
  destruct (assess_cascade self c fv oad vad stress account policy)
    as [(_ & reason & Hd)|(Hno & facts0 & Hd)]; fold d in Hd.
  - rewrite Hd. cbn. repeat split; try lra; try done.
  - pose proof (reductions_spec (_config self) (fv_ts fv) stress policy
      (default 0 (position_notional account)) (impact_side c fv)
      (default 10 (impact_entry_cap_bps policy)) (toxic_of vad) [] facts0)
      as Hspec.
    rewrite <- Hd in Hspec. cbv zeta in Hspec.
    destruct Hspec as (Hsize & Hslip & Hm & Hact & _).
    assert (default 0 (position_notional account)
            < default 3000 (max_position_notional policy)) as Hpos.
    { apply Qnot_le_lt. intros Hle. apply Hno.
      unfold spec_deny_rule_triggers. tauto. }
    assert (spec_multiplier (impact_side c fv)
              (default 10 (impact_entry_cap_bps policy)) (toxic_of vad)
              (vad_toxic_warn (_config self)) (stress_level stress) <= 1) as Hm1.
    { destruct Hact as [[_ ?]|[_ ?]]; lra. }
    assert (0 <= impact_side c fv) as Himp.
    { unfold impact_side. destruct (cand_side c); assumption. }
    rewrite Hslip.
    revert Hsize Hm Hm1.
    generalize (spec_multiplier (impact_side c fv)
      (default 10 (impact_entry_cap_bps policy)) (toxic_of vad)
      (vad_toxic_warn (_config self)) (stress_level stress)).
    intros m Hsize Hm Hm1.
    assert (size_usd d <= 1000
            /\ 0 < size_usd d
            /\ default 0 (position_notional account) + size_usd d
               <= default 3000 (max_position_notional policy)) as (H1 & H2 & H3).
    { rewrite Hsize. q_minmax; repeat split; nra. }
    repeat split; try lra; q_minmax; lra.
Qed.

(** Whatever the inputs, a decision built from a feature vector with
    non-negative impacts passes the model's own field checks, never
    sizes above 1000 nor sets a slippage cap above 15, and a decision
    that is not a DENY has a positive size that fits in what is left
    under the position cap. *)
Theorem assess_size_within_cap (self : RiskGuardian)
    (candidate : option TradeCandidate) (fv : FeatureVector)
    (oad : OrderbookAnomalyReport) (vad : VolumeAnomalyReport)
    (stress : MarketStressIndex) (account : Account) (policy : Policy) :
  valid_fv_impacts fv ->
  let d := fst (assess candidate fv oad vad stress account policy self) in
  valid_decision d
  /\ size_usd d <= 1000 /\ max_slippage_bps d <= 15
  /\ (action d <> DENY ->
        0 < size_usd d
        /\ default 0 (position_notional account) + size_usd d
           <= default 3000 (max_position_notional policy)).
Proof. apply assess_decision_bounds. Qed.

Lemma assess_size_within_cap_witness :
  valid_fv_impacts fv0
  /\ size_usd (fst (assess (Some cand0) fv0 oad0 vad0 stress0 account0 policy0
                      guardian0)) <= 1000.
Proof.
  assert (valid_fv_impacts fv0) as Hv by (split; vm_compute; discriminate).
  split; [exact Hv|].
  exact (proj1 (proj2 (assess_size_within_cap guardian0 (Some cand0) fv0 oad0
                         vad0 stress0 account0 policy0 Hv))).
Defined.

(** When no rule denies, the action is ALLOW exactly when none of the
    three reductions applies, and an ALLOW has no reason and the full
    base size. *)
Theorem assess_allow_iff_unreduced (self : RiskGuardian) (c : TradeCandidate)
    (fv : FeatureVector) (oad : OrderbookAnomalyReport)
    (vad : VolumeAnomalyReport) (stress : MarketStressIndex)
    (account : Account) (policy : Policy) :
  ~ spec_deny_rule_triggers self (Some c) fv vad stress account policy ->
  let d := fst (assess (Some c) fv oad vad stress account policy self) in
  (action d = ALLOW <->
     impact_side c fv <= default 10 (impact_entry_cap_bps policy)
     /\ toxic_of vad < vad_toxic_warn (_config self)
     /\ stress_level stress <> WARN)
  /\ (action d = ALLOW ->
        reasons d = []
        /\ size_usd d
           == Qmin 1000 (default 3000 (max_position_notional policy)
                         - default 0 (position_notional account))).
Proof.
  intros Hno d.
  destruct (assess_cascade self c fv oad vad stress account policy)
    as [(Hyes & _)|(_ & facts0 & Hd)]; [contradiction|]. fold d in Hd.
  rewrite Hd. unfold reductions.
  destruct (Qltb _ _) eqn:E1, (Qle_bool _ _) eqn:E2,
    (stress_level stress) eqn:E3.
  all: match goal with
       | |- context [Qltb ?a 1] =>
           let v := eval vm_compute in (Qltb a 1) in
           change (Qltb a 1) with v
       end; cbn [size_usd action reasons app].
  all: apply Qltb_true in E1 || apply Qltb_false in E1.
  all: apply Qle_bool_iff in E2 || apply Qle_bool_false in E2.
  all: repeat split; intros;
    first [ done | lra | ring
          | match goal with H : _ /\ _ /\ _ |- _ =>
              destruct H as (? & ? & ?); first [lra | done] end ].
Qed.

Lemma assess_allow_iff_unreduced_witness :
  ~ spec_deny_rule_triggers guardian0 (Some cand0) fv0 vad0 stress0
      account0 policy0
  /\ action (fst (assess (Some cand0) fv0 oad0 vad0 stress0 account0 policy0
                    guardian0)) <> ALLOW.
Proof.
  assert (~ spec_deny_rule_triggers guardian0 (Some cand0) fv0 vad0 stress0
            account0 policy0) as Hno.
  { unfold spec_deny_rule_triggers. intros H.
    repeat destruct H as [H|H];
      first [ destruct H as (cu & Heq & _); discriminate Heq
            | vm_compute in H; first [discriminate H | apply H; reflexivity] ]. }
  split; [exact Hno|].
  destruct (assess_allow_iff_unreduced guardian0 cand0 fv0 oad0 vad0 stress0
              account0 policy0 Hno) as [Hiff _].
  intros Ha. apply Hiff in Ha as (_ & Htox & _).
  vm_compute in Htox. discriminate Htox.
Defined.





(** A DANGER report from either detector always ends in a DENY when the
    stress index handed to the guardian is the one [compute_stress]
    builds from the two reports: the frequency rule and the reductions
    are never reached. *)
Theorem danger_report_is_denied (self : RiskGuardian)
    (candidate : option TradeCandidate) (fv : FeatureVector)
    (oad : OrderbookAnomalyReport) (vad : VolumeAnomalyReport)
    (account : Account) (policy : Policy) :
  oad_level oad = DANGER \/ vad_level vad = DANGER ->
  let stress := Stress.compute_stress oad vad (_config self) in
  let d := fst (assess candidate fv oad vad stress account policy self) in
  action d = DENY /\ size_usd d == 0
  /\ (TRADE_FREQUENCY_EXCEEDED ∉ reasons d)
  /\ (RISK_POSITION_SIZE_REDUCED ∉ reasons d).
Proof.
  intros Hl stress d.
  assert (stress_level stress = DANGER) as Hs.
  { subst stress. cbn. unfold Stress.max_by.
    destruct Hl as [H | H]; rewrite H;
      [by destruct (vad_level vad) | by destruct (oad_level oad)]. }
  subst d. destruct candidate as [c|].
  2:{ cbn. repeat split; try reflexivity;
        intros Hin; apply (bool_decide_pack _) in Hin;
        vm_compute in Hin; exact Hin. }
  revert Hs. generalize stress. clear stress. intros stress Hs.
  cascade; try congruence; cbn [action size_usd reasons deny app].
  all: repeat split; try reflexivity;
    intros Hin; apply (bool_decide_pack _) in Hin;
    vm_compute in Hin; exact Hin.
Qed.

Lemma danger_report_is_denied_witness :
  action (fst (assess (Some cand0) fv0 (mkOAD 101 DANGER 9 ∅ THICK) vad0
                 (Stress.compute_stress (mkOAD 101 DANGER 9 ∅ THICK) vad0
                    (_config guardian0))
                 account0 policy0 guardian0)) = DENY.
Proof.
  apply (danger_report_is_denied guardian0 (Some cand0) fv0
           (mkOAD 101 DANGER 9 ∅ THICK) vad0 account0 policy0).
  left. reflexivity.
Defined.

(** A loss recorded through [record_trade] reaches the circuit breaker:
    with fresh data, a positive spread and a positive balance, once the
    day's PnL (the earlier PnL of the same date plus the new one, or the
    new one alone on a new date) is below minus [max_daily_loss_pct]
    percent of the balance, the next assessment is a DENY for
    DAILY_LOSS_EXCEEDED.  With a balance of zero or less the breaker
    never trips for a non-negative limit, whatever was lost. *)
Theorem recorded_loss_trips_breaker (current_date : string) (ts pnl : Q)
    (self : RiskGuardian) (c : TradeCandidate) (fv : FeatureVector)
    (oad : OrderbookAnomalyReport) (vad : VolumeAnomalyReport)
    (stress : MarketStressIndex) (account : Account) (policy : Policy) :
  let self' := snd (record_trade current_date ts pnl self) in
  let d := fst (assess (Some c) fv oad vad stress account policy self') in
  let bal := default 10000 (balance account) in
  let day_pnl :=
    if bool_decide (Tilt._last_reset_date (_tilt self) = Some current_date)
    then Tilt._daily_pnl (_tilt self) + pnl
    else pnl in
  (fv_ts fv - _last_book_update_ts self <= 10 -> 0 < fv_spread fv ->
   0 < bal ->
   day_pnl / bal * 100 < - default 1 (max_daily_loss_pct policy) ->
   action d = DENY /\ reasons d = [DAILY_LOSS_EXCEEDED])
  /\ (bal <= 0 -> 0 <= default 1 (max_daily_loss_pct policy) ->
      DAILY_LOSS_EXCEEDED ∉ reasons d).
Proof.
  intros self' d bal day_pnl. subst bal.
  set (bal := default 10000 (balance account)) in *.
  assert (_last_book_update_ts self' = _last_book_update_ts self) as Hts.
  { subst self'. unfold record_trade, on_tilt.
    destruct (Tilt.record_trade _ _ _ _). reflexivity. }
  assert (Tilt._daily_pnl (_tilt self') == day_pnl) as Hpnl.
  { subst self' day_pnl.
    unfold record_trade, on_tilt, Tilt.record_trade, bind, gets, modify, ret.
    cbn. destruct (bool_decide _); cbn; lra. }
  assert (fst (Tilt.daily_pnl_pct bal (_tilt self'))
          == if Qle_bool bal 0 then 0 else day_pnl / bal * 100) as Hpct.
  { unfold Tilt.daily_pnl_pct, bind, gets, ret.
    destruct (Qle_bool bal 0); cbn [fst]; [reflexivity|].
    rewrite Hpnl. reflexivity. }
  subst d. revert Hts Hpnl Hpct. generalize self'. clear self'.
  intros self' Hts Hpnl Hpct. split.
  - intros H1 H2 H3 H4.
    assert (Qle_bool bal 0 = false) as Hb by (apply Qle_bool_false; lra).
    rewrite Hb in Hpct. subst bal.
    cascade; to_props; rewrite ?Hts in *; try lra.
    all: repeat split.
  - intros Hb Hmax. apply Qle_bool_iff in Hb. rewrite Hb in Hpct. subst bal.
    cascade; to_props; rewrite ?Hts in *; try lra.
    all: unfold reductions;
      repeat match goal with
      | |- context [if ?b then _ else _] => destruct b
      end;
      cbn [reasons deny app];
      intros Hin; apply (bool_decide_pack _) in Hin;
      vm_compute in Hin; exact Hin.
Qed.

Lemma recorded_loss_trips_breaker_witness :
  reasons (fst (assess (Some cand0) fv0 oad0 vad0 stress0 account0 policy0
                  (snd (record_trade "2024-01-01" 100 (-150) guardian0))))
  = [DAILY_LOSS_EXCEEDED].
Proof.
  destruct (recorded_loss_trips_breaker "2024-01-01" 100 (-150) guardian0
              cand0 fv0 oad0 vad0 stress0 account0 policy0) as [H _].
  apply H; vm_compute; first [reflexivity | discriminate].
Defined.

(** A reason is only given when its rule's condition holds. *)
Lemma assess_reason_sound (self : RiskGuardian) (c : TradeCandidate)
    (fv : FeatureVector) (oad : OrderbookAnomalyReport)
    (vad : VolumeAnomalyReport) (stress : MarketStressIndex)
    (account : Account) (policy : Policy) :
  let d := fst (assess (Some c) fv oad vad stress account policy self) in
  (TOXIC_DANGER_LEVEL ∈ reasons d ->
     vad_toxic_danger (_config self) <= toxic_of vad)
  /\ (TOXIC_WARN_LEVEL ∈ reasons d ->
        vad_toxic_warn (_config self) <= toxic_of vad)
  /\ (IMPACT_HARD_CAP_EXCEEDED ∈ reasons d ->
        default 20 (impact_hard_cap_bps policy) < impact_side c fv).
Proof.
  intros d. subst d. cascade; to_props.
  all: try unfold reductions;
    repeat match goal with
    | |- context [if ?b then _ else _] => destruct b eqn:?
    end; to_props;
    cbn [reasons deny app];
    repeat split; intros Hin; try assumption;
    exfalso; apply (bool_decide_pack _) in Hin;
    vm_compute in Hin; exact Hin.
Qed.

End GuardianFacts.

(** ** Execution planner (execution/planner.py) *)

Section PlannerFacts.
Import Planner.

(** C6: for a decision that is not a DENY and a present candidate,
    when the side-matched impact is at least the slicing threshold the
    plan is in slicing mode with exactly five limit orders at the
    candidate's entry price, each of a fifth of the decision's size,
    delayed by 0, 10, 20, 30 and 40 seconds, and the sizes add up to
    the decision's size. *)
Theorem plan_slicing (self : ExecutionPlanner) (risk : RiskDecision)
    (c : TradeCandidate) (fv : FeatureVector) (vad : VolumeAnomalyReport) :
  action risk <> DENY ->
  _slicing_threshold self <= Guardian.impact_side c fv ->
  let p := plan self risk (Some c) fv vad in
  let slice (delay : Z) :=
    mkOrder limit (cand_side c) (Some (entry_price c)) (size_usd risk / 5)
      (Some delay) None in
  mode p = slicing
  /\ orders p = [slice 0; slice 10; slice 20; slice 30; slice 40]%Z
  /\ length (orders p) = 5%nat
  /\ Qsum (map order_size_usd (orders p)) == size_usd risk.
Proof.
  intros Hact Himp p slice. subst p.
  apply Qle_bool_iff in Himp. unfold Guardian.impact_side in Himp.
  assert (orders (plan self risk (Some c) fv vad)
          = [slice 0; slice 10; slice 20; slice 30; slice 40]%Z) as Horders.
  { unfold plan. destruct (action risk); try contradiction; rewrite Himp;
      reflexivity. }
  split.
  { unfold plan. destruct (action risk); try contradiction; rewrite Himp;
      reflexivity. }
  fold (plan self risk (Some c) fv vad). rewrite Horders.
  repeat split.
  unfold Qsum, slice. cbn [map foldl order_size_usd]. field.
Qed.

(** C6 on the slicing scenario: impact 12 bps against the default
    threshold of 10, size 1000: five orders of 200. *)
Lemma plan_slicing_witness :
  action risk_slicing <> DENY
  /\ _slicing_threshold (init Guardian.config0)
     <= Guardian.impact_side Guardian.cand0 fv_slicing
  /\ map order_size_usd
       (orders (plan (init Guardian.config0) risk_slicing
                  (Some Guardian.cand0) fv_slicing Guardian.vad0))
     = [1000 / 5; 1000 / 5; 1000 / 5; 1000 / 5; 1000 / 5].
Proof.
  assert (action risk_slicing <> DENY) as Hact by discriminate.
  assert (_slicing_threshold (init Guardian.config0)
          <= Guardian.impact_side Guardian.cand0 fv_slicing) as Himp
    by (vm_compute; discriminate).
  split; [exact Hact|]. split; [exact Himp|].
  destruct (plan_slicing (init Guardian.config0) risk_slicing Guardian.cand0
              fv_slicing Guardian.vad0 Hact Himp) as (_ & Horders & _).
  rewrite Horders. reflexivity.
Defined.

(** C7: on a tick without candidate the guardian answers DENY with the
    single reason NO_SIGNAL and size 0, and the planner answers with no
    orders, mode reduce_only and the reason NO_SIGNAL; more generally
    the plan of a DENY decision has no orders, mode reduce_only and the
    decision's reasons, and so has (with reason NO_SIGNAL) the plan of
    any other decision without candidate. *)
Theorem no_candidate_tick (guardian : Guardian.RiskGuardian)
    (self : ExecutionPlanner) (fv : FeatureVector)
    (oad : OrderbookAnomalyReport) (vad : VolumeAnomalyReport)
    (stress : MarketStressIndex) (account : Account) (policy : Policy) :
  let d := fst (Guardian.assess None fv oad vad stress account policy
                  guardian) in
  action d = DENY /\ reasons d = [NO_SIGNAL] /\ size_usd d = 0
  /\ plan self d None fv vad = mkPlan (fv_ts fv) [] reduce_only [NO_SIGNAL]
  /\ (forall risk candidate, action risk = DENY ->
        plan self risk candidate fv vad
        = mkPlan (fv_ts fv) [] reduce_only (reasons risk))
  /\ (forall risk, action risk <> DENY ->
        plan self risk None fv vad
        = mkPlan (fv_ts fv) [] reduce_only [NO_SIGNAL]).
Proof.
  cbn. repeat split.
  - intros risk candidate Hdeny. unfold plan. rewrite Hdeny. reflexivity.
  - intros risk Hact. unfold plan.
    destruct (action risk); [reflexivity|reflexivity|contradiction].
Qed.

End PlannerFacts.

(** ** Stress index (detectors/stress.py) *)

Section StressFacts.
Import Stress.

(** C8: the score is the weighted sum of the two detector scores and of
    the toxic trigger (0 when absent); the level is the higher of the
    two input levels in the order OK < WARN < DANGER, that is, DANGER
    when either report is DANGER, otherwise WARN when either is WARN,
    and OK only when both are OK; and the result depends on the two
    reports only (the configuration is never read). *)
Theorem compute_stress_spec (oad : OrderbookAnomalyReport)
    (vad : VolumeAnomalyReport) (config : Config) :
  let s := compute_stress oad vad config in
  let toxic := default 0 (vad_triggers vad !! "toxic") in
  stress_score s == 0.5 * oad_score oad + 0.3 * vad_score vad + 5 * toxic
  /\ levels_priority (stress_level s)
     = Z.max (levels_priority (oad_level oad)) (levels_priority (vad_level vad))
  /\ (stress_level s = oad_level oad \/ stress_level s = vad_level vad)
  /\ (stress_level s = DANGER <->
        oad_level oad = DANGER \/ vad_level vad = DANGER)
  /\ (stress_level s = WARN <->
        (oad_level oad = WARN \/ vad_level vad = WARN)
        /\ oad_level oad <> DANGER /\ vad_level vad <> DANGER)
  /\ (stress_level s = OK <-> oad_level oad = OK /\ vad_level vad = OK)
  /\ (forall config', compute_stress oad vad config' = s).
Proof.
  cbn. split; [ring|]. split.
  { destruct (oad_level oad), (vad_level vad); reflexivity. }
  split.
  { destruct (oad_level oad), (vad_level vad); cbn; tauto. }
  split; [|split; [|split; [|reflexivity]]].
  all: destruct (oad_level oad), (vad_level vad); cbn;
    intuition (discriminate || congruence).
Qed.

End StressFacts.

(** ** Trade tape (market/tape.py) *)

Section TapeFacts.
Import Tape.

Lemma Qsum_nil : Qsum [] == 0.
Proof. reflexivity. Qed.

(** The loop of [aggregate]: each trade adds its buy share to
    [buy_vol], its sell share to [sell_vol], its notional to
    [total_notional] and its size to [trade_sizes]. *)
Lemma aggregate_loop (trades : list Trade) (b s n : Q) (sizes : list Q) :
  let '(b', s', n', sizes') := foldl aggregate_step (b, s, n, sizes) trades in
  b' == b + Qsum (map buy_share trades)
  /\ s' == s + Qsum (map sell_share trades)
  /\ n' == n + Qsum (map (fun t => trade_price t * trade_size t) trades)
  /\ sizes' = sizes ++ map trade_size trades.
Proof.
  revert b s n sizes. induction trades as [|t ts IH]; intros b s n sizes.
  - cbn. rewrite app_nil_r. repeat split; unfold Qsum; cbn; lra.
  - cbn [foldl map].
    pose proof (Qsum_cons (buy_share t) (map buy_share ts)) as Eb.
    pose proof (Qsum_cons (sell_share t) (map sell_share ts)) as Es.
    pose proof (Qsum_cons (trade_price t * trade_size t)
                  (map (fun t => trade_price t * trade_size t) ts)) as En.
    destruct t as [t_ts t_price t_size t_side].
    destruct t_side;
      cbn [aggregate_step buy_share sell_share trade_side trade_size
           trade_price] in *.
    all: match goal with
         | |- context [foldl aggregate_step (?b0, ?s0, ?n0, ?z0) ?l] =>
             specialize (IH b0 s0 n0 z0);
             destruct (foldl aggregate_step (b0, s0, n0, z0) l)
               as [[[b' s'] n'] sizes']
         end.
    all: destruct IH as (Hb & Hs & Hn & ->).
    all: rewrite <- app_assoc; repeat split; try reflexivity; lra.
Qed.

(** The share of a trade that goes to the buy side and the share that
    goes to the sell side make up its size. *)
Lemma shares_sum (trades : list Trade) :
  Qsum (map buy_share trades) + Qsum (map sell_share trades)
  == Qsum (map trade_size trades).
Proof.
  induction trades as [|t ts IH].
  - reflexivity.
  - cbn [map]. rewrite !Qsum_cons.
    unfold buy_share at 1. unfold sell_share at 1.
    destruct (trade_side t); try lra.
    assert (trade_size t / 2 + trade_size t / 2 == trade_size t) by field.
    lra.
Qed.

(** The aggregate of a list of trades. *)
Lemma aggregate_trades_spec (trades : list Trade) :
  let agg := aggregate_trades trades in
  buy_vol agg + sell_vol agg == vol agg
  /\ vol agg == Qsum (map trade_size trades)
  /\ buy_vol agg == Qsum (map buy_share trades)
  /\ sell_vol agg == Qsum (map sell_share trades)
  /\ signed_imbalance agg
     == (buy_vol agg - sell_vol agg) / (buy_vol agg + sell_vol agg + 1e-9)
  /\ Tape.trades agg = Z.of_nat (length trades).
Proof.
  destruct trades as [|t ts].
  - cbn. repeat split.
  - pose proof (aggregate_loop (t :: ts) 0 0 0 []) as Hloop.
    pose proof (shares_sum (t :: ts)) as Hsum.
    unfold aggregate_trades.
    destruct (foldl aggregate_step (0, 0, 0, []) (t :: ts))
      as [[[b s] n] sizes].
    destruct Hloop as (Hb & Hs & _ & _).
    cbn [buy_vol sell_vol vol signed_imbalance Tape.trades].
    repeat split; try reflexivity; lra.
Qed.

(** C9: over the trades of the aggregation window, [aggregate] returns
    [buy_vol] and [sell_vol] that add up to [vol], the total size of the
    trades; a buy adds its size to [buy_vol], a sell to [sell_vol], an
    unknown side half its size to each; and the signed imbalance is
    [(buy_vol - sell_vol) / (buy_vol + sell_vol + 1e-9)]. *)
Theorem aggregate_volumes (sec : option Z) (now1 now2 : Q) (tape : TradeTape) :
  let window := fst (recent sec now1 now2 tape) in
  let agg := fst (aggregate sec now1 now2 tape) in
  buy_vol agg + sell_vol agg == vol agg
  /\ vol agg == Qsum (map trade_size window)
  /\ buy_vol agg == Qsum (map buy_share window)
  /\ sell_vol agg == Qsum (map sell_share window)
  /\ signed_imbalance agg
     == (buy_vol agg - sell_vol agg) / (buy_vol agg + sell_vol agg + 1e-9).
Proof.
  intros window agg.
  assert (agg = aggregate_trades window) as ->.
  { subst agg window. unfold aggregate, bind, ret.
    destruct (recent sec now1 now2 tape) as [trades tape']. reflexivity. }
  destruct (aggregate_trades_spec window) as (H1 & H2 & H3 & H4 & H5 & _).
  repeat split; assumption.
Qed.

(** The window is the part of the tape that is recent enough. *)
Lemma recent_in_window (sec : Z) (now1 now2 : Q) (tape : TradeTape) (t : Trade) :
  t ∈ fst (recent (Some sec) now1 now2 tape) ->
  t ∈ _trades tape /\ now2 - inject_Z sec <= trade_ts t.
Proof.
  unfold recent, _cleanup, bind, modify, gets, ret. cbn.
  rewrite list_elem_of_filter. intros [Hts Hin]. split.
  - clear Hts. revert Hin. generalize (now1 - inject_Z (_window_sec tape)).
    intros cutoff. induction (_trades tape) as [|x l IH]; cbn; [done|].
    destruct (Qltb (trade_ts x) cutoff).
    + intros H. right. auto.
    + done.
  - apply Qle_bool_iff. destruct (Qle_bool _ _); done.
Qed.

End TapeFacts.

(** ** Maxima and minima of float lists *)

Lemma foldl_Qmax_ge_init (l : list Q) (a : Q) : a <= foldl Qmax a l.
Proof.
  revert a. induction l as [|x l IH]; intros a; simpl; [lra|].
  pose proof (IH (Qmax a x)). pose proof (Q.le_max_l a x). lra.
Qed.

Lemma foldl_Qmax_ge_elem (l : list Q) (a x : Q) : x ∈ l -> x <= foldl Qmax a l.
Proof.
  revert a. induction l as [|y l IH]; intros a Hin; [by apply elem_of_nil in Hin|].
  apply elem_of_cons in Hin as [->|Hin]; simpl.
  - pose proof (foldl_Qmax_ge_init l (Qmax a y)).
    pose proof (Q.le_max_r a y). lra.
  - by apply IH.
Qed.

Lemma np_max_ge (l : list Q) (x : Q) : x ∈ l -> x <= np_max l.
Proof.
  destruct l as [|a l]; intros Hin; [by apply elem_of_nil in Hin|].
  apply elem_of_cons in Hin as [->|Hin]; simpl.
  - apply foldl_Qmax_ge_init.
  - by apply foldl_Qmax_ge_elem.
Qed.

Lemma foldl_Qmin_le_init (l : list Q) (a : Q) : foldl Qmin a l <= a.
Proof.
  revert a. induction l as [|x l IH]; intros a; simpl; [lra|].
  pose proof (IH (Qmin a x)). pose proof (Q.le_min_l a x). lra.
Qed.

Lemma foldl_Qmin_le_elem (l : list Q) (a x : Q) : x ∈ l -> foldl Qmin a l <= x.
Proof.
  revert a. induction l as [|y l IH]; intros a Hin; [by apply elem_of_nil in Hin|].
  apply elem_of_cons in Hin as [->|Hin]; simpl.
  - pose proof (foldl_Qmin_le_init l (Qmin a y)).
    pose proof (Q.le_min_r a y). lra.
  - by apply IH.
Qed.

Lemma np_min_le (l : list Q) (x : Q) : x ∈ l -> np_min l <= x.
Proof.
  destruct l as [|a l]; intros Hin; [by apply elem_of_nil in Hin|].
  apply elem_of_cons in Hin as [->|Hin]; simpl.
  - apply foldl_Qmin_le_init.
  - by apply foldl_Qmin_le_elem.
Qed.

(** The maximum and the minimum of a non-empty list are elements of it. *)
Lemma foldl_Qmax_in (l : list Q) (a : Q) : foldl Qmax a l = a \/ foldl Qmax a l ∈ l.
Proof.
  revert a. induction l as [|x l IH]; intros a; simpl; [by left|].
  destruct (IH (Qmax a x)) as [->|Hin].
  - unfold Qmax, GenericMinMax.gmax. destruct (a ?= x); [left|right|left]; try done.
    apply list_elem_of_here.
  - right. by apply list_elem_of_further.
Qed.

Lemma np_max_in (l : list Q) : l <> [] -> np_max l ∈ l.
Proof.
  destruct l as [|a l]; [done|]. intros _. simpl.
  destruct (foldl_Qmax_in l a) as [->|Hin].
  - apply list_elem_of_here.
  - by apply list_elem_of_further.
Qed.

Lemma foldl_Qmin_in (l : list Q) (a : Q) : foldl Qmin a l = a \/ foldl Qmin a l ∈ l.
Proof.
  revert a. induction l as [|x l IH]; intros a; simpl; [by left|].
  destruct (IH (Qmin a x)) as [->|Hin].
  - unfold Qmin, GenericMinMax.gmin. destruct (a ?= x); [left|left|right]; try done.
    apply list_elem_of_here.
  - right. by apply list_elem_of_further.
Qed.

Lemma np_min_in (l : list Q) : l <> [] -> np_min l ∈ l.
Proof.
  destruct l as [|a l]; [done|]. intros _. simpl.
  destruct (foldl_Qmin_in l a) as [->|Hin].
  - apply list_elem_of_here.
  - by apply list_elem_of_further.
Qed.

(** ** Order book: consistency *)

Section BookFacts.
Import OrderBook BookState BookQueries.

Lemma Qc_lt_this (a b : Qc) : (a < b)%Qc <-> this a < this b.
Proof. reflexivity. Qed.

Lemma Qc_le_this (a b : Qc) : (a <= b)%Qc <-> this a <= this b.
Proof. reflexivity. Qed.

Lemma is_empty_spec (d : gmap Qc Q) : is_empty d = true <-> d = ∅.
Proof.
  unfold is_empty. destruct (map_to_list d) as [|kv l] eqn:E.
  - split; [intros _; by apply map_to_list_empty_iff|done].
  - split; [done|]. intros ->. by rewrite map_to_list_empty in E.
Qed.

Lemma elem_of_keys (d : gmap Qc Q) (q : Q) :
  q ∈ keys d <-> exists k s, d !! k = Some s /\ q = this k.
Proof.
  unfold keys. rewrite list_elem_of_fmap. split.
  - intros ([k s] & -> & Hin). apply elem_of_map_to_list in Hin. eauto.
  - intros (k & s & Hd & ->). exists (k, s). split; [done|].
    by apply elem_of_map_to_list.
Qed.

(** A book is consistent exactly when no bid price reaches an ask price. *)
Lemma is_consistent_spec (self : OrderBook) :
  is_consistent self = true <->
  (forall pb sb pa sa,
     _bids self !! pb = Some sb -> _asks self !! pa = Some sa -> (pb < pa)%Qc).
Proof.
  unfold is_consistent.
  destruct (is_empty (_bids self)) eqn:Eb; simpl.
  { apply is_empty_spec in Eb. rewrite Eb. split; [|done].
    intros _ pb sb pa sa Hb. by rewrite lookup_empty in Hb. }
  destruct (is_empty (_asks self)) eqn:Ea; simpl.
  { apply is_empty_spec in Ea. rewrite Ea. split; [|done].
    intros _ pb sb pa sa _ Ha. by rewrite lookup_empty in Ha. }
  assert (keys (_bids self) <> []) as Hnb.
  { unfold keys, is_empty in *. destruct (map_to_list (_bids self)); done. }
  assert (keys (_asks self) <> []) as Hna.
  { unfold keys, is_empty in *. destruct (map_to_list (_asks self)); done. }
  destruct (Qle_bool _ _) eqn:E.
  - apply Qle_bool_iff in E. split; [done|]. intros H. exfalso.
    apply np_max_in, elem_of_keys in Hnb as (pb & sb & Hb & Eqb).
    apply np_min_in, elem_of_keys in Hna as (pa & sa & Ha & Eqa).
    specialize (H pb sb pa sa Hb Ha). unfold Qclt in H.
    rewrite Eqb, Eqa in E. lra.
  - apply Qle_bool_false in E. split; [|done]. intros _ pb sb pa sa Hb Ha.
    unfold Qclt.
    assert (this pb <= np_max (keys (_bids self))).
    { apply np_max_ge, elem_of_keys. eauto. }
    assert (np_min (keys (_asks self)) <= this pa).
    { apply np_min_le, elem_of_keys. eauto. }
    lra.
Qed.





(** After a delta that returns normally no bid of the book is priced at
    or above an ask. *)
Theorem apply_delta_keeps_book_uncrossed (changes : list Change) (seq : Z)
    (now : Q) (self : OrderBook) :
  fst (apply_delta changes seq now self) = None ->
  let self' := snd (apply_delta changes seq now self) in
  forall pb sb pa sa,
    _bids self' !! pb = Some sb -> _asks self' !! pa = Some sa -> (pb < pa)%Qc.
Proof.
  intros Hr self'. apply is_consistent_spec.
  destruct (Z.eq_dec seq (_seq self + 1)%Z) as [Heq|Hne].
  - subst self'. revert Hr.
    rewrite (apply_delta_in_sequence changes seq now self Heq). cbn.
    destruct (is_consistent _); [done|discriminate].
  - rewrite (apply_delta_gap changes seq now self Hne) in Hr. discriminate.
Qed.

Lemma apply_delta_keeps_book_uncrossed_witness :
  fst (apply_delta [mkChange "bid" 100.5 2] 2 6 book1) = None
  /\ forall pb sb pa sa,
       _bids (snd (apply_delta [mkChange "bid" 100.5 2] 2 6 book1)) !! pb
         = Some sb ->
       _asks (snd (apply_delta [mkChange "bid" 100.5 2] 2 6 book1)) !! pa
         = Some sa ->
       (pb < pa)%Qc.
Proof.
  assert (fst (apply_delta [mkChange "bid" 100.5 2] 2 6 book1) = None) as H
    by (vm_compute; reflexivity).
  split; [exact H|].
  exact (apply_delta_keeps_book_uncrossed _ _ _ _ H).
Defined.

(** A delta is applied at most once: after any call that got past the
    sequence check, a second delta carrying the same sequence number is
    refused with [SequenceError] and changes nothing. *)
Theorem apply_delta_replay_refused (changes changes' : list Change) (seq : Z)
    (now now' : Q) (self : OrderBook) :
  fst (apply_delta changes seq now self) <> Some SequenceError ->
  let self' := snd (apply_delta changes seq now self) in
  apply_delta changes' seq now' self' = (Some SequenceError, self').
Proof.
  intros Hr self'.
  destruct (Z.eq_dec seq (_seq self + 1)%Z) as [Heq|Hne].
  - apply apply_delta_gap. subst self'.
    rewrite (apply_delta_in_sequence changes seq now self Heq). cbn. lia.
  - rewrite (apply_delta_gap changes seq now self Hne) in Hr. done.
Qed.

Lemma apply_delta_replay_refused_witness :
  fst (apply_delta [mkChange "bid" 100.5 2] 2 6 book1) <> Some SequenceError
  /\ fst (apply_delta [mkChange "ask" 100.9 1] 2 7
            (snd (apply_delta [mkChange "bid" 100.5 2] 2 6 book1)))
     = Some SequenceError.
Proof.
  assert (fst (apply_delta [mkChange "bid" 100.5 2] 2 6 book1)
          <> Some SequenceError) as H by (vm_compute; discriminate).
  split; [exact H|].
  rewrite (apply_delta_replay_refused _ [mkChange "ask" 100.9 1] _ _ 7 _ H).
  reflexivity.
Defined.


(** *** [get_state] *)

Lemma make_levels_Some (items : list (Qc * Q)) (ls : list OrderBookLevel) :
  make_levels items = Some ls <->
  ls = map level_of items /\ Forall (fun kv => valid_level (level_of kv)) items.
Proof.
  revert ls. induction items as [|[p s] items IH]; intros ls; simpl.
  - split; [intros [= <-]; by split|intros [-> _]; done].
  - unfold level_ok. cbn [level_of level_price level_size fst snd].
    destruct (Qltb 0 (this p)) eqn:Ep; simpl.
    2:{ apply Qltb_false in Ep. split; [done|]. intros [_ Hall].
        apply Forall_cons in Hall as [[Hp _] _]. cbn in Hp. lra. }
    destruct (Qltb 0 s) eqn:Es; simpl.
    2:{ apply Qltb_false in Es. split; [done|]. intros [_ Hall].
        apply Forall_cons in Hall as [[_ Hs] _]. cbn in Hs. lra. }
    apply Qltb_true in Ep. apply Qltb_true in Es.
    destruct (make_levels items) as [ls'|].
    + destruct (IH ls') as [IH1 _]. destruct (IH1 eq_refl) as [-> Hall].
      split.
      * intros [= <-]. split; [done|]. apply Forall_cons. split; [by split|done].
      * intros [-> _]. done.
    + split; [done|]. intros [_ Hall]. apply Forall_cons in Hall as [_ Hall].
      destruct (IH (map level_of items)) as [_ IH2].
      specialize (IH2 (conj eq_refl Hall)). done.
Qed.

#[local] Instance price_le_trans : Transitive price_le.
Proof. intros a b c. unfold price_le. apply Qcle_trans. Qed.

#[local] Instance price_le_total : Total price_le.
Proof. intros a b. unfold price_le. apply (total Qcle). Qed.

#[local] Instance price_ge_trans : Transitive (flip price_le).
Proof. intros a b c. unfold flip, price_le. intros. by eapply Qcle_trans. Qed.

#[local] Instance price_ge_total : Total (flip price_le).
Proof. intros a b. unfold flip, price_le. apply (total Qcle). Qed.

Lemma Qcle_neq_lt (a b : Qc) : (a <= b)%Qc -> a <> b -> (a < b)%Qc.
Proof.
  intros Hle Hne. destruct (Qclt_le_dec a b) as [|Hge]; [done|].
  exfalso. apply Hne. by apply Qcle_antisym.
Qed.

(** A list sorted by price whose prices are pairwise distinct is strictly
    sorted. *)
Lemma sorted_distinct_strict (R : relation (Qc * Q)) (S : relation (Qc * Q))
    (l : list (Qc * Q)) :
  (forall a b, R a b -> fst a <> fst b -> S a b) ->
  StronglySorted R l -> NoDup (map fst l) -> StronglySorted S l.
Proof.
  intros HRS. induction 1 as [|x l Hl IH Hx]; intros Hnd; [constructor|].
  simpl in Hnd. apply NoDup_cons in Hnd as [Hnotin Hnd].
  constructor; [by apply IH|].
  rewrite Forall_forall in Hx |- *. intros y Hy. apply HRS; [by apply Hx|].
  intros Heq. apply Hnotin. rewrite Heq. apply list_elem_of_fmap. eauto.
Qed.

Lemma sorted_items_perm (d : gmap Qc Q) : sorted_items d ≡ₚ map_to_list d.
Proof. apply merge_sort_Permutation. Qed.

Lemma sorted_items_desc_perm (d : gmap Qc Q) : sorted_items_desc d ≡ₚ map_to_list d.
Proof. apply merge_sort_Permutation. Qed.

Lemma sorted_items_strict (d : gmap Qc Q) :
  StronglySorted (fun a b => (fst a < fst b)%Qc) (sorted_items d).
Proof.
  apply (sorted_distinct_strict price_le).
  - intros a b Hle Hne. by apply Qcle_neq_lt.
  - apply Sorted_StronglySorted; [apply _|]. apply Sorted_merge_sort. apply _.
  - rewrite sorted_items_perm. apply NoDup_fst_map_to_list.
Qed.

Lemma sorted_items_desc_strict (d : gmap Qc Q) :
  StronglySorted (fun a b => (fst b < fst a)%Qc) (sorted_items_desc d).
Proof.
  apply (sorted_distinct_strict (flip price_le)).
  - intros a b Hle Hne. apply Qcle_neq_lt; [exact Hle|done].
  - apply Sorted_StronglySorted; [apply _|]. apply Sorted_merge_sort. apply _.
  - rewrite sorted_items_desc_perm. apply NoDup_fst_map_to_list.
Qed.

Lemma elem_of_sorted_items (d : gmap Qc Q) (k : Qc) (s : Q) :
  (k, s) ∈ sorted_items d <-> d !! k = Some s.
Proof. rewrite sorted_items_perm. apply elem_of_map_to_list. Qed.

Lemma elem_of_sorted_items_desc (d : gmap Qc Q) (k : Qc) (s : Q) :
  (k, s) ∈ sorted_items_desc d <-> d !! k = Some s.
Proof. rewrite sorted_items_desc_perm. apply elem_of_map_to_list. Qed.

Lemma Q2Qc_this (k : Qc) : Q2Qc (this k) = k.
Proof. apply Qc_is_canon. simpl. apply Qred_correct. Qed.

Lemma list_Qeqb_refl (l : list Q) : list_Qeqb l l = true.
Proof.
  induction l as [|x l IH]; [done|]. simpl. rewrite IH, andb_true_r.
  apply Qeq_bool_iff. reflexivity.
Qed.

Lemma map_Q2Qc_this (ks : list Qc) : map Q2Qc (map this ks) = ks.
Proof.
  induction ks as [|k ks IH]; [done|]. simpl. by rewrite Q2Qc_this, IH.
Qed.

(** Sorting a list of distinct canonical prices that is already in
    ascending order gives it back; in descending order, its reverse. *)
Lemma py_sorted_ascending (ks : list Qc) :
  Sorted Qcle ks -> py_sorted (map this ks) = map this ks.
Proof.
  intros Hs. unfold py_sorted. f_equal.
  rewrite map_Q2Qc_this.
  apply (Sorted_unique Qcle); [apply Sorted_merge_sort; apply _|exact Hs|].
  apply merge_sort_Permutation.
Qed.

Lemma py_sorted_descending (ks : list Qc) :
  Sorted (flip Qcle) ks -> reverse (py_sorted (map this ks)) = map this ks.
Proof.
  intros Hs.
  assert (py_sorted (map this ks) = map this (reverse ks)) as ->.
  { rewrite <- (py_sorted_ascending (reverse ks)).
    - unfold py_sorted. f_equal. rewrite !map_Q2Qc_this.
      apply (Sorted_unique Qcle); try (apply Sorted_merge_sort; apply _).
      rewrite !merge_sort_Permutation. by rewrite reverse_Permutation.
    - apply (Sorted_reverse (flip Qcle)) in Hs. exact Hs. }
  by rewrite fmap_reverse, reverse_involutive.
Qed.


Lemma elem_of_levels (items : list (Qc * Q)) (l : OrderBookLevel) :
  l ∈ map level_of items <-> exists k s, (k, s) ∈ items /\ l = mkLevel (this k) s.
Proof.
  rewrite list_elem_of_fmap. split.
  - intros ([k s] & -> & Hin). eauto.
  - intros (k & s & Hin & ->). exists (k, s). done.
Qed.

Lemma levels_desc_strict (d : gmap Qc Q) :
  StronglySorted (fun a b => level_price b < level_price a)
    (map level_of (sorted_items_desc d)).
Proof.
  apply (StronglySorted_fmap level_of (fun a b : Qc * Q => (fst b < fst a)%Qc));
    [|apply sorted_items_desc_strict].
  intros [k1 s1] [k2 s2] H. exact H.
Qed.

Lemma levels_asc_strict (d : gmap Qc Q) :
  StronglySorted (fun a b => level_price a < level_price b)
    (map level_of (sorted_items d)).
Proof.
  apply (StronglySorted_fmap level_of (fun a b : Qc * Q => (fst a < fst b)%Qc));
    [|apply sorted_items_strict].
  intros [k1 s1] [k2 s2] H. exact H.
Qed.

Lemma level_prices (items : list (Qc * Q)) :
  map level_price (map level_of items) = map this (map fst items).
Proof. induction items as [|[k s] items IH]; [done|]. simpl. by rewrite IH. Qed.

(** What [get_state] returns, when it returns: the levels are exactly the
    entries of the book, the bids in strictly descending and the asks in
    strictly ascending price order, every price and size is positive,
    every bid is priced below every ask, and the sequence number and the
    timestamp are those of the book. *)
Theorem get_state_sorted (self : OrderBook) (st : OrderBookState) :
  get_state self = Some st ->
  (forall l, l ∈ state_bids st <->
     exists k s, _bids self !! k = Some s /\ l = mkLevel (this k) s)
  /\ (forall l, l ∈ state_asks st <->
        exists k s, _asks self !! k = Some s /\ l = mkLevel (this k) s)
  /\ StronglySorted (fun a b => level_price b < level_price a) (state_bids st)
  /\ StronglySorted (fun a b => level_price a < level_price b) (state_asks st)
  /\ Forall valid_level (state_bids st) /\ Forall valid_level (state_asks st)
  /\ (forall b a, b ∈ state_bids st -> a ∈ state_asks st ->
        level_price b < level_price a)
  /\ state_seq st = _seq self /\ state_ts st = _last_update_ts self.
Proof.
  unfold get_state.
  destruct (make_levels (sorted_items_desc (_bids self))) as [bids|] eqn:Eb;
    [|done].
  destruct (make_levels (sorted_items (_asks self))) as [asks|] eqn:Ea; [|done].
  apply make_levels_Some in Eb as [-> Hvb].
  apply make_levels_Some in Ea as [-> Hva].
  unfold make_state.
  destruct (_ && _ && _ && _) eqn:Eok; [|done].
  intros [= <-]. cbn [state_bids state_asks state_seq state_ts].
  apply andb_true_iff in Eok as [_ Hspread].
  pose proof (levels_desc_strict (_bids self)) as Hsb.
  pose proof (levels_asc_strict (_asks self)) as Hsa.
  split; [|split; [|split; [exact Hsb|split; [exact Hsa|]]]].
  - intros l. rewrite elem_of_levels.
    by setoid_rewrite elem_of_sorted_items_desc.
  - intros l. rewrite elem_of_levels.
    by setoid_rewrite elem_of_sorted_items.
  - split; [by apply Forall_fmap|]. split; [by apply Forall_fmap|].
    split; [|done].
    intros b a Hb Ha. revert Hspread Hsb Hsa Hb Ha.
    generalize (map level_of (sorted_items_desc (_bids self))).
    generalize (map level_of (sorted_items (_asks self))).
    intros las lbs Hspread Hsb Hsa Hb Ha.
    destruct lbs as [|b0 lbs]; [by apply elem_of_nil in Hb|].
    destruct las as [|a0 las]; [by apply elem_of_nil in Ha|].
    cbn in Hspread. apply negb_true_iff, Qle_bool_false in Hspread.
    apply StronglySorted_cons in Hsb as [Hb0 _].
    apply StronglySorted_cons in Hsa as [Ha0 _].
    rewrite Forall_forall in Hb0, Ha0.
    assert (level_price b <= level_price b0).
    { apply elem_of_cons in Hb as [->|Hb]; [lra|].
      specialize (Hb0 b Hb). lra. }
    assert (level_price a0 <= level_price a).
    { apply elem_of_cons in Ha as [->|Ha]; [lra|].
      specialize (Ha0 a Ha). lra. }
    lra.
Qed.

Lemma get_state_sorted_witness :
  exists st, get_state book1 = Some st
    /\ StronglySorted (fun a b => level_price b < level_price a) (state_bids st).
Proof.
  assert (exists st, get_state book1 = Some st) as [st Hst]
    by (eexists; vm_compute; reflexivity).
  exists st. split; [exact Hst|].
  exact (proj1 (proj2 (proj2 (get_state_sorted book1 st Hst)))).
Defined.

(** [get_state] succeeds on every book with positive prices and sizes, a
    non-negative sequence number and no bid at or above an ask; in
    particular the two order validators of the snapshot model never
    reject what the book produces. *)
Theorem get_state_succeeds (self : OrderBook) :
  (forall k s, _bids self !! k = Some s -> 0 < this k /\ 0 < s) ->
  (forall k s, _asks self !! k = Some s -> 0 < this k /\ 0 < s) ->
  (0 <= _seq self)%Z ->
  is_consistent self = true ->
  is_Some (get_state self).
Proof.
  intros Hvb Hva Hseq Hcons. unfold get_state.
  assert (make_levels (sorted_items_desc (_bids self))
          = Some (map level_of (sorted_items_desc (_bids self)))) as ->.
  { apply make_levels_Some. split; [done|]. apply Forall_forall.
    intros [k s] Hin. apply elem_of_sorted_items_desc in Hin.
    destruct (Hvb k s Hin). by split. }
  assert (make_levels (sorted_items (_asks self))
          = Some (map level_of (sorted_items (_asks self)))) as ->.
  { apply make_levels_Some. split; [done|]. apply Forall_forall.
    intros [k s] Hin. apply elem_of_sorted_items in Hin.
    destruct (Hva k s Hin). by split. }
  unfold make_state.
  assert ((0 <=? _seq self)%Z = true) as -> by (apply Z.leb_le; lia).
  assert (bids_must_be_descending
            (map level_of (sorted_items_desc (_bids self))) = true) as ->.
  { unfold bids_must_be_descending. destruct (_ <? 2)%nat; [done|].
    rewrite level_prices.
    rewrite py_sorted_descending; [apply list_Qeqb_refl|].
    apply (Sorted_fmap fst (flip price_le)); [by intros [??] [??]|].
    apply Sorted_merge_sort. apply _. }
  assert (asks_must_be_ascending
            (map level_of (sorted_items (_asks self))) = true) as ->.
  { unfold asks_must_be_ascending. destruct (_ <? 2)%nat; [done|].
    rewrite level_prices.
    rewrite py_sorted_ascending; [apply list_Qeqb_refl|].
    apply (Sorted_fmap fst price_le); [by intros [??] [??]|].
    apply Sorted_merge_sort. apply _. }
  assert (spread_must_be_positive
            (map level_of (sorted_items_desc (_bids self)))
            (map level_of (sorted_items (_asks self))) = true) as ->; [|done].
  rewrite is_consistent_spec in Hcons.
  destruct (sorted_items_desc (_bids self)) as [|[kb sb] lb] eqn:Eb; [done|].
  destruct (sorted_items (_asks self)) as [|[ka sa] la] eqn:Ea; [done|].
  cbn. apply negb_true_iff, Qle_bool_false.
  assert (_bids self !! kb = Some sb) as Hb.
  { apply elem_of_sorted_items_desc. rewrite Eb. apply list_elem_of_here. }
  assert (_asks self !! ka = Some sa) as Ha.
  { apply elem_of_sorted_items. rewrite Ea. apply list_elem_of_here. }
  exact (Hcons kb sb ka sa Hb Ha).
Qed.


Lemma book1_bids : _bids book1 = {[Q2Qc 100 := 10]}.
Proof. vm_compute. reflexivity. Qed.

Lemma book1_asks : _asks book1 = {[Q2Qc 101 := 15]}.
Proof. vm_compute. reflexivity. Qed.

Lemma get_state_succeeds_witness : is_Some (get_state book1).
Proof.
  apply get_state_succeeds.
  - intros k s. rewrite book1_bids. intros [<- <-]%lookup_singleton_Some.
    split; reflexivity.
  - intros k s. rewrite book1_asks. intros [<- <-]%lookup_singleton_Some.
    split; reflexivity.
  - vm_compute. discriminate.
  - vm_compute. reflexivity.
Defined.

(** *** [depth_to_price] *)

(** The walk only moves quote units from [remaining_usd] to
    [total_cost], never overshoots, and values what it buys between the
    lowest and the highest price it is offered. *)
Lemma fill_walk_spec (levels : list (Qc * Q)) (lo hi r c z : Q) :
  Forall (fun kv : Qc * Q => lo <= this (fst kv) <= hi /\ 0 < snd kv) levels ->
  0 < lo -> 0 <= r ->
  let '(r', c', z') := fill_walk levels r c z in
  r' + c' == r + c /\ 0 <= r' /\ z <= z'
  /\ lo * (z' - z) <= c' - c <= hi * (z' - z)
  /\ (levels <> [] -> 0 < r -> z < z').
Proof.
  intros Hall Hlo. revert r c z.
  induction Hall as [|[p s] levels [[Hp1 Hp2] Hs] Hall IH]; intros r c z Hr.
  - cbn. repeat split; first [lra | done].
  - cbn [fill_walk]. cbn [fst snd] in *.
    destruct (Qle_bool r 0) eqn:E0.
    { apply Qle_bool_iff in E0. repeat split; first [lra | intros; lra]. }
    apply Qle_bool_false in E0.
    destruct (Qle_bool r (this p * s)) eqn:E1.
    + apply Qle_bool_iff in E1.
      specialize (IH 0 (c + r) (z + r / this p) ltac:(lra)).
      destruct (fill_walk levels 0 (c + r) (z + r / this p)) as [[r' c'] z'].
      destruct IH as (H1 & H2 & H3 & [H4 H5] & _).
      assert (0 < r / this p) as Hq.
      { apply Qlt_shift_div_l; lra. }
      assert (this p * (r / this p) == r) as Hpq by (field; lra).
      repeat split; first [lra | nra | intros; lra | intros; nra].
    + apply Qle_bool_false in E1.
      specialize (IH (r - this p * s) (c + this p * s) (z + s) ltac:(lra)).
      destruct (fill_walk levels (r - this p * s) (c + this p * s) (z + s))
        as [[r' c'] z'].
      destruct IH as (H1 & H2 & H3 & [H4 H5] & _).
      repeat split; first [lra | nra | intros; lra | intros; nra].
Qed.

(** [depth_to_price] on a side whose prices lie in [[lo, hi]] with
    [lo > 0] and whose sizes are positive, for a positive target: the
    unfilled remainder is between 0 and the target, and the average fill
    price is between [lo] and [hi]. *)
Theorem depth_to_price_bounds (side : BookSide) (target lo hi : Q)
    (self : OrderBook) :
  let d := match side with ask => _asks self | bid => _bids self end in
  (forall k s, d !! k = Some s -> lo <= this k <= hi /\ 0 < s) ->
  d <> ∅ -> 0 < lo -> 0 < target ->
  let '(avg_price, remaining_usd) := depth_to_price side target self in
  0 <= remaining_usd <= target /\ lo <= avg_price <= hi.
Proof.
  intros d Hd Hne Hlo Ht. unfold depth_to_price.
  set (levels := match side with
                 | ask => sorted_items (_asks self)
                 | bid => sorted_items_desc (_bids self)
                 end).
  assert (levels ≡ₚ map_to_list d) as Hperm.
  { subst levels d. destruct side;
      [apply sorted_items_desc_perm|apply sorted_items_perm]. }
  assert (Forall (fun kv : Qc * Q => lo <= this (fst kv) <= hi /\ 0 < snd kv)
            levels) as Hall.
  { rewrite Hperm. apply Forall_forall. intros [k s] Hin.
    apply elem_of_map_to_list in Hin. exact (Hd k s Hin). }
  assert (levels <> []) as Hnil.
  { intros E. rewrite E in Hperm. symmetry in Hperm.
    apply Permutation_nil_r in Hperm. apply Hne.
    by apply map_to_list_empty_iff. }
  pose proof (fill_walk_spec levels lo hi target 0 0 Hall Hlo ltac:(lra)) as H.
  destruct (fill_walk levels target 0 0) as [[r' c'] z'].
  destruct H as (H1 & H2 & H3 & [H4 H5] & H6).
  specialize (H6 Hnil Ht).
  assert (Qltb 0 z' = true) as -> by (apply Qltb_true; lra).
  assert (0 <= c') by nra.
  split; [lra|].
  split.
  - apply Qle_shift_div_l; [lra|]. lra.
  - apply Qle_shift_div_r; [lra|]. lra.
Qed.

Lemma depth_to_price_bounds_witness :
  0 <= snd (depth_to_price ask 500 book1) <= 500
  /\ 101 <= fst (depth_to_price ask 500 book1) <= 101.
Proof.
  pose proof (depth_to_price_bounds ask 500 101 101 book1) as H.
  cbv zeta in H.
  destruct (depth_to_price ask 500 book1) as [avg rem].
  apply H.
  - intros k s. rewrite book1_asks. intros [<- <-]%lookup_singleton_Some.
    repeat split; vm_compute; discriminate.
  - rewrite book1_asks. apply insert_non_empty.
  - reflexivity.
  - reflexivity.
Defined.

(** On an empty side, or for a non-positive target, nothing is walked. *)
Lemma depth_to_price_nothing (side : BookSide) (target : Q) (self : OrderBook) :
  match side with ask => _asks self | bid => _bids self end = ∅ \/ target <= 0 ->
  depth_to_price side target self = (0, target).
Proof.
  intros [He|Ht]; unfold depth_to_price.
  - destruct side; rewrite He; reflexivity.
  - apply Qle_bool_iff in Ht.
    destruct side.
    + destruct (sorted_items_desc (_bids self)) as [|[p s] l]; [done|].
      cbn. by rewrite Ht.
    + destruct (sorted_items (_asks self)) as [|[p s] l]; [done|].
      cbn. by rewrite Ht.
Qed.


(** *** [mid], [spread] and the snapshot *)

Lemma is_empty_sorted_items (d : gmap Qc Q) :
  is_empty d = match sorted_items d with [] => true | _ => false end.
Proof.
  unfold is_empty. pose proof (sorted_items_perm d) as Hp.
  destruct (sorted_items d), (map_to_list d); try done.
  - by apply Permutation_nil_cons in Hp.
  - symmetry in Hp. by apply Permutation_nil_cons in Hp.
Qed.

Lemma is_empty_sorted_items_desc (d : gmap Qc Q) :
  is_empty d = match sorted_items_desc d with [] => true | _ => false end.
Proof.
  unfold is_empty. pose proof (sorted_items_desc_perm d) as Hp.
  destruct (sorted_items_desc d), (map_to_list d); try done.
  - by apply Permutation_nil_cons in Hp.
  - symmetry in Hp. by apply Permutation_nil_cons in Hp.
Qed.

Lemma this_inj (a b : Qc) : this a == this b -> a = b.
Proof. intros H. by apply Qc_is_canon. Qed.

(** The first entry in descending order carries the highest price. *)
Lemma head_desc_is_max (d : gmap Qc Q) (k : Qc) (s : Q) (l : list (Qc * Q)) :
  sorted_items_desc d = (k, s) :: l -> np_max (keys d) = this k.
Proof.
  intros E.
  assert (d !! k = Some s) as Hk.
  { apply elem_of_sorted_items_desc. rewrite E. apply list_elem_of_here. }
  assert (keys d <> []) as Hne.
  { intros Hnil. assert (this k ∈ keys d) as Hin by (apply elem_of_keys; eauto).
    rewrite Hnil in Hin. by apply elem_of_nil in Hin. }
  destruct (proj1 (elem_of_keys d _) (np_max_in _ Hne)) as (k1 & s1 & Hk1 & Emax).
  rewrite Emax. f_equal. apply this_inj.
  assert (this k <= this k1).
  { rewrite <- Emax. apply np_max_ge, elem_of_keys. eauto. }
  assert (this k1 <= this k); [|lra].
  pose proof (sorted_items_desc_strict d) as Hs. rewrite E in Hs.
  apply StronglySorted_cons in Hs as [Hall _]. rewrite Forall_forall in Hall.
  apply elem_of_sorted_items_desc in Hk1. rewrite E in Hk1.
  apply elem_of_cons in Hk1 as [[= -> _]|Hin]; [lra|].
  specialize (Hall _ Hin). cbn in Hall. unfold Qclt in Hall. lra.
Qed.

(** The first entry in ascending order carries the lowest price. *)
Lemma head_asc_is_min (d : gmap Qc Q) (k : Qc) (s : Q) (l : list (Qc * Q)) :
  sorted_items d = (k, s) :: l -> np_min (keys d) = this k.
Proof.
  intros E.
  assert (d !! k = Some s) as Hk.
  { apply elem_of_sorted_items. rewrite E. apply list_elem_of_here. }
  assert (keys d <> []) as Hne.
  { intros Hnil. assert (this k ∈ keys d) as Hin by (apply elem_of_keys; eauto).
    rewrite Hnil in Hin. by apply elem_of_nil in Hin. }
  destruct (proj1 (elem_of_keys d _) (np_min_in _ Hne)) as (k1 & s1 & Hk1 & Emin).
  rewrite Emin. f_equal. apply this_inj.
  assert (this k1 <= this k).
  { rewrite <- Emin. apply np_min_le, elem_of_keys. eauto. }
  assert (this k <= this k1); [|lra].
  pose proof (sorted_items_strict d) as Hs. rewrite E in Hs.
  apply StronglySorted_cons in Hs as [Hall _]. rewrite Forall_forall in Hall.
  apply elem_of_sorted_items in Hk1. rewrite E in Hk1.
  apply elem_of_cons in Hk1 as [[= -> _]|Hin]; [lra|].
  specialize (Hall _ Hin). cbn in Hall. unfold Qclt in Hall. lra.
Qed.

(** What the checks of [get_state] leave: well-formed levels on both
    sides and a best bid below the best ask. *)
Lemma get_state_valid (self : OrderBook) (st : OrderBookState) :
  get_state self = Some st ->
  Forall valid_level (state_bids st) /\ Forall valid_level (state_asks st)
  /\ spread_must_be_positive (state_bids st) (state_asks st) = true.
Proof.
  unfold get_state.
  destruct (make_levels (sorted_items_desc (_bids self))) as [bids|] eqn:Eb;
    [|done].
  destruct (make_levels (sorted_items (_asks self))) as [asks|] eqn:Ea; [|done].
  apply make_levels_Some in Eb as [-> Hvb].
  apply make_levels_Some in Ea as [-> Hva].
  unfold make_state.
  destruct (_ && _ && _ && _) eqn:Eok; [|done].
  intros [= <-]. cbn [state_bids state_asks].
  apply andb_true_iff in Eok as [_ Hspread].
  split; [by apply Forall_fmap|]. split; [by apply Forall_fmap|done].
Qed.

(** The mid, spread and spread in basis points read from a snapshot are
    those the book itself reports; the spread is never negative, and with
    both sides present the spread and the mid are positive. *)
Theorem get_state_mid_spread (self : OrderBook) (st : OrderBookState) :
  get_state self = Some st ->
  state_mid st = mid self
  /\ state_spread st = spread self
  /\ state_spread_bps st = spread_bps self
  /\ 0 <= state_spread st
  /\ (state_bids st <> [] -> state_asks st <> [] ->
        0 < state_spread st /\ 0 < state_mid st).
Proof.
  intros Hst. pose proof (get_state_valid self st Hst) as (Hvb & Hva & Hcross).
  revert Hst. unfold get_state.
  destruct (make_levels (sorted_items_desc (_bids self))) as [bids|] eqn:Eb;
    [|done].
  destruct (make_levels (sorted_items (_asks self))) as [asks|] eqn:Ea; [|done].
  apply make_levels_Some in Eb as [-> _].
  apply make_levels_Some in Ea as [-> _].
  unfold make_state. destruct (_ && _ && _ && _); [|done].
  intros [= <-]. cbn [state_bids state_asks] in *.
  assert (state_mid {| state_ts := _last_update_ts self;
                       state_bids := map level_of (sorted_items_desc (_bids self));
                       state_asks := map level_of (sorted_items (_asks self));
                       state_seq := _seq self |} = mid self
          /\ state_spread {| state_ts := _last_update_ts self;
                       state_bids := map level_of (sorted_items_desc (_bids self));
                       state_asks := map level_of (sorted_items (_asks self));
                       state_seq := _seq self |} = spread self) as [Hmid Hspread].
  { unfold state_mid, state_spread, mid, spread, best_bid_price, best_ask_price.
    cbn [state_bids state_asks].
    rewrite is_empty_sorted_items_desc, is_empty_sorted_items.
    destruct (sorted_items_desc (_bids self)) as [|[kb sb] lb] eqn:Eb;
      [done|].
    destruct (sorted_items (_asks self)) as [|[ka sa] la] eqn:Ea; [done|].
    rewrite (head_desc_is_max _ _ _ _ Eb), (head_asc_is_min _ _ _ _ Ea).
    done. }
  split; [exact Hmid|]. split; [exact Hspread|].
  split; [unfold state_spread_bps, spread_bps; by rewrite Hmid, Hspread|].
  unfold state_spread, state_mid. cbn [state_bids state_asks].
  destruct (map level_of (sorted_items_desc (_bids self))) as [|b0 lb];
    [split; [lra|done]|].
  destruct (map level_of (sorted_items (_asks self))) as [|a0 la];
    [split; [lra|done]|].
  assert (level_price b0 < level_price a0) as Hlt.
  { cbn in Hcross. by apply negb_true_iff, Qle_bool_false in Hcross. }
  apply Forall_cons in Hvb as [[Hb0 _] _].
  split; [lra|]. intros _ _. split; [lra|].
  apply Qlt_shift_div_l; lra.
Qed.

Lemma get_state_mid_spread_witness :
  exists st, get_state book1 = Some st /\ state_mid st = mid book1.
Proof.
  assert (exists st, get_state book1 = Some st) as [st Hst]
    by (eexists; vm_compute; reflexivity).
  exists st. split; [exact Hst|].
  exact (proj1 (get_state_mid_spread book1 st Hst)).
Defined.

End BookFacts.

(** ** Trade tape: eviction and windows *)

Section TapeWindowFacts.
Import Tape TapeQueries.

(** Eviction removes a prefix of stale trades and stops at the first
    trade that is recent enough. *)
Lemma popleft_while_spec (cutoff : Q) (d : list Trade) :
  exists dropped,
    d = dropped ++ popleft_while cutoff d
    /\ Forall (fun t => trade_ts t < cutoff) dropped
    /\ (forall t, head (popleft_while cutoff d) = Some t -> cutoff <= trade_ts t).
Proof.
  induction d as [|x d (dropped & Hd & Hall & Hhead)]; simpl.
  - exists []. repeat split; [constructor|done].
  - destruct (Qltb (trade_ts x) cutoff) eqn:E.
    + apply Qltb_true in E. exists (x :: dropped). simpl.
      split; [by rewrite <- Hd|]. split; [by constructor|done].
    + apply Qltb_false in E. exists []. simpl.
      split; [done|]. split; [constructor|]. by intros t [= <-].
Qed.

(** A trade that is recent enough is never evicted, wherever it sits. *)
Lemma popleft_while_keeps (cutoff : Q) (d : list Trade) (t : Trade) :
  t ∈ d -> cutoff <= trade_ts t -> t ∈ popleft_while cutoff d.
Proof.
  induction d as [|x d IH]; simpl; [done|]. intros Hin Hts.
  destruct (Qltb (trade_ts x) cutoff) eqn:E; [|done].
  apply Qltb_true in E. apply elem_of_cons in Hin as [->|Hin]; [lra|].
  by apply IH.
Qed.

Lemma popleft_while_sublist (cutoff : Q) (d : list Trade) :
  popleft_while cutoff d `sublist_of` d.
Proof.
  induction d as [|x d IH]; simpl; [done|].
  destruct (Qltb (trade_ts x) cutoff); [by apply sublist_cons|done].
Qed.

(** A window is cut out of the tape as it stood. *)
Lemma recent_sublist (sec : option Z) (now1 now2 : Q) (tape : TradeTape) :
  fst (recent sec now1 now2 tape) `sublist_of` _trades tape.
Proof.
  unfold recent, _cleanup, bind, modify, gets, ret. cbn.
  destruct sec as [sec|]; cbn.
  - etransitivity; [apply sublist_filter|apply popleft_while_sublist].
  - apply popleft_while_sublist.
Qed.

(** [recent(sec)] returns trades of the tape, in tape order, all of them
    at least as recent as the requested cutoff; and it returns every
    trade of the tape that is inside both the tape window and the
    requested window. *)
Theorem recent_window (sec : Z) (now1 now2 : Q) (tape : TradeTape) :
  let window := fst (recent (Some sec) now1 now2 tape) in
  window `sublist_of` _trades tape
  /\ Forall (fun t => now2 - inject_Z sec <= trade_ts t) window
  /\ (forall t, t ∈ _trades tape ->
        now1 - inject_Z (_window_sec tape) <= trade_ts t ->
        now2 - inject_Z sec <= trade_ts t ->
        t ∈ window).
Proof.
  unfold recent, _cleanup, bind, modify, gets, ret. cbn.
  set (cut1 := now1 - inject_Z (_window_sec tape)).
  set (cut2 := now2 - inject_Z sec).
  repeat split.
  - etransitivity; [apply sublist_filter|apply popleft_while_sublist].
  - apply Forall_forall. intros t [Hts _]%list_elem_of_filter.
    apply Qle_bool_iff. by destruct (Qle_bool cut2 (trade_ts t)).
  - intros t Hin H1 H2. apply list_elem_of_filter. split.
    + apply Qle_bool_iff in H2. by rewrite H2.
    + by apply popleft_while_keeps.
Qed.

(** [add] counts the trade, evicts only a stale prefix, leaves a tape
    whose oldest trade is inside the window, and keeps the new trade
    when it is itself inside the window. *)
Theorem add_evicts_stale_prefix (trade : Trade) (now : Q) (tape : TradeTape) :
  let tape' := snd (add trade now tape) in
  let cutoff := now - inject_Z (_window_sec tape) in
  _total_trades tape' = (_total_trades tape + 1)%Z
  /\ _window_sec tape' = _window_sec tape
  /\ (exists dropped,
        _trades tape ++ [trade] = dropped ++ _trades tape'
        /\ Forall (fun t => trade_ts t < cutoff) dropped)
  /\ (forall t, head (_trades tape') = Some t -> cutoff <= trade_ts t)
  /\ (cutoff <= trade_ts trade -> last (_trades tape') = Some trade).
Proof.
  unfold add, _cleanup, bind, modify, ret. cbn.
  set (cutoff := now - inject_Z (_window_sec tape)).
  destruct (popleft_while_spec cutoff (_trades tape ++ [trade]))
    as (dropped & Hd & Hall & Hhead).
  split; [done|]. split; [done|]. split; [eauto|]. split; [exact Hhead|].
  intros Hts.
  assert (trade ∈ popleft_while cutoff (_trades tape ++ [trade])) as Hin.
  { apply popleft_while_keeps; [|done]. apply elem_of_app. right.
    apply list_elem_of_here. }
  destruct (popleft_while cutoff (_trades tape ++ [trade])) as [|x l] eqn:E;
    [by apply elem_of_nil in Hin|].
  assert (last (_trades tape ++ [trade]) = Some trade) as Hlast
    by apply last_snoc.
  rewrite Hd in Hlast. by rewrite last_app_cons in Hlast.
Qed.

(** When every trade on the tape is older than the tape window, the
    aggregate is the zero aggregate and the tape is left empty. *)
Theorem aggregate_stale_tape (sec : option Z) (now1 now2 : Q) (tape : TradeTape) :
  Forall (fun t => trade_ts t < now1 - inject_Z (_window_sec tape))
    (_trades tape) ->
  fst (aggregate sec now1 now2 tape) = empty_aggregation
  /\ _trades (snd (aggregate sec now1 now2 tape)) = [].
Proof.
  intros Hall.
  assert (popleft_while (now1 - inject_Z (_window_sec tape)) (_trades tape)
          = []) as Hnil.
  { induction Hall as [|x l Hx Hl IH]; simpl; [done|].
    apply Qltb_true in Hx. by rewrite Hx. }
  unfold aggregate, recent, _cleanup, bind, modify, gets, ret. cbn.
  rewrite Hnil. destruct sec; done.
Qed.

Lemma aggregate_stale_tape_witness :
  fst (aggregate (Some 60%Z) 1000 1000
         (mkTape 300 [mkTrade 10 100 1 side_buy] 1)) = empty_aggregation.
Proof.
  apply (aggregate_stale_tape (Some 60%Z) 1000 1000
           (mkTape 300 [mkTrade 10 100 1 side_buy] 1)).
  constructor; [reflexivity|constructor].
Defined.


(** *** Bounds on the aggregate *)

Lemma Qsum_between {A} (f : A -> Q) (l : list A) (lo hi : Q) :
  Forall (fun x => lo <= f x <= hi) l ->
  inject_Z (Z.of_nat (length l)) * lo <= Qsum (map f l)
  <= inject_Z (Z.of_nat (length l)) * hi.
Proof.
  induction 1 as [|x l [H1 H2] _ IH].
  - unfold Qsum. cbn [map length foldl Z.of_nat].
    change (inject_Z (Z.of_nat 0)) with 0. lra.
  - cbn [map length]. rewrite Nat2Z.inj_succ.
    unfold Z.succ. rewrite inject_Z_plus.
    change (inject_Z 1) with 1.
    pose proof (Qsum_cons (f x) (map f l)). nra.
Qed.

(** A weighted sum lies between the smallest and the largest value times
    the total weight. *)
Lemma Qsum_weighted_between {A} (v w : A -> Q) (l : list A) (lo hi : Q) :
  Forall (fun x => lo <= v x <= hi /\ 0 <= w x) l ->
  lo * Qsum (map w l) <= Qsum (map (fun x => v x * w x) l)
  <= hi * Qsum (map w l).
Proof.
  induction 1 as [|x l [[H1 H2] H3] _ IH].
  - unfold Qsum. cbn [map foldl]. lra.
  - cbn [map].
    pose proof (Qsum_cons (v x * w x) (map (fun x => v x * w x) l)).
    pose proof (Qsum_cons (w x) (map w l)). nra.
Qed.

Lemma Forall_of_sublist {A} (P : A -> Prop) (l1 l2 : list A) :
  l1 `sublist_of` l2 -> Forall P l2 -> Forall P l1.
Proof.
  intros Hsub Hall. rewrite Forall_forall in Hall |- *.
  intros x Hin. apply Hall. by eapply elem_of_sublist.
Qed.

Lemma valid_window (sec : option Z) (now1 now2 : Q) (tape : TradeTape) :
  Forall valid_trade (_trades tape) ->
  Forall valid_trade (fst (recent sec now1 now2 tape)).
Proof.
  intros Hall. eapply Forall_of_sublist; [apply recent_sublist|exact Hall].
Qed.

Lemma buy_share_nonneg (t : Trade) : valid_trade t -> 0 <= buy_share t.
Proof.
  intros [_ Hs]. unfold buy_share. destruct (trade_side t); try lra.
  apply Qle_shift_div_l; lra.
Qed.

Lemma sell_share_nonneg (t : Trade) : valid_trade t -> 0 <= sell_share t.
Proof.
  intros [_ Hs]. unfold sell_share. destruct (trade_side t); try lra.
  apply Qle_shift_div_l; lra.
Qed.

Lemma Qsum_map_nonneg {A} (f : A -> Q) (l : list A) :
  Forall (fun x => 0 <= f x) l -> 0 <= Qsum (map f l).
Proof.
  induction 1 as [|x l H _ IH].
  - unfold Qsum. cbn [map foldl]. lra.
  - cbn [map]. pose proof (Qsum_cons (f x) (map f l)). lra.
Qed.

(** The statistics of a list of well-formed trades. *)
Lemma aggregate_trades_bounds (trades : list Trade) :
  Forall valid_trade trades ->
  let agg := aggregate_trades trades in
  0 <= vol agg /\ (0 <= Tape.trades agg)%Z
  /\ 0 <= buy_vol agg /\ 0 <= sell_vol agg
  /\ -1 < signed_imbalance agg < 1
  /\ 0 <= min_trade agg /\ min_trade agg <= avg_trade agg <= max_trade agg
  /\ (forall t, t ∈ trades -> min_trade agg <= trade_size t <= max_trade agg)
  /\ (forall lo hi, trades <> [] ->
        Forall (fun t => lo <= trade_price t <= hi) trades ->
        lo <= vwap agg <= hi).
Proof.
  intros Hv. destruct trades as [|t0 ts].
  { cbn. repeat split; try lra; try done.
    all: match goal with H : _ ∈ [] |- _ => by apply elem_of_nil in H end. }
  set (trades := t0 :: ts) in *.
  pose proof (aggregate_loop trades 0 0 0 []) as Hloop.
  pose proof (shares_sum trades) as Hsum.
  assert (0 <= Qsum (map buy_share trades)) as Hb0.
  { apply Qsum_map_nonneg. eapply Forall_impl; [exact Hv|].
    apply buy_share_nonneg. }
  assert (0 <= Qsum (map sell_share trades)) as Hs0.
  { apply Qsum_map_nonneg. eapply Forall_impl; [exact Hv|].
    apply sell_share_nonneg. }
  assert (0 < Qsum (map trade_size trades)) as Hpos.
  { subst trades. cbn [map]. rewrite Qsum_cons.
    apply Forall_cons in Hv as [[_ H0] Hv].
    assert (0 <= Qsum (map trade_size ts)); [|lra].
    apply Qsum_map_nonneg. eapply Forall_impl; [exact Hv|].
    intros t [_ ?]. lra. }
  unfold aggregate_trades. subst trades.
  destruct (foldl aggregate_step (0, 0, 0, []) (t0 :: ts))
    as [[[b s] n] sizes].
  destruct Hloop as (Hb & Hs & Hn & Hsizes). cbn [app] in Hsizes.
  set (trades := t0 :: ts) in *.
  cbn [vol Tape.trades buy_vol sell_vol signed_imbalance min_trade avg_trade
       max_trade vwap].
  assert (sizes <> []) as Hne by (rewrite Hsizes; done).
  assert (match sizes with [] => 0 | _ => np_max sizes end = np_max sizes)
    as -> by (destruct sizes; done).
  assert (match sizes with [] => 0 | _ => np_min sizes end = np_min sizes)
    as -> by (destruct sizes; done).
  assert ((0 <? Z.of_nat (length trades))%Z = true) as ->.
  { apply Z.ltb_lt. subst trades. cbn [length]. lia. }
  assert (forall t, t ∈ trades ->
            np_min sizes <= trade_size t <= np_max sizes) as Hmm.
  { intros t Hin. assert (trade_size t ∈ sizes) as Hin'.
    { rewrite Hsizes. apply list_elem_of_fmap. eauto. }
    split; [by apply np_min_le|by apply np_max_ge]. }
  assert (0 < inject_Z (Z.of_nat (length trades))) as Hlen.
  { subst trades. cbn [length]. rewrite Nat2Z.inj_succ.
    unfold Z.succ. rewrite inject_Z_plus. change (inject_Z 1) with 1.
    assert (0 <= inject_Z (Z.of_nat (length ts))); [|lra].
    change 0 with (inject_Z 0). rewrite <- Zle_Qle. lia. }
  pose proof (Qsum_between trade_size trades (np_min sizes) (np_max sizes))
    as Hbetween.
  assert (Forall (fun x => np_min sizes <= trade_size x <= np_max sizes) trades)
    as Hallmm by (apply Forall_forall; exact Hmm).
  specialize (Hbetween Hallmm).
  assert (0 < np_min sizes) as Hminpos.
  { assert (np_min sizes ∈ map trade_size trades) as Hin
      by (rewrite <- Hsizes; by apply np_min_in).
    apply list_elem_of_fmap in Hin as (t & Et & Hin).
    rewrite Forall_forall in Hv. destruct (Hv t Hin) as [_ ?].
    rewrite Et. lra. }
  assert (Qltb 0 (b + s) = true) as -> by (apply Qltb_true; lra).
  assert (1e-9 == 1 # 1000000000) as Heps by reflexivity.
  split; [lra|]. split; [lia|]. split; [lra|]. split; [lra|].
  split.
  { split.
    - apply Qlt_shift_div_l; [lra|]. lra.
    - apply Qlt_shift_div_r; [lra|]. lra. }
  split; [lra|]. split.
  { split.
    - apply Qle_shift_div_l; [lra|]. lra.
    - apply Qle_shift_div_r; [lra|]. lra. }
  split; [exact Hmm|].
  intros lo hi _ Hprices.
  pose proof (Qsum_weighted_between trade_price trade_size trades lo hi) as Hw.
  assert (Forall (fun x => lo <= trade_price x <= hi /\ 0 <= trade_size x) trades)
    as Hall2.
  { rewrite Forall_forall in Hprices, Hv |- *. intros t Hin.
    destruct (Hv t Hin). split; [by apply Hprices|lra]. }
  specialize (Hw Hall2).
  assert (b + s == Qsum (map trade_size trades)) as Hbs by lra.
  split.
  - apply Qle_shift_div_l; [lra|]. rewrite Hbs. lra.
  - apply Qle_shift_div_r; [lra|]. rewrite Hbs. lra.
Qed.

(** [aggregate] is [aggregate_trades] on the window [recent] returns. *)
Lemma aggregate_of_recent (sec : option Z) (now1 now2 : Q) (tape : TradeTape) :
  fst (aggregate sec now1 now2 tape)
  = aggregate_trades (fst (recent sec now1 now2 tape)).
Proof.
  unfold aggregate, bind, ret.
  destruct (recent sec now1 now2 tape) as [trades tape']. reflexivity.
Qed.

(** On a tape of well-formed trades the aggregate has non-negative
    volume, count and buy/sell split, a signed imbalance strictly
    between -1 and 1, an average trade between the smallest and the
    largest trade of the window, and a VWAP between any bounds that hold
    for the prices of the window. *)
Theorem aggregate_bounds (sec : option Z) (now1 now2 : Q) (tape : TradeTape) :
  Forall valid_trade (_trades tape) ->
  let window := fst (recent sec now1 now2 tape) in
  let agg := fst (aggregate sec now1 now2 tape) in
  0 <= vol agg /\ (0 <= Tape.trades agg)%Z
  /\ 0 <= buy_vol agg /\ 0 <= sell_vol agg
  /\ -1 < signed_imbalance agg < 1
  /\ 0 <= min_trade agg /\ min_trade agg <= avg_trade agg <= max_trade agg
  /\ (forall t, t ∈ window -> min_trade agg <= trade_size t <= max_trade agg)
  /\ (forall lo hi, window <> [] ->
        Forall (fun t => lo <= trade_price t <= hi) window ->
        lo <= vwap agg <= hi).
Proof.
  intros Hv window agg.
  assert (agg = aggregate_trades window) as ->.
  { subst agg window. unfold aggregate, bind, ret.
    destruct (recent sec now1 now2 tape) as [trades tape']. reflexivity. }
  apply aggregate_trades_bounds. by apply valid_window.
Qed.

Lemma aggregate_bounds_witness :
  -1 < signed_imbalance
         (fst (aggregate (Some 60%Z) 100 100
                 (mkTape 300 [mkTrade 90 100 1 side_buy;
                              mkTrade 95 101 3 side_sell] 2))) < 1.
Proof.
  assert (Forall valid_trade
            (_trades (mkTape 300 [mkTrade 90 100 1 side_buy;
                                  mkTrade 95 101 3 side_sell] 2))) as Hv.
  { repeat constructor. }
  exact (proj1 (proj2 (proj2 (proj2 (proj2
    (aggregate_bounds (Some 60%Z) 100 100 _ Hv)))))).
Defined.

(** The toxic score is the absolute signed imbalance, so on a tape of
    well-formed trades it lies in [[0, 1)]. *)
Theorem get_toxic_score_range (sec : option Z) (now1 now2 : Q) (tape : TradeTape) :
  Forall valid_trade (_trades tape) ->
  0 <= fst (get_toxic_score sec now1 now2 tape) < 1.
Proof.
  intros Hv. unfold get_toxic_score, bind, ret.
  pose proof (aggregate_trades_bounds _ (valid_window sec now1 now2 tape Hv))
    as H.
  cbv zeta in H. rewrite <- aggregate_of_recent in H.
  destruct (aggregate sec now1 now2 tape) as [agg tape']. cbn [fst] in *.
  destruct H as (_ & _ & _ & _ & [H1 H2] & _).
  split; [apply Qabs_nonneg|]. apply Qabs_Qlt_condition. split; lra.
Qed.

Lemma get_toxic_score_range_witness :
  0 <= fst (get_toxic_score (Some 60%Z) 100 100
              (mkTape 300 [mkTrade 90 100 1 side_buy] 1)) < 1.
Proof.
  apply get_toxic_score_range. repeat constructor.
Defined.

End TapeWindowFacts.

(** ** Execution planner: every mode *)

Section PlanModeFacts.
Import Planner.

(** A plan is empty exactly when its mode is reduce_only, which is
    exactly when the decision is a DENY or there is no candidate; any
    other plan orders the whole approved size, on the candidate's side,
    with limit orders at the entry price and market orders without a
    price. *)
Theorem plan_orders_total (self : ExecutionPlanner) (risk : RiskDecision)
    (candidate : option TradeCandidate) (fv : FeatureVector)
    (vad : VolumeAnomalyReport) :
  let p := plan self risk candidate fv vad in
  (orders p = [] <-> mode p = reduce_only)
  /\ (mode p = reduce_only <-> action risk = DENY \/ candidate = None)
  /\ (mode p <> reduce_only ->
      Qsum (map order_size_usd (orders p)) == size_usd risk
      /\ exists c, candidate = Some c
         /\ Forall (fun o =>
              order_side o = cand_side c
              /\ order_price o
                 = match order_type o with
                   | limit => Some (entry_price c)
                   | market => None
                   end) (orders p))
  /\ plan_ts p = fv_ts fv.
Proof.
  intros p. subst p. unfold plan.
  destruct (action risk) eqn:Ea, candidate as [c|];
    repeat match goal with
    | |- context [if ?b then _ else _] => destruct b
    end;
    cbn [orders mode plan_ts map range seqZ].
  all: repeat split; try done; try (by intros; left); try (by intros; right);
    try (intros [H|H]; discriminate H).
  all: try (exists c; split; [reflexivity|]; repeat constructor).
  all: change (range 5) with [0; 1; 2; 3; 4]%Z;
    unfold Qsum; cbn [map foldl order_size_usd];
    change (inject_Z (Z.of_nat 5)) with 5; field.
Qed.

(** Below the slicing threshold the toxic trigger alone chooses between
    the two single-order modes: at 0.6 or more one market order that is
    not reduce-only, below 0.6 one limit order at the entry price; both
    for the full approved size. *)
Theorem plan_taker_or_maker (self : ExecutionPlanner) (risk : RiskDecision)
    (c : TradeCandidate) (fv : FeatureVector) (vad : VolumeAnomalyReport) :
  action risk <> DENY ->
  Guardian.impact_side c fv < _slicing_threshold self ->
  let p := plan self risk (Some c) fv vad in
  let toxic := Guardian.toxic_of vad in
  (0.6 <= toxic ->
     mode p = taker /\ plan_reasons p = ["TOXIC_TAKER_ONLY"]
     /\ orders p = [mkOrder market (cand_side c) None (size_usd risk) None
                      (Some false)])
  /\ (toxic < 0.6 ->
     mode p = maker /\ plan_reasons p = ["NORMAL_MAKER"]
     /\ orders p = [mkOrder limit (cand_side c) (Some (entry_price c))
                      (size_usd risk) None None]).
Proof.
  intros Hact Himp p toxic. subst p toxic.
  apply Qle_bool_false in Himp. unfold Guardian.impact_side in Himp.
  unfold plan, Guardian.toxic_of.
  destruct (action risk); try contradiction; rewrite Himp.
  all: split; intros Ht;
    [ apply Qle_bool_iff in Ht | apply Qle_bool_false in Ht ];
    rewrite Ht; repeat split.
Qed.

Lemma plan_taker_or_maker_witness :
  mode (plan (init Guardian.config0)
          (mkRiskDecision 101 ALLOW_WITH_REDUCTIONS 700 7.5 None
             [TOXIC_WARN_LEVEL; RISK_POSITION_SIZE_REDUCED] ∅)
          (Some Guardian.cand0) Guardian.fv0 Guardian.vad0) = taker.
Proof.
  apply (plan_taker_or_maker (init Guardian.config0)
           (mkRiskDecision 101 ALLOW_WITH_REDUCTIONS 700 7.5 None
              [TOXIC_WARN_LEVEL; RISK_POSITION_SIZE_REDUCED] ∅)
           Guardian.cand0 Guardian.fv0 Guardian.vad0).
  - discriminate.
  - vm_compute. reflexivity.
  - vm_compute. discriminate.
Defined.

End PlanModeFacts.

(** ** Guardian and planner together *)

Section AssessThenPlanFacts.
Import Guardian.

(** The plan built from the guardian's own decision: it is reduce_only
    exactly when the decision is a DENY and then repeats the decision's
    reasons; what it orders in total is at most 1000 and, for any other
    plan, positive and within what is left under the position cap; and
    when the guardian's toxic warning level is at most the planner's
    0.6, a taker plan is always a reduced one, of at most 700. *)
Theorem assessed_plan_within_cap (planner : Planner.ExecutionPlanner)
    (self : RiskGuardian) (candidate : option TradeCandidate)
    (fv : FeatureVector) (oad : OrderbookAnomalyReport)
    (vad : VolumeAnomalyReport) (stress : MarketStressIndex)
    (account : Account) (policy : Policy) :
  valid_fv_impacts fv ->
  let d := fst (assess candidate fv oad vad stress account policy self) in
  let p := Planner.plan planner d candidate fv vad in
  let total := Qsum (map order_size_usd (orders p)) in
  (mode p = reduce_only <-> action d = DENY)
  /\ (action d = DENY -> orders p = [] /\ plan_reasons p = reasons d)
  /\ 0 <= total <= 1000
  /\ (mode p <> reduce_only ->
      0 < total
      /\ default 0 (position_notional account) + total
         <= default 3000 (max_position_notional policy))
  /\ (mode p = taker -> vad_toxic_warn (_config self) <= 0.6 ->
      action d = ALLOW_WITH_REDUCTIONS /\ total <= 700).
Proof.
  intros Hfv d p total.
  destruct (assess_decision_bounds self candidate fv oad vad stress account
              policy Hfv) as ([Hs0 _] & Hs1 & _ & Hallow).
  fold d in Hs0, Hs1, Hallow.
  destruct candidate as [c|].
  2:{ subst total p d. cbn. unfold Qsum. cbn.
      repeat split; try done; lra. }
  assert (action d = DENY /\ p = mkPlan (fv_ts fv) [] reduce_only (reasons d)
          \/ action d <> DENY /\ mode p <> reduce_only
             /\ total == size_usd d
             /\ (mode p = taker -> 0.6 <= toxic_of vad)) as Hp.
  { subst total p. unfold Planner.plan, toxic_of.
    destruct (action d) eqn:Ea; [right|right|left; done].
    all: repeat match goal with
         | |- context [if ?b then _ else _] => destruct b eqn:?
         end;
      cbn [orders mode map];
      repeat split; try done.
    all: try (change (Planner.range 5) with [0; 1; 2; 3; 4]%Z;
              unfold Qsum; cbn [map foldl order_size_usd];
              change (inject_Z (Z.of_nat 5)) with 5; field).
    all: try (unfold Qsum; cbn [foldl order_size_usd]; ring).
    all: intros _; by apply Qle_bool_iff. }
  destruct Hp as [[Ha Hp]|(Ha & Hm & Htot & Htaker)].
  - subst total. rewrite Hp. cbn [orders mode plan_reasons map].
    unfold Qsum. cbn [foldl].
    repeat split; try done; lra.
  - destruct (Hallow Ha) as [Hpos Hcap].
    split; [split; intros; contradiction|].
    split; [intros; contradiction|].
    split; [lra|]. split; [intros _; lra|].
    intros Hmode Hwarn. specialize (Htaker Hmode).
    destruct (assess_cascade self c fv oad vad stress account policy)
      as [(_ & reason & Hd)|(_ & facts0 & Hd)]; fold d in Hd.
    { exfalso. apply Ha. rewrite Hd. reflexivity. }
    pose proof (reductions_spec (_config self) (fv_ts fv) stress policy
      (default 0 (position_notional account)) (impact_side c fv)
      (default 10 (impact_entry_cap_bps policy)) (toxic_of vad) [] facts0)
      as Hspec.
    rewrite <- Hd in Hspec. cbv zeta in Hspec.
    destruct Hspec as (Hsize & _ & Hm0 & Hact & _).
    unfold spec_multiplier in *.
    assert (Qle_bool (vad_toxic_warn (_config self)) (toxic_of vad) = true)
      as Hw by (apply Qle_bool_iff; lra).
    rewrite Hw in *.
    assert (1 * (if Qltb (default 10 (impact_entry_cap_bps policy))
                      (impact_side c fv) then 0.5 else 1) * 0.7
              * match stress_level stress with WARN => 0.5 | _ => 1 end
            <= 0.7) as Hm7.
    { destruct (Qltb _ _), (stress_level stress); lra. }
    revert Hsize Hm0 Hact Hm7.
    generalize (1 * (if Qltb (default 10 (impact_entry_cap_bps policy))
                        (impact_side c fv) then 0.5 else 1) * 0.7
                * match stress_level stress with WARN => 0.5 | _ => 1 end).
    intros m Hsize Hm0 Hact Hm7.
    split; [destruct Hact as [[_ ?]|[? _]]; [lra|done]|].
    rewrite Htot, Hsize. q_minmax; nra.
Qed.

Lemma assessed_plan_within_cap_witness :
  valid_fv_impacts fv0
  /\ Qsum (map order_size_usd
        (orders (Planner.plan (Planner.init config0)
                   (fst (assess (Some cand0) fv0 oad0 vad0 stress0 account0
                           policy0 guardian0))
                   (Some cand0) fv0 vad0))) <= 1000.
Proof.
  assert (valid_fv_impacts fv0) as Hv by (split; vm_compute; discriminate).
  split; [exact Hv|].
  exact (proj2 (proj1 (proj2 (proj2
    (assessed_plan_within_cap (Planner.init config0) guardian0 (Some cand0)
       fv0 oad0 vad0 stress0 account0 policy0 Hv))))).
Defined.

End AssessThenPlanFacts.

(** ** Tilt tracker (risk/tilt.py) *)

Section TiltTrackerFacts.
Import Tilt TiltQueries.

(** The counting loop of [trades_last_hour], from any start. *)
Lemma count_since_acc (cutoff : Q) (trades : list (Q * Q)) (acc : Z) :
  foldl (fun acc (e : Q * Q) =>
           if Qle_bool cutoff (fst e) then (acc + 1)%Z else acc) acc trades
  = (acc + foldl (fun acc (e : Q * Q) =>
                    if Qle_bool cutoff (fst e) then (acc + 1)%Z else acc)
             0%Z trades)%Z.
Proof.
  revert acc. induction trades as [|e trades IH]; intros acc; cbn [foldl].
  - lia.
  - destruct (Qle_bool cutoff (fst e)).
    + rewrite (IH (acc + 1)%Z), (IH (0 + 1)%Z). lia.
    + apply IH.
Qed.

Lemma count_since_bounds (cutoff : Q) (trades : list (Q * Q)) :
  (0 <= foldl (fun acc (e : Q * Q) =>
                 if Qle_bool cutoff (fst e) then (acc + 1)%Z else acc)
          0%Z trades <= Z.of_nat (length trades))%Z.
Proof.
  induction trades as [|e trades IH]; cbn [foldl length].
  - lia.
  - destruct (Qle_bool cutoff (fst e)).
    + rewrite count_since_acc. lia.
    + lia.
Qed.

(** What [record_trade] does to everything the tracker reports: one
    more trade in total; one more in the last hour exactly when the
    trade's own timestamp is inside the hour asked about; the reset
    date becomes the trade's date; the daily PnL grows by the trade's
    PnL on the same date and restarts from it on a new date.  The
    hourly count is never negative nor above the total, no trade being
    ever removed. *)
Theorem record_trade_effects (current_date : string) (ts pnl now : Q)
    (self : TiltTracker) :
  let self' := snd (record_trade current_date ts pnl self) in
  fst (total_trades self') = (fst (total_trades self) + 1)%Z
  /\ fst (trades_last_hour now self')
     = (fst (trades_last_hour now self)
        + if Qle_bool (now - 3600) ts then 1 else 0)%Z
  /\ (0 <= fst (trades_last_hour now self') <= fst (total_trades self'))%Z
  /\ _last_reset_date self' = Some current_date
  /\ (_last_reset_date self = Some current_date ->
      fst (daily_pnl self') == fst (daily_pnl self) + pnl)
  /\ (_last_reset_date self <> Some current_date ->
      fst (daily_pnl self') == pnl).
Proof.
  intros self'.
  assert (_trades self' = _trades self ++ [(ts, pnl)]) as Htr.
  { subst self'. unfold record_trade, bind, gets, modify, ret. cbn.
    destruct (bool_decide _); reflexivity. }
  unfold total_trades, trades_last_hour, daily_pnl, bind, gets, ret.
  cbn [fst snd]. rewrite Htr, length_app, foldl_app. cbn [foldl length fst].
  split; [lia|]. split.
  { destruct (Qle_bool (now - 3600) ts); lia. }
  split.
  { pose proof (count_since_bounds (now - 3600) (_trades self)).
    destruct (Qle_bool (now - 3600) ts); lia. }
  subst self'. unfold record_trade, bind, gets, modify, ret. cbn.
  destruct (bool_decide (_last_reset_date self = Some current_date)) eqn:E.
  - apply bool_decide_eq_true in E. cbn.
    split; [exact E|]. split; intros H; [lra | contradiction].
  - apply bool_decide_eq_false in E. cbn.
    split; [reflexivity|]. split; intros H; [contradiction | lra].
Qed.

End TiltTrackerFacts.

(** ** Signal engine: history and candidates *)

Section SignalEngineFacts.
Import Signals SignalQueries.

Variable np_std : list Q -> Q.

Lemma _range_mean_revert_frame (fv : FeatureVector) (regime : RegimeState)
    (self : SignalEngine) :
  snd (_range_mean_revert np_std fv regime self) = self.
Proof.
  unfold _range_mean_revert, bind, gets, ret.
  destruct (price_regime regime), (flow_regime regime); simpl;
    try reflexivity.
  all: cmp_cases; reflexivity.
Qed.

Lemma try_strategy_frame (name : string) (allowed : list string)
    (strategy otherwise : State SignalEngine (option TradeCandidate))
    (self : SignalEngine) :
  snd (strategy self) = self -> snd (otherwise self) = self ->
  snd (try_strategy name allowed strategy otherwise self) = self.
Proof.
  intros Hs Ho. unfold try_strategy, bind, ret.
  destruct (bool_decide _); [|exact Ho].
  destruct (strategy self) as [[c|] s'] eqn:E; cbn [snd] in *; subst s'.
  - reflexivity.
  - exact Ho.
Qed.

(** Every call of [generate] records the tick, whether a gate stops it
    or not and whatever the strategies answer: the history afterwards is
    the old one with [(ts, mid)] appended and, once 100 entries are
    held, without its oldest entry.  Nothing else is ever changed, so
    the history never holds more than 100 entries and always ends with
    the latest tick. *)
Theorem generate_records_tick (fv : FeatureVector) (regime : RegimeState)
    (policy : Policy) (self : SignalEngine) :
  let h := _price_history self in
  let h' := _price_history (snd (generate np_std fv regime policy self)) in
  h' = deque_append 100 h (fv_ts fv, fv_mid fv)
  /\ last h' = Some (fv_ts fv, fv_mid fv)
  /\ ((length h < 100)%nat -> h' = h ++ [(fv_ts fv, fv_mid fv)])
  /\ ((length h <= 100)%nat ->
      (length h' <= 100)%nat
      /\ ((length h = 100)%nat -> h' = drop 1 h ++ [(fv_ts fv, fv_mid fv)])).
Proof.
  intros h h'.
  assert (h' = deque_append 100 h (fv_ts fv, fv_mid fv)) as Hh.
  { subst h' h. unfold generate, bind, modify, gets, ret. cbn [snd fst].
    set (e := mkSignalEngine _).
    destruct (flow_regime regime); try reflexivity.
    all: destruct (default [] (allowed_strategies policy)); try reflexivity.
    all: destruct (length (_price_history e) <? 5)%nat; try reflexivity.
    all: rewrite try_strategy_frame; try reflexivity.
    all: try apply _trend_breakout_frame.
    all: apply try_strategy_frame;
      [apply _range_mean_revert_frame | reflexivity]. }
  split; [exact Hh|]. rewrite Hh. clear Hh h'. unfold deque_append.
  rewrite length_app. cbn [length].
  split.
  { destruct (100 <? length h + 1)%nat eqn:E.
    - destruct h as [|a h]; [discriminate E|].
      change (drop 1 ((a :: h) ++ [(fv_ts fv, fv_mid fv)]))
        with (h ++ [(fv_ts fv, fv_mid fv)]).
      by rewrite last_snoc.
    - by rewrite last_snoc. }
  split.
  { intros Hlt. destruct (100 <? length h + 1)%nat eqn:E; [|reflexivity].
    apply Nat.ltb_lt in E. lia. }
  intros Hle. destruct (100 <? length h + 1)%nat eqn:E.
  - apply Nat.ltb_lt in E. rewrite length_drop, length_app. cbn [length].
    split; [lia|]. intros _. rewrite drop_app_le by lia. reflexivity.
  - apply Nat.ltb_ge in E. rewrite length_app. cbn [length].
    split; [lia|]. intros Heq. lia.
Qed.

Lemma Qsum_pos (l : list Q) :
  l <> [] -> Forall (fun x => 0 < x) l -> 0 < Qsum l.
Proof.
  intros Hne Hall. induction Hall as [|x l Hx Hall IH]; [done|].
  pose proof (Qsum_cons x l) as Hc.
  destruct l as [|y l].
  - unfold Qsum in *. cbn [foldl] in *. lra.
  - assert (0 < Qsum (y :: l)) by (apply IH; discriminate). lra.
Qed.

Lemma np_mean_pos (l : list Q) :
  l <> [] -> Forall (fun x => 0 < x) l -> 0 < np_mean l.
Proof.
  intros Hne Hall. unfold np_mean.
  apply Qlt_shift_div_l.
  - destruct l as [|x l]; [done|]. cbn [length].
    change 0 with (inject_Z 0). rewrite <- Zlt_Qlt. lia.
  - pose proof (Qsum_pos l Hne Hall). lra.
Qed.

(** A candidate, when there is one, can only be a mean-reversion entry
    at the current mid in a calm range: for positive prices and a
    standard deviation that is never negative, it is named among the
    allowed strategies, passes [TradeCandidate]'s own field checks, is
    stamped with the tick's time and priced at the tick's mid, and its
    stop and target lie on opposite sides of the entry, the stop on the
    losing side. *)
Theorem generate_candidate_well_formed (fv : FeatureVector)
    (regime : RegimeState) (policy : Policy) (self : SignalEngine)
    (c : TradeCandidate) :
  (forall l, 0 <= np_std l) ->
  Forall (fun e => 0 < snd e) (_price_history self) ->
  0 < fv_mid fv ->
  fst (generate np_std fv regime policy self) = Some c ->
  valid_candidate c
  /\ strategy c = "range_mean_revert"
  /\ strategy c ∈ default [] (allowed_strategies policy)
  /\ price_regime regime = RANGE /\ flow_regime regime = CALM
  /\ cand_ts c = fv_ts fv /\ entry_price c = fv_mid fv
  /\ exists tp, tp_price c = Some tp
     /\ match cand_side c with
        | long => stop_price c < entry_price c < tp
        | short => tp < entry_price c < stop_price c
        end.
Proof.
  intros Hstd Hhist Hmid. unfold generate, bind, modify, gets, ret.
  assert (Forall (fun e : Q * Q => 0 < snd e)
            (deque_append 100 (_price_history self) (fv_ts fv, fv_mid fv)))
    as Hpos.
  { unfold deque_append. destruct (_ <? _)%nat; [apply Forall_drop|];
      (apply Forall_app; split; [exact Hhist|by constructor]). }
  destruct (deque_append_snoc (_price_history self) (fv_ts fv, fv_mid fv))
    as [h Eh]. rewrite Eh in *.
  set (e := mkSignalEngine (h ++ [(fv_ts fv, fv_mid fv)])).
  assert (_trend_breakout fv regime e = (None, e)) as Hb.
  { rewrite (surjective_pairing (_trend_breakout fv regime e)).
    rewrite _trend_breakout_frame. unfold e.
    rewrite _trend_breakout_after_append by lra. reflexivity. }
  set (allowed := default [] (allowed_strategies policy)).
  intros Hgen.
  assert ("range_mean_revert" ∈ allowed
          /\ fst (_range_mean_revert np_std fv regime e) = Some c)
    as [Hin Hc].
  { revert Hgen.
    destruct (flow_regime regime); cbn [fst]; try discriminate.
    all: destruct allowed as [|s ss] eqn:Ea; cbn [fst]; try discriminate.
    all: fold e; destruct (length (_price_history e) <? 5)%nat; cbn [fst];
      try discriminate.
    all: unfold try_strategy at 1; unfold bind.
    all: destruct (bool_decide ("trend_breakout" ∈ s :: ss));
      rewrite ?Hb; unfold try_strategy, bind, ret.
    all: destruct (bool_decide ("range_mean_revert" ∈ s :: ss)) eqn:Ein;
      cbn [fst]; try discriminate.
    all: apply bool_decide_eq_true in Ein.
    all: destruct (_range_mean_revert np_std fv regime e) as [[c'|] e'];
      cbn [fst]; try discriminate.
    all: intros [= ->]; split; [exact Ein | reflexivity]. }
  revert Hc. unfold _range_mean_revert, bind, gets, ret.
  destruct (price_regime regime) eqn:Ep, (flow_regime regime) eqn:Ef;
    cbn [fst]; try discriminate.
  unfold e. cbn [_price_history].
  set (window := last_n 30 (map snd (h ++ [(fv_ts fv, fv_mid fv)]))).
  assert (0 < np_mean window) as Hmean.
  { subst window. apply np_mean_pos.
    - rewrite map_app.
      change (map snd [(fv_ts fv, fv_mid fv)]) with [fv_mid fv].
      destruct (last_n_snoc 29 (map snd h) (fv_mid fv)) as [l' ->].
      by destruct l'.
    - unfold last_n. apply Forall_drop, Forall_fmap. exact Hpos. }
  pose proof (Hstd window) as Hs.
  unfold valid_candidate.
  destruct (Qltb (fv_mid fv) _) eqn:E1; cbn [fst].
  - apply Qltb_true in E1. intros [= <-].
    cbn [entry_price stop_price tp_price cand_confidence ttl_sec strategy
         cand_ts cand_side].
    repeat split; try done; try lra.
    eexists. split; [reflexivity|]. split; lra.
  - destruct (Qltb _ (fv_mid fv)) eqn:E2; cbn [fst]; [|discriminate].
    apply Qltb_true in E2. intros [= <-].
    cbn [entry_price stop_price tp_price cand_confidence ttl_sec strategy
         cand_ts cand_side].
    repeat split; try done; try lra.
    eexists. split; [reflexivity|]. split; lra.
Qed.

End SignalEngineFacts.

Lemma generate_candidate_well_formed_witness :
  exists c,
    fst (Signals.generate (fun _ => 0) (Signals._create_feature 5 99)
           (Signals._create_regime RANGE CALM)
           (mkPolicy None None None None None (Some ["range_mean_revert"]))
           (Signals.mkSignalEngine
              [(1, 100); (2, 100); (3, 100); (4, 100)])) = Some c
    /\ cand_side c = long /\ SignalQueries.valid_candidate c.
Proof.
  eexists. split; [vm_compute; reflexivity|]. split; [reflexivity|].
  eapply (generate_candidate_well_formed (fun _ => 0)
            (Signals._create_feature 5 99)
            (Signals._create_regime RANGE CALM)
            (mkPolicy None None None None None (Some ["range_mean_revert"]))
            (Signals.mkSignalEngine
               [(1, 100); (2, 100); (3, 100); (4, 100)])).
  - intros l. lra.
  - repeat constructor.
  - reflexivity.
  - vm_compute. reflexivity.
Defined.

(** ** Impact estimate: what the levels contribute *)

Section ImpactDepthFacts.
Import Impact ImpactDepth.

(** The impact a filled order is charged: the loop's average price is
    the quote spent over the quote asked for, which is 1. *)
Lemma filled_impact_nonneg (side : Side) (mid : Q) :
  0 <= Qmax 0 (match side with
               | buy => ((1 - mid) / mid) * 10000
               | sell => ((mid - 1) / mid) * 10000
               end).
Proof. apply Q.le_max_l. Qed.

(** For a positive order against well-formed levels and a positive mid,
    [estimate_impact_bps] always returns, never a negative number, and
    the levels matter only through their total quote depth: short of the
    order it is the sentinel 9999.9, otherwise a number fixed by the
    side and the mid alone, the same for every book deep enough; for a
    buy at a mid of 1 or more that number is 0. *)
Theorem estimate_impact_bps_ignores_levels (levels : list OrderBookLevel)
    (side : Side) (qty_usd mid : Q) :
  Forall valid_level levels -> 0 < qty_usd -> 0 < mid ->
  exists r,
    estimate_impact_bps levels side qty_usd mid = Some r
    /\ 0 <= r
    /\ (depth_usd levels < qty_usd -> r == sentinel)
    /\ (qty_usd <= depth_usd levels ->
        r == Qmax 0 (match side with
                     | buy => ((1 - mid) / mid) * 10000
                     | sell => ((mid - 1) / mid) * 10000
                     end)
        /\ (side = buy -> 1 <= mid -> r == 0)
        /\ forall levels',
             Forall valid_level levels' -> qty_usd <= depth_usd levels' ->
             exists r', estimate_impact_bps levels' side qty_usd mid = Some r'
                        /\ r' == r).
Proof.
  intros Hv Hq Hm.
  destruct (Qlt_le_dec (depth_usd levels) qty_usd) as [Hd|Hd].
  - exists sentinel.
    split; [by apply estimate_impact_bps_insufficient|].
    split; [vm_compute; discriminate|].
    split; [reflexivity|]. intros Hd'. lra.
  - destruct (estimate_impact_bps_filled levels side qty_usd mid Hv Hq Hd Hm)
      as (r & Hr & Er).
    exists r. split; [exact Hr|].
    pose proof (filled_impact_nonneg side mid) as Hnn.
    split; [lra|]. split; [intros; lra|]. intros _.
    split; [exact Er|]. split.
    + intros -> Hmid. rewrite Er.
      assert ((1 - mid) / mid * 10000 <= 0) as Hle.
      { unfold Qdiv.
        assert (0 < / mid) by (by apply Qinv_lt_0_compat). nra. }
      q_minmax; lra.
    + intros levels' Hv' Hd'.
      destruct (estimate_impact_bps_filled levels' side qty_usd mid Hv' Hq
                  Hd' Hm) as (r' & Hr' & Er').
      exists r'. split; [exact Hr'|]. rewrite Er, Er'. reflexivity.
Qed.

Lemma estimate_impact_bps_ignores_levels_witness :
  exists r, estimate_impact_bps test_asks sell 1000 99.5 = Some r /\ 0 <= r.
Proof.
  destruct (estimate_impact_bps_ignores_levels test_asks sell 1000 99.5)
    as (r & Hr & Hnn & _).
  - repeat constructor.
  - reflexivity.
  - reflexivity.
  - exists r. split; [exact Hr | exact Hnn].
Defined.

Lemma pow2_pos (n : nat) : 0 < pow2 n.
Proof. induction n as [|n IH]; cbn [pow2]; lra. Qed.

Lemma pow2_above (q : Q) : exists n, q <= pow2 n.
Proof.
  assert (forall n : nat, inject_Z (Z.of_nat n) + 1 <= pow2 n) as Hlin.
  { induction n as [|n IH].
    - vm_compute. discriminate.
    - rewrite Nat2Z.inj_succ. unfold Z.succ. rewrite inject_Z_plus.
      cbn [pow2]. change (inject_Z 1) with 1.
      assert (0 <= inject_Z (Z.of_nat n)).
      { change 0 with (inject_Z 0). rewrite <- Zle_Qle. lia. }
      lra. }
  exists (Z.to_nat (Qceiling q)).
  pose proof (Qle_ceiling q) as Hc.
  pose proof (Hlin (Z.to_nat (Qceiling q))) as Hl.
  destruct (Z_le_gt_dec 0 (Qceiling q)) as [H0|H0].
  - rewrite Z2Nat.id in Hl by exact H0. lra.
  - assert (inject_Z (Qceiling q) <= 0).
    { change 0 with (inject_Z 0). rewrite <- Zle_Qle. lia. }
    pose proof (pow2_pos (Z.to_nat (Qceiling q))). lra.
Qed.

(** The bisection, for levels whose every probe is filled: the impact of
    each probe is the same number [k], so the search moves one way
    only. *)
Lemma bisect_one_way (levels : list OrderBookLevel) (side : Side)
    (max_impact_bps mid : Q) (n : nat) :
  Forall valid_level levels -> 0 < mid ->
  forall fuel low high,
    (n < fuel)%nat ->
    0 <= low -> low <= high -> high <= depth_usd levels ->
    0 < high -> high - low <= pow2 n ->
    exists r,
      bisect fuel levels side max_impact_bps mid low high = Returned r
      /\ low <= r <= high
      /\ let k := Qmax 0 (match side with
                          | buy => ((1 - mid) / mid) * 10000
                          | sell => ((mid - 1) / mid) * 10000
                          end) in
         (k <= max_impact_bps -> high - 1 <= r)
         /\ (max_impact_bps < k -> r == low).
Proof.
  intros Hv Hm. induction n as [|n IH]; intros fuel low high Hf H0 Hlh Hd Hh Hw.
  - destruct fuel as [|fuel]; [lia|]. cbn [bisect pow2] in *.
    assert (Qltb tolerance (high - low) = false) as ->.
    { apply Qltb_false. unfold tolerance. lra. }
    exists low. split; [reflexivity|]. split; [lra|].
    cbv zeta. split; intros; lra.
  - destruct fuel as [|fuel]; [lia|]. cbn [bisect].
    destruct (Qltb tolerance (high - low)) eqn:Et.
    2:{ apply Qltb_false in Et. unfold tolerance in Et.
        exists low. split; [reflexivity|]. split; [lra|].
        cbv zeta. split; intros; lra. }
    apply Qltb_true in Et. unfold tolerance in Et.
    set (mid_qty := (low + high) / 2).
    assert (mid_qty == (low + high) * (1 # 2)) as Emq by reflexivity.
    assert (0 < mid_qty) as Hq by lra.
    assert (mid_qty <= depth_usd levels) as Hqd by lra.
    destruct (estimate_impact_bps_filled levels side mid_qty mid Hv Hq Hqd Hm)
      as (imp & -> & Eimp).
    cbn [pow2] in Hw.
    destruct (Qle_bool imp max_impact_bps) eqn:Ei.
    + apply Qle_bool_iff in Ei.
      destruct (IH fuel mid_qty high) as (r & -> & Hr0 & Hr1 & Hr2);
        try lra; try lia.
      exists r. split; [reflexivity|]. split; [lra|]. cbv zeta in *.
      split; [exact Hr1|]. intros Hk. lra.
    + apply Qle_bool_false in Ei.
      destruct (IH fuel low mid_qty) as (r & -> & Hr0 & Hr1 & Hr2);
        try lra; try lia.
      exists r. split; [reflexivity|]. split; [lra|]. cbv zeta in *.
      split; [intros Hk; lra | exact Hr2].
Qed.

(** [estimate_market_depth_usd] always terminates on well-formed levels
    and a positive mid, and its answer is all or nothing: since every
    probe of the search is charged the same impact, it returns 0 when
    that impact is above the limit, and otherwise the whole depth of the
    levels to within the 1 USD tolerance. *)
Theorem estimate_market_depth_usd_all_or_nothing
    (levels : list OrderBookLevel) (max_impact_bps mid : Q) (side : Side) :
  Forall valid_level levels -> 0 < mid ->
  exists n, forall fuel, (n <= fuel)%nat ->
    exists r,
      estimate_market_depth_usd fuel levels max_impact_bps mid side
      = Returned r
      /\ 0 <= r <= depth_usd levels
      /\ let k := Qmax 0 (match side with
                          | buy => ((1 - mid) / mid) * 10000
                          | sell => ((mid - 1) / mid) * 10000
                          end) in
         (max_impact_bps <= 0 \/ max_impact_bps < k -> r == 0)
         /\ (0 < max_impact_bps -> k <= max_impact_bps ->
             depth_usd levels - 1 <= r).
Proof.
  intros Hv Hm.
  pose proof (depth_usd_nonneg levels Hv) as Hd0.
  destruct (pow2_above (depth_usd levels)) as [n Hn].
  exists (S n). intros fuel Hf. unfold estimate_market_depth_usd.
  destruct (Qle_bool max_impact_bps 0) eqn:E0.
  { apply Qle_bool_iff in E0. exists 0. split; [reflexivity|].
    split; [lra|]. cbv zeta. split; intros; lra. }
  apply Qle_bool_false in E0.
  destruct levels as [|l ls] eqn:El.
  { exists 0. split; [reflexivity|]. split; [lra|]. cbv zeta.
    split; [intros; lra|]. intros _ _. unfold depth_usd, Qsum. cbn. lra. }
  rewrite <- El in *. fold (depth_usd levels).
  assert (0 < depth_usd levels) as Hd.
  { rewrite El in *. rewrite depth_usd_cons.
    apply Forall_cons in Hv as [[Hp Hs] Hv'].
    pose proof (depth_usd_nonneg ls Hv'). nra. }
  destruct (bisect_one_way levels side max_impact_bps mid n Hv Hm fuel 0
              (depth_usd levels))
    as (r & Hr & Hr0 & Hk1 & Hk2); try lra; try lia.
  exists r. split; [exact Hr|]. split; [lra|]. cbv zeta in *. split.
  - intros [H|H]; [lra|]. specialize (Hk2 H). lra.
  - intros _ Hk. specialize (Hk1 Hk). lra.
Qed.

Lemma estimate_market_depth_usd_all_or_nothing_witness :
  exists n r,
    estimate_market_depth_usd n test_asks 50 99.5 buy = Returned r
    /\ 0 <= r <= depth_usd test_asks.
Proof.
  destruct (estimate_market_depth_usd_all_or_nothing test_asks 50 99.5 buy)
    as (n & Hn).
  - repeat constructor.
  - reflexivity.
  - destruct (Hn n (Nat.le_refl n)) as (r & Hr & Hrange & _).
    exists n, r. split; [exact Hr | exact Hrange].
Defined.

End ImpactDepthFacts.

(** ** Rolling statistics and the volume detector *)

Section RollingFacts.
Import Rolling.

Lemma nth_Forall (P : Q -> Prop) (l : list Q) (i : nat) (d : Q) :
  Forall P l -> P d -> P (nth i l d).
Proof.
  intros Hall Hd. revert i. induction Hall as [|x l Hx _ IH]; intros [|i];
    cbn; auto.
Qed.

(** Sorting keeps the values, up to the canonical form of each. *)
Lemma py_sorted_Forall (P : Q -> Prop) (l : list Q) :
  (forall x y, x == y -> P x -> P y) ->
  Forall P l -> Forall P (py_sorted l).
Proof.
  intros Hproper Hall. unfold py_sorted.
  apply Forall_fmap. rewrite merge_sort_Permutation.
  apply Forall_fmap. eapply Forall_impl; [exact Hall|].
  intros x Hx. cbn. apply (Hproper x); [|exact Hx].
  symmetry. apply Qred_correct.
Qed.

Lemma np_median_nonneg (l : list Q) :
  Forall (fun x => 0 <= x) l -> 0 <= np_median l.
Proof.
  intros Hall. unfold np_median.
  assert (Forall (fun x => 0 <= x) (py_sorted l)) as Hs.
  { apply py_sorted_Forall; [|exact Hall]. intros x y E H. lra. }
  assert (forall i, 0 <= nth i (py_sorted l) 0) as Hn.
  { intros i. apply (nth_Forall (fun x => 0 <= x)); [exact Hs|lra]. }
  destruct (Nat.even _).
  - pose proof (Hn (length (py_sorted l) / 2 - 1)%nat).
    pose proof (Hn (length (py_sorted l) / 2)%nat).
    apply Qle_shift_div_l; lra.
  - apply Hn.
Qed.

(** The three statistics only read the window. *)
Lemma median_frame (name : string) (self : RollingMAD) :
  snd (median name self) = self.
Proof.
  unfold median, bind, gets, ret. cbn [fst snd].
  destruct (_data self !! name) as [[|x d]|]; reflexivity.
Qed.

Lemma mad_frame (name : string) (self : RollingMAD) :
  snd (mad name self) = self.
Proof.
  unfold mad, bind, gets, ret. cbn [fst snd].
  destruct (_data self !! name) as [d|]; [|reflexivity].
  destruct (length d <? 2)%nat; reflexivity.
Qed.

Lemma mad_nonneg (name : string) (self : RollingMAD) :
  0 <= fst (mad name self).
Proof.
  unfold mad, bind, gets, ret. cbn [fst snd].
  destruct (_data self !! name) as [d|]; [|cbn [fst]; lra].
  destruct (length d <? 2)%nat; [cbn [fst]; lra|]. cbn [fst].
  apply np_median_nonneg, Forall_fmap, Forall_forall.
  intros x _. apply Qabs_nonneg.
Qed.

Lemma zscore_frame (name : string) (self : RollingMAD) :
  snd (zscore name self) = self.
Proof.
  unfold zscore, bind, gets, ret. cbn [fst snd].
  destruct (_data self !! name) as [[|x d]|]; try reflexivity.
  rewrite (surjective_pairing (median name self)), median_frame.
  rewrite (surjective_pairing (mad name self)), mad_frame.
  destruct (Qeq_bool _ 0); reflexivity.
Qed.

(** A z-score is never negative. *)
Lemma zscore_nonneg (name : string) (self : RollingMAD) :
  0 <= fst (zscore name self).
Proof.
  unfold zscore, bind, gets, ret. cbn [fst snd].
  destruct (_data self !! name) as [[|x d]|]; try (cbn [fst]; lra).
  rewrite (surjective_pairing (median name self)), median_frame.
  rewrite (surjective_pairing (mad name self)), mad_frame.
  pose proof (mad_nonneg name self) as Hm.
  destruct (Qeq_bool _ 0); cbn [fst]; [lra|].
  assert (1e-9 == 1 # 1000000000) as Heps by reflexivity.
  apply Qle_shift_div_l; [lra|].
  match goal with |- _ <= Qabs ?a => pose proof (Qabs_nonneg a) end. lra.
Qed.

End RollingFacts.

Section VolumeDetectorFacts.
Import VAD.

Variable np_log1p : Q -> Q.

Lemma on_rolling_reader {A} (m : State Rolling.RollingMAD A)
    (self : VolumeAnomalyDetector) :
  snd (m (_rolling self)) = _rolling self ->
  on_rolling m self = (fst (m (_rolling self)), self).
Proof.
  unfold on_rolling, zoom. destruct (m (_rolling self)) as [a r]. cbn.
  intros ->. by destruct self.
Qed.

Lemma on_rolling_thresholds {A} (m : State Rolling.RollingMAD A)
    (self : VolumeAnomalyDetector) :
  let self' := snd (on_rolling m self) in
  _z_warn self' = _z_warn self /\ _z_danger self' = _z_danger self
  /\ _toxic_warn self' = _toxic_warn self
  /\ _toxic_danger self' = _toxic_danger self.
Proof.
  unfold on_rolling, zoom. destruct (m (_rolling self)) as [a r]. by cbn.
Qed.

(** [detect] in one piece: the detector after the four updates, the
    three z-scores read from it, and the report built from them. *)
Lemma detect_unfold (fv : FeatureVector) (self : VolumeAnomalyDetector) :
  exists self' vol_z trades_z max_trade_z,
    0 <= vol_z /\ 0 <= trades_z /\ 0 <= max_trade_z
    /\ _z_warn self' = _z_warn self /\ _z_danger self' = _z_danger self
    /\ _toxic_warn self' = _toxic_warn self
    /\ _toxic_danger self' = _toxic_danger self
    /\ detect np_log1p fv self
       = (let score := vol_z * 0.5 + max_trade_z * 0.3 + fv_toxic fv * 10 in
          mkVAD (fv_ts fv)
            (if Qle_bool (_z_danger self) score
                || Qle_bool (_toxic_danger self) (fv_toxic fv)
             then DANGER
             else if Qle_bool (_z_warn self) score
                     || Qle_bool (_toxic_warn self) (fv_toxic fv)
             then WARN else OK)
            score
            (<["toxic" := fv_toxic fv]> (<["signed_imb" := fv_signed_imb fv]>
             (<["max_trade_z" := max_trade_z]> (<["trades_z" := trades_z]>
             (<["vol_z" := vol_z]> ∅)))))
            (<["whale" := Qle_bool (_z_warn self) max_trade_z]>
             (<["drought" := Qltb (fv_vol fv) 0.01 || Qltb vol_z (-2)]>
             (<["burst" := Qle_bool (_z_warn self) vol_z]> ∅))),
          self').
Proof.
  unfold detect, bind.
  set (u1 := on_rolling (Rolling.update "log_vol" _ _) self).
  pose proof (on_rolling_thresholds
                (Rolling.update "log_vol" (np_log1p (fv_vol fv)) (fv_ts fv))
                self) as H1.
  fold u1 in H1. cbv zeta in H1. destruct u1 as [[] s1]. cbn [snd] in H1.
  set (u2 := on_rolling (Rolling.update "trades" _ _) s1).
  pose proof (on_rolling_thresholds
                (Rolling.update "trades" (inject_Z (fv_trades fv)) (fv_ts fv))
                s1) as H2.
  fold u2 in H2. cbv zeta in H2. destruct u2 as [[] s2]. cbn [snd] in H2.
  set (u3 := on_rolling (Rolling.update "max_trade" _ _) s2).
  pose proof (on_rolling_thresholds
                (Rolling.update "max_trade" (fv_max_trade fv) (fv_ts fv))
                s2) as H3.
  fold u3 in H3. cbv zeta in H3. destruct u3 as [[] s3]. cbn [snd] in H3.
  set (u4 := on_rolling (Rolling.update "toxic" _ _) s3).
  pose proof (on_rolling_thresholds
                (Rolling.update "toxic" (fv_toxic fv) (fv_ts fv))
                s3) as H4.
  fold u4 in H4. cbv zeta in H4. destruct u4 as [[] s4]. cbn [snd] in H4.
  rewrite !on_rolling_reader by apply zscore_frame.
  exists s4, (fst (Rolling.zscore "log_vol" (_rolling s4))),
    (fst (Rolling.zscore "trades" (_rolling s4))),
    (fst (Rolling.zscore "max_trade" (_rolling s4))).
  split; [apply zscore_nonneg|]. split; [apply zscore_nonneg|].
  split; [apply zscore_nonneg|].
  destruct H1 as (A1 & B1 & C1 & D1), H2 as (A2 & B2 & C2 & D2),
    H3 as (A3 & B3 & C3 & D3), H4 as (A4 & B4 & C4 & D4).
  assert (_z_warn s4 = _z_warn self) as Ea by congruence.
  assert (_z_danger s4 = _z_danger self) as Eb by congruence.
  assert (_toxic_warn s4 = _toxic_warn self) as Ec by congruence.
  assert (_toxic_danger s4 = _toxic_danger self) as Ed by congruence.
  repeat split; try assumption.
  unfold gets, ret. cbn [fst snd]. rewrite Ea, Eb, Ec, Ed. reflexivity.
Qed.

(** The report of [detect]: it carries the tick's time and hands the
    feature's toxic on unchanged under the key the guardian, the planner
    and the regime classifier read; its z-scores are never negative, so
    a drought is flagged exactly when the volume is under 0.01, the
    score is at least ten times a non-negative toxic, and the level is
    DANGER exactly when the score or the toxic reaches its danger
    threshold, OK exactly when both stay under their warning and danger
    thresholds.  The thresholds themselves are never changed. *)
Theorem detect_report (fv : FeatureVector) (self : VolumeAnomalyDetector) :
  let r := fst (detect np_log1p fv self) in
  let self' := snd (detect np_log1p fv self) in
  let z k := default 0 (vad_triggers r !! k) in
  vad_ts r = fv_ts fv
  /\ vad_triggers r !! "toxic" = Some (fv_toxic fv)
  /\ vad_triggers r !! "signed_imb" = Some (fv_signed_imb fv)
  /\ 0 <= z "vol_z" /\ 0 <= z "trades_z" /\ 0 <= z "max_trade_z"
  /\ vad_score r == z "vol_z" * 0.5 + z "max_trade_z" * 0.3 + fv_toxic fv * 10
  /\ fv_toxic fv * 10 <= vad_score r
  /\ vad_events r !! "drought" = Some (Qltb (fv_vol fv) 0.01)
  /\ (vad_level r = DANGER <->
        _z_danger self <= vad_score r \/ _toxic_danger self <= fv_toxic fv)
  /\ (vad_level r = OK <->
        vad_score r < _z_danger self /\ fv_toxic fv < _toxic_danger self
        /\ vad_score r < _z_warn self /\ fv_toxic fv < _toxic_warn self)
  /\ _z_warn self' = _z_warn self /\ _z_danger self' = _z_danger self
  /\ _toxic_warn self' = _toxic_warn self
  /\ _toxic_danger self' = _toxic_danger self.
Proof.
  intros r self' z.
  destruct (detect_unfold fv self)
    as (s' & vol_z & trades_z & max_trade_z & Hv & Ht & Hm & Ea & Eb & Ec & Ed
        & Hdet).
  subst r self' z. rewrite Hdet. cbv zeta. cbn [fst snd vad_ts vad_triggers
    vad_score vad_events vad_level].
  set (score := vol_z * 0.5 + max_trade_z * 0.3 + fv_toxic fv * 10).
  assert ((<["toxic":=fv_toxic fv]> (<["signed_imb":=fv_signed_imb fv]>
            (<["max_trade_z":=max_trade_z]> (<["trades_z":=trades_z]>
            (<["vol_z":=vol_z]> (∅ : gmap string Q))))) !! "vol_z")
          = Some vol_z) as Lv by (by simplify_map_eq).
  assert ((<["toxic":=fv_toxic fv]> (<["signed_imb":=fv_signed_imb fv]>
            (<["max_trade_z":=max_trade_z]> (<["trades_z":=trades_z]>
            (<["vol_z":=vol_z]> (∅ : gmap string Q))))) !! "trades_z")
          = Some trades_z) as Lt by (by simplify_map_eq).
  assert ((<["toxic":=fv_toxic fv]> (<["signed_imb":=fv_signed_imb fv]>
            (<["max_trade_z":=max_trade_z]> (<["trades_z":=trades_z]>
            (<["vol_z":=vol_z]> (∅ : gmap string Q))))) !! "max_trade_z")
          = Some max_trade_z) as Lm by (by simplify_map_eq).
  rewrite Lv, Lt, Lm. cbn [default].
  split; [reflexivity|]. split; [by simplify_map_eq|].
  split; [by simplify_map_eq|].
  split; [exact Hv|]. split; [exact Ht|]. split; [exact Hm|].
  split; [reflexivity|]. split; [subst score; lra|].
  split.
  { assert (Qltb vol_z (-2) = false) as ->.
    { apply Qltb_false. lra. }
    rewrite orb_false_r. by simplify_map_eq. }
  split; [|split; [|by repeat split]].
  - destruct (Qle_bool (_z_danger self) score) eqn:E1;
      destruct (Qle_bool (_toxic_danger self) (fv_toxic fv)) eqn:E2;
      destruct (Qle_bool (_z_warn self) score) eqn:E3;
      destruct (Qle_bool (_toxic_warn self) (fv_toxic fv)) eqn:E4;
      cbn [orb];
      repeat match goal with
      | H : Qle_bool _ _ = true |- _ => apply Qle_bool_iff in H
      | H : Qle_bool _ _ = false |- _ => apply Qle_bool_false in H
      end;
      split; first [ done | by intros; left | by intros; right
                   | intros [?|?]; lra ].
  - destruct (Qle_bool (_z_danger self) score) eqn:E1;
      destruct (Qle_bool (_toxic_danger self) (fv_toxic fv)) eqn:E2;
      destruct (Qle_bool (_z_warn self) score) eqn:E3;
      destruct (Qle_bool (_toxic_warn self) (fv_toxic fv)) eqn:E4;
      cbn [orb];
      repeat match goal with
      | H : Qle_bool _ _ = true |- _ => apply Qle_bool_iff in H
      | H : Qle_bool _ _ = false |- _ => apply Qle_bool_false in H
      end;
      split; first [ done | intros (? & ? & ? & ?); lra
                   | intros _; repeat split; assumption ].
Qed.

End VolumeDetectorFacts.

(** ** From detection to plan (app.py) *)

Section TickFacts.
Import Orchestrator.

Variable np_log1p : Q -> Q.
Variable realized_vol : list Q -> Q.
Variable np_std : list Q -> Q.

(** The flow regime of [classify] is [_classify_flow_regime] of its
    arguments; the price history plays no part in it. *)
Lemma classify_flow (fv : FeatureVector) (oad : OrderbookAnomalyReport)
    (vad : VolumeAnomalyReport) (self : Regime.RegimeClassifier) :
  flow_regime (fst (Regime.classify realized_vol fv oad vad self))
  = Regime._classify_flow_regime fv oad vad.
Proof.
  unfold Regime.classify, Regime._classify_price_regime,
    Regime._classify_vol_regime, bind, modify, gets, ret.
  cbn [fst snd].
  repeat match goal with
  | |- context [if ?b then _ else _] => destruct b
  end; reflexivity.
Qed.

(** A toxic flow regime silences the signal engine. *)
Lemma generate_toxic (fv : FeatureVector) (regime : RegimeState)
    (policy : Policy) (self : Signals.SignalEngine) :
  flow_regime regime = TOXIC ->
  fst (Signals.generate np_std fv regime policy self) = None.
Proof.
  intros H. unfold Signals.generate, bind, modify, gets, ret.
  rewrite H. reflexivity.
Qed.

(** A taker plan needs a candidate and a toxic trigger of 0.6 or more. *)
Lemma plan_taker_inv (planner : Planner.ExecutionPlanner)
    (risk : RiskDecision) (candidate : option TradeCandidate)
    (fv : FeatureVector) (vad : VolumeAnomalyReport) :
  mode (Planner.plan planner risk candidate fv vad) = taker ->
  candidate <> None /\ 0.6 <= default 0 (vad_triggers vad !! "toxic").
Proof.
  unfold Planner.plan.
  destruct (action risk), candidate as [c|]; cbn [mode]; try discriminate.
  all: destruct (Qle_bool (Planner._slicing_threshold planner) _);
    cbn [mode]; try discriminate.
  all: destruct (Qle_bool 0.6 _) eqn:E; cbn [mode]; try discriminate.
  all: intros _; split; [discriminate | by apply Qle_bool_iff].
Qed.

(** Steps 3 to 7 of a tick, end to end.  Toxic flow at 0.6 or more, an
    impact above 20 bps on either side or a DANGER book report make the
    flow regime TOXIC, so no candidate is generated, the decision is a
    DENY for NO_SIGNAL and the plan is empty.  Hence a candidate only
    ever reaches the guardian with toxic below 0.6 and both impacts at
    most 20: the planner's taker mode is never chosen, and the
    guardian's toxic rules (for thresholds of 0.6 or more) and its
    impact hard cap (for a cap of 20 or more) never fire. *)
Theorem tick_never_taker (fv : FeatureVector) (account : Account)
    (policy : Policy) (self : Orchestrator) :
  let r := fst (_tick_detect_to_plan np_log1p realized_vol np_std fv account
                  policy self) in
  let blocked :=
    0.6 <= fv_toxic fv
    \/ 20 < Qmax (fv_impact_buy_bps fv) (fv_impact_sell_bps fv)
    \/ oad_level (rec_oad r) = DANGER in
  rec_stress r = Stress.compute_stress (rec_oad r) (rec_vad r) (_config self)
  /\ rec_plan r = Planner.plan (_planner self) (rec_risk r) (rec_signal r) fv
                    (rec_vad r)
  /\ (blocked ->
      rec_signal r = None
      /\ rec_risk r = Guardian.deny (fv_ts fv) [NO_SIGNAL] ∅
      /\ rec_plan r = mkPlan (fv_ts fv) [] reduce_only [NO_SIGNAL])
  /\ (rec_signal r <> None -> ~ blocked)
  /\ mode (rec_plan r) <> taker
  /\ (0.6 <= vad_toxic_danger (Guardian._config (_risk_guardian self)) ->
      TOXIC_DANGER_LEVEL ∉ reasons (rec_risk r))
  /\ (0.6 <= vad_toxic_warn (Guardian._config (_risk_guardian self)) ->
      TOXIC_WARN_LEVEL ∉ reasons (rec_risk r))
  /\ (20 <= default 20 (impact_hard_cap_bps policy) ->
      IMPACT_HARD_CAP_EXCEEDED ∉ reasons (rec_risk r)).
Proof.
  intros r blocked. subst blocked r.
  unfold _tick_detect_to_plan, bind, zoom, gets, ret.
  destruct (OAD.detect fv (_oad self)) as [oad oad'] eqn:Eo.
  cbn [fst snd _vad _config _regime _signal_engine _risk_guardian _planner].
  destruct (detect_unfold np_log1p fv (_vad self))
    as (vad' & vol_z & trades_z & max_trade_z & _ & _ & _ & _ & _ & _ & _
        & Hdet).
  rewrite Hdet. cbv zeta.
  set (vad := mkVAD _ _ _ _ _).
  assert (vad_triggers vad !! "toxic" = Some (fv_toxic fv)) as Htox
    by (by subst vad; cbn [vad_triggers]; simplify_map_eq).
  clearbody vad. clear Hdet.
  cbn [fst snd _vad _config _regime _signal_engine _risk_guardian _planner].
  pose proof (classify_flow fv oad vad (_regime self)) as Hflow.
  destruct (Regime.classify realized_vol fv oad vad (_regime self))
    as [regime reg'] eqn:Er.
  cbn [fst snd _vad _config _regime _signal_engine _risk_guardian _planner]
    in *.
  pose proof (generate_toxic fv regime policy (_signal_engine self)) as Hgen.
  destruct (Signals.generate np_std fv regime policy (_signal_engine self))
    as [candidate sig'] eqn:Es.
  cbn [fst snd _vad _config _regime _signal_engine _risk_guardian _planner]
    in *.
  set (stress := Stress.compute_stress oad vad (_config self)).
  pose proof (assess_reason_sound (_risk_guardian self)) as Hsound.
  destruct (Guardian.assess candidate fv oad vad stress account policy
              (_risk_guardian self)) as [risk g'] eqn:Ea.
  cbn [fst snd _planner rec_oad rec_vad rec_stress rec_regime rec_signal
       rec_risk rec_plan].
  assert (0.6 <= fv_toxic fv
          \/ 20 < Qmax (fv_impact_buy_bps fv) (fv_impact_sell_bps fv)
          \/ oad_level oad = DANGER -> candidate = None) as Hblocked.
  { intros Hb. apply Hgen. rewrite Hflow.
    unfold Regime._classify_flow_regime. cbv zeta. rewrite Htox.
    cbn [default from_option]. unfold id.
    destruct Hb as [Hb|[Hb|Hb]].
    - apply Qle_bool_iff in Hb. by rewrite Hb.
    - apply Qltb_true in Hb. rewrite Hb. by rewrite !orb_true_r.
    - rewrite Hb. by rewrite orb_true_r. }
  assert (candidate = None -> risk = Guardian.deny (fv_ts fv) [NO_SIGNAL] ∅)
    as Hnone.
  { intros ->. cbn in Ea. by injection Ea as <- _. }
  split; [reflexivity|]. split; [reflexivity|].
  split.
  { intros Hb. specialize (Hblocked Hb). specialize (Hnone Hblocked).
    subst candidate risk. by repeat split. }
  split; [intros Hc Hb; by apply Hc, Hblocked|].
  split.
  { intros Ht. apply plan_taker_inv in Ht as [Hc Ht].
    rewrite Htox in Ht. cbn [default] in Ht.
    apply Hc, Hblocked. by left. }
  destruct candidate as [c|].
  2:{ rewrite (Hnone eq_refl). cbn [reasons Guardian.deny].
      repeat split; intros _ Hin; apply (bool_decide_pack _) in Hin;
        vm_compute in Hin; exact Hin. }
  specialize (Hsound c fv oad vad stress account policy).
  rewrite Ea in Hsound. cbv zeta in Hsound. cbn [fst] in Hsound.
  destruct Hsound as (Hd & Hw & Hh).
  assert (Guardian.toxic_of vad = fv_toxic fv) as Etox.
  { unfold Guardian.toxic_of. by rewrite Htox. }
  rewrite Etox in Hd, Hw.
  assert (~ (0.6 <= fv_toxic fv
             \/ 20 < Qmax (fv_impact_buy_bps fv) (fv_impact_sell_bps fv)
             \/ oad_level oad = DANGER)) as Hnb.
  { intros Hb. by specialize (Hblocked Hb). }
  assert (fv_toxic fv < 0.6) as Ht6.
  { apply Qnot_le_lt. intros H. apply Hnb. by left. }
  assert (Qmax (fv_impact_buy_bps fv) (fv_impact_sell_bps fv) <= 20) as Hi20.
  { apply Qnot_lt_le. intros H. apply Hnb. right. by left. }
  assert (Guardian.impact_side c fv <= 20) as Hside.
  { unfold Guardian.impact_side.
    pose proof (Q.le_max_l (fv_impact_buy_bps fv) (fv_impact_sell_bps fv)).
    pose proof (Q.le_max_r (fv_impact_buy_bps fv) (fv_impact_sell_bps fv)).
    destruct (cand_side c); lra. }
  repeat split.
  - intros H Hin. specialize (Hd Hin). lra.
  - intros H Hin. specialize (Hw Hin). lra.
  - intros H Hin. specialize (Hh Hin). lra.
Qed.

End TickFacts.

(** ** Feature engine (features/feature_engine.py) *)

Section FeatureEngineFacts.
Import OrderBook BookState BookQueries FeatureEngine.

Lemma fv_ok_spec (fv : FeatureVector) :
  fv_ok fv = true <->
  (0 <= fv_top_bid_sz fv /\ 0 <= fv_top_ask_sz fv
   /\ 0 <= fv_depth_bid_k fv /\ 0 <= fv_depth_ask_k fv
   /\ -1 <= fv_imb_k fv <= 1
   /\ 0 <= fv_impact_buy_bps fv /\ 0 <= fv_impact_sell_bps fv
   /\ 0 <= fv_msg_rate fv /\ 0 <= fv_churn fv
   /\ 0 <= fv_vol fv /\ (0 <= fv_trades fv)%Z
   /\ 0 <= fv_avg_trade fv /\ 0 <= fv_max_trade fv
   /\ -1 <= fv_signed_imb fv <= 1
   /\ 0 <= fv_toxic fv <= 1).
Proof.
  unfold fv_ok. rewrite !andb_true_iff, !Qle_bool_iff, Z.leb_le. tauto.
Qed.

(** With a mid that is not 0, [estimate_impact_bps] returns, and never
    a negative number. *)
Lemma estimate_impact_bps_total (levels : list OrderBookLevel)
    (side : Impact.Side) (qty_usd mid : Q) :
  ~ mid == 0 ->
  exists r, Impact.estimate_impact_bps levels side qty_usd mid = Some r
            /\ 0 <= r.
Proof.
  intros Hmid. unfold Impact.estimate_impact_bps.
  destruct (Qle_bool qty_usd 0); [exists 0; split; [reflexivity|lra]|].
  destruct levels as [|l ls].
  { exists Impact.sentinel. split; [reflexivity|]. vm_compute. discriminate. }
  destruct (Impact.walk (l :: ls) qty_usd 0) as [rem cost].
  destruct (Qltb 0 rem).
  { exists Impact.sentinel. split; [reflexivity|]. vm_compute. discriminate. }
  destruct (Qeq_bool mid 0) eqn:E.
  { apply Qeq_bool_iff in E. contradiction. }
  eexists. split; [reflexivity|]. apply Q.le_max_l.
Qed.

Lemma imbalance_range (a b : Q) :
  0 <= a -> 0 <= b -> -1 < (a - b) / (a + b + 1e-9) < 1.
Proof.
  intros Ha Hb.
  assert (1e-9 == 1 # 1000000000) as Heps by reflexivity.
  split.
  - apply Qlt_shift_div_l; lra.
  - apply Qlt_shift_div_r; lra.
Qed.

(** [compute] on a book whose snapshot passes its checks and a tape of
    well-formed trades: it returns a feature vector, stamped [ts], that
    satisfies every field constraint of [FeatureVector], with toxic the
    absolute value of the signed imbalance.  With a side of the book
    empty it is the all-zero vector with both impacts at 9999.9 and
    neither the engine nor the tape is touched.  Otherwise mid and
    spread are positive, the imbalances lie strictly between -1 and 1,
    the message counter is one more and the stored depths are those of
    the vector; the timestamp the message rate is measured from is
    never moved. *)
Theorem compute_valid_features (book : OrderBook) (st : OrderBookState)
    (ts now1 now2 : Q) (engine : FeatureEngine) (tape : Tape.TradeTape) :
  get_state book = Some st ->
  Forall TapeQueries.valid_trade (Tape._trades tape) ->
  (0 <= _msg_count engine)%Z ->
  let out := compute book ts now1 now2 (engine, tape) in
  let engine' := fst (snd out) in
  exists fv,
    fst out = Some fv
    /\ fv_ts fv = ts /\ fv_ok fv = true
    /\ fv_toxic fv == Qabs (fv_signed_imb fv)
    /\ _last_msg_ts engine' = _last_msg_ts engine
    /\ _impact_size_usd engine' = _impact_size_usd engine
    /\ (state_bids st = [] \/ state_asks st = [] ->
        fv = mkFeatureVector ts 0 0 0 0 0 0 0 0 0 9999.9 9999.9 0 0 0 0 0 0
               0 0
        /\ snd out = (engine, tape))
    /\ (state_bids st <> [] -> state_asks st <> [] ->
        fv_mid fv = state_mid st /\ fv_spread fv = state_spread st
        /\ 0 < fv_mid fv /\ 0 < fv_spread fv
        /\ -1 < fv_imb_k fv < 1 /\ -1 < fv_signed_imb fv < 1
        /\ fv_toxic fv < 1
        /\ _msg_count engine' = (_msg_count engine + 1)%Z
        /\ _last_depth_bid engine' = fv_depth_bid_k fv
        /\ _last_depth_ask engine' = fv_depth_ask_k fv).
Proof.
  intros Hst Htape Hcount out engine'. subst engine' out.
  destruct (get_state_valid book st Hst) as (Hvb & Hva & Hcross).
  unfold compute. rewrite Hst.
  destruct (state_bids st) as [|top_bid bids] eqn:Eb.
  { unfold ret, _empty_features, make_fv. cbn [fst snd].
    eexists. split; [vm_compute fv_ok; reflexivity|].
    repeat split; try done. }
  destruct (state_asks st) as [|top_ask asks] eqn:Ea.
  { unfold ret, _empty_features, make_fv. cbn [fst snd].
    eexists. split; [vm_compute fv_ok; reflexivity|].
    repeat split; try done. }
  cbn in Hcross. apply negb_true_iff, Qle_bool_false in Hcross.
  pose proof Hvb as Hvb'. pose proof Hva as Hva'.
  apply Forall_cons in Hvb' as [[Hpb Hsb] _].
  apply Forall_cons in Hva' as [[Hpa Hsa] _].
  assert (state_mid st = (level_price top_bid + level_price top_ask) / 2)
    as Emid by (unfold state_mid; by rewrite Eb, Ea).
  assert (state_spread st = level_price top_ask - level_price top_bid)
    as Espread by (unfold state_spread; by rewrite Eb, Ea).
  assert (0 < state_mid st) as Hmid.
  { rewrite Emid. apply Qlt_shift_div_l; lra. }
  assert (0 < state_spread st) as Hspread by (rewrite Espread; lra).
  set (k := Nat.min 20 (Nat.min (length (top_bid :: bids))
                          (length (top_ask :: asks)))).
  set (bids_k := take k (top_bid :: bids)).
  set (asks_k := take k (top_ask :: asks)).
  assert (0 <= Impact.depth_usd bids_k) as Hdb.
  { apply depth_usd_nonneg, Forall_take, Hvb. }
  assert (0 <= Impact.depth_usd asks_k) as Hda.
  { apply depth_usd_nonneg, Forall_take, Hva. }
  unfold Impact.depth_usd in Hdb, Hda.
  destruct (estimate_impact_bps_total asks_k Impact.buy
              (_impact_size_usd engine) (state_mid st))
    as (ib & Eib & Hib); [lra|].
  destruct (estimate_impact_bps_total bids_k Impact.sell
              (_impact_size_usd engine) (state_mid st))
    as (is_ & Eis & His); [lra|].
  unfold bind, gets, modify, ret, zoom. cbn [fst snd].
  rewrite Eib, Eis. cbn [fst snd _impact_size_usd _msg_count _last_msg_ts
    _last_depth_bid _last_depth_ask].
  pose proof (aggregate_trades_bounds _
                (valid_window (Some 60%Z) now1 now2 tape Htape)) as Hagg.
  cbv zeta in Hagg. rewrite <- aggregate_of_recent in Hagg.
  destruct (Tape.aggregate (Some 60%Z) now1 now2 tape) as [agg tape'].
  cbn [fst snd] in *.
  destruct Hagg as (Hvol & Htr & _ & _ & [Hs1 Hs2] & Hmin & [Havg Hmax] & _).
  pose proof (imbalance_range _ _ Hdb Hda) as [Hi1 Hi2].
  assert (Qabs (Tape.signed_imbalance agg) < 1) as Htox.
  { apply Qabs_Qlt_condition. split; lra. }
  pose proof (Qabs_nonneg (Tape.signed_imbalance agg)) as Htox0.
  unfold make_fv.
  match goal with
  | |- context [fv_ok ?v] => set (fv := v)
  end.
  assert (fv_ok fv = true) as Hok.
  { apply fv_ok_spec. subst fv.
    cbn [fv_top_bid_sz fv_top_ask_sz fv_depth_bid_k fv_depth_ask_k fv_imb_k
         fv_impact_buy_bps fv_impact_sell_bps fv_msg_rate fv_churn fv_vol
         fv_trades fv_avg_trade fv_max_trade fv_signed_imb fv_toxic].
    repeat split; try lra; try assumption.
    - destruct (Qltb 0 (ts - _last_msg_ts engine)) eqn:Et; [|lra].
      apply Qltb_true in Et. apply Qle_shift_div_l; [exact Et|].
      assert (0 <= inject_Z (_msg_count engine + 1)).
      { change 0 with (inject_Z 0). rewrite <- Zle_Qle. lia. }
      lra.
    - match goal with
      | |- 0 <= Qabs ?a + Qabs ?b =>
          pose proof (Qabs_nonneg a); pose proof (Qabs_nonneg b); lra
      end. }
  rewrite Hok. exists fv. split; [reflexivity|].
  split; [reflexivity|]. split; [exact Hok|].
  split; [reflexivity|]. split; [reflexivity|]. split; [reflexivity|].
  split; [intros [H|H]; discriminate H|].
  intros _ _. subst fv.
  cbn [fv_mid fv_spread fv_imb_k fv_signed_imb fv_toxic fv_depth_bid_k
       fv_depth_ask_k].
  repeat split; try assumption; try reflexivity.
Qed.

Lemma compute_valid_features_witness :
  exists fv,
    fst (compute book1 102 102 102
           (init 1000 100,
            Tape.mkTape 300 [mkTrade 90 100 1 side_buy;
                             mkTrade 95 101 3 side_sell] 2))
    = Some fv
    /\ fv_ok fv = true.
Proof.
  assert (exists st, get_state book1 = Some st) as [st Hst]
    by (eexists; vm_compute; reflexivity).
  destruct (compute_valid_features book1 st 102 102 102 (init 1000 100)
              (Tape.mkTape 300 [mkTrade 90 100 1 side_buy;
                                mkTrade 95 101 3 side_sell] 2) Hst)
    as (fv & Hfv & _ & Hok & _).
  - repeat constructor.
  - reflexivity.
  - exists fv. split; [exact Hfv | exact Hok].
Defined.

End FeatureEngineFacts.
